(** * The UVM tracking allocator and mapping/fault entry points

    A shallow embedding of [kernel-open/nvidia-uvm/uvm_kvmalloc.c] and of the
    entry points of [kernel-open/nvidia-uvm/uvm.c], with the properties the
    design document states about them.

    Layout: part I holds the definitions (one module per source file),
    part II the lemmas and theorems. *)

From Stdlib Require Import ZArith NArith Lia List Bool String.
From stdpp Require Import base option gmap list.

Local Open Scope N_scope.

(* ===================================================================== *)
(** * Part I-a. uvm_kvmalloc.c                                            *)
(* ===================================================================== *)

Module Kvmalloc.

(** Addresses ([void *], [uintptr_t]) and sizes ([size_t]) are natural
    numbers; the signed [atomic_long_t] counters are integers wrapped to 64
    bits.  The driver is built for 64-bit kernels only.

    The kernel allocators are not part of the driver: what they answer to a
    request is an argument of the functions below ([mem_reply], [env]), and
    their effect on the heaps follows slab.h and vmalloc.h.

    [UVM_ASSERT], [printk] and the [count_*] call counters are diagnostics
    without effect on the state below and are left out, and with them
    [g_malloc_initialized], which only assertions read.  Reading the size of
    an address that is not live is undefined in C; [ksize] and
    [hdr_alloc_size] answer 0 there. *)
Abbreviation ptr := N (only parsing).
Abbreviation size_t := N (only parsing).

Definition NULL : ptr := 0.

(** [sizeof(size_t)] and [sizeof(void * )]; [alloc_internal] checks at build
    time that the header is exactly one pointer wide. *)
Definition sizeof_hdr : N := 8.

Definition SIZE_MAX_plus_1 : N := 2 ^ 64.

(** [size_t] arithmetic wraps. *)
Definition wrap_size (n : N) : N := n mod SIZE_MAX_plus_1.

(** [long] arithmetic wraps to the signed 64-bit range. *)
Definition wrap_long (z : Z) : Z := ((z + 2 ^ 63) mod 2 ^ 64 - 2 ^ 63)%Z.

Definition long_range (z : Z) : Prop := (- 2 ^ 63 <= z < 2 ^ 63)%Z.

(** [atomic_long_add(i, v)], [atomic_long_sub(i, v)], [atomic_long_inc],
    [atomic_long_dec] on the value of the counter.  The [size_t] argument is
    converted to [long] at the call. *)
Definition long_of_size (n : size_t) : Z := wrap_long (Z.of_N n).
Definition atomic_long_add (i v : Z) : Z := wrap_long (v + i).
Definition atomic_long_sub (i v : Z) : Z := wrap_long (v - i).
Definition atomic_long_inc (v : Z) : Z := wrap_long (v + 1).
Definition atomic_long_dec (v : Z) : Z := wrap_long (v - 1).

(** ** Data *)

(** A live slab object: [obj_ksize] is what [ksize] reports (at least the
    requested size), [obj_data] its bytes. *)
Record kmalloc_obj := {
  obj_ksize : size_t;
  obj_data : list Byte.byte;
}.

(** A live vmalloc area, keyed in the state by its base address.  The first
    [sizeof_hdr] bytes are the [uvm_vmalloc_hdr_t] ([alloc_size]); [ptr_data]
    is the flexible array [ptr] behind it.  [area_len] is the byte count that
    was passed to vmalloc. *)
Record uvm_vmalloc_hdr_t := {
  area_len : size_t;
  alloc_size : size_t;
  ptr_data : list Byte.byte;
}.

(** [uvm_kvmalloc_info_t] without its tree node: the node's key is the key of
    the table. *)
Record uvm_kvmalloc_info_t := {
  file : string;
  function : string;
  line : Z;
}.

(** The kernel heaps and [g_uvm_leak_checker]. *)
Record kv_state := {
  kmalloc_objs : gmap N kmalloc_obj;
  vmalloc_areas : gmap N uvm_vmalloc_hdr_t;
  bytes_allocated : Z;
  untracked_allocations : Z;
  allocation_info : gmap N uvm_kvmalloc_info_t;
}.

Definition set_kmalloc_objs (f : gmap N kmalloc_obj -> gmap N kmalloc_obj)
    (st : kv_state) : kv_state :=
  {| kmalloc_objs := f (kmalloc_objs st);
     vmalloc_areas := vmalloc_areas st;
     bytes_allocated := bytes_allocated st;
     untracked_allocations := untracked_allocations st;
     allocation_info := allocation_info st |}.

Definition set_vmalloc_areas
    (f : gmap N uvm_vmalloc_hdr_t -> gmap N uvm_vmalloc_hdr_t)
    (st : kv_state) : kv_state :=
  {| kmalloc_objs := kmalloc_objs st;
     vmalloc_areas := f (vmalloc_areas st);
     bytes_allocated := bytes_allocated st;
     untracked_allocations := untracked_allocations st;
     allocation_info := allocation_info st |}.

Definition set_bytes_allocated (f : Z -> Z) (st : kv_state) : kv_state :=
  {| kmalloc_objs := kmalloc_objs st;
     vmalloc_areas := vmalloc_areas st;
     bytes_allocated := f (bytes_allocated st);
     untracked_allocations := untracked_allocations st;
     allocation_info := allocation_info st |}.

Definition set_untracked_allocations (f : Z -> Z) (st : kv_state) : kv_state :=
  {| kmalloc_objs := kmalloc_objs st;
     vmalloc_areas := vmalloc_areas st;
     bytes_allocated := bytes_allocated st;
     untracked_allocations := f (untracked_allocations st);
     allocation_info := allocation_info st |}.

Definition set_allocation_info
    (f : gmap N uvm_kvmalloc_info_t -> gmap N uvm_kvmalloc_info_t)
    (st : kv_state) : kv_state :=
  {| kmalloc_objs := kmalloc_objs st;
     vmalloc_areas := vmalloc_areas st;
     bytes_allocated := bytes_allocated st;
     untracked_allocations := untracked_allocations st;
     allocation_info := f (allocation_info st) |}.

(** What the kernel answers to one allocation request: no memory, or a block
    at [a].  [usable] is the slab object size ([ksize]); [junk] is what the
    block holds when it is not zeroed. *)
Inductive mem_reply :=
| NoMemory
| Granted (a : ptr) (usable : size_t) (junk : list Byte.byte).

(** The kernel's answers during one call of the allocator API: one memory
    request, and whether [nv_kmem_cache_zalloc] of the info node succeeds. *)
Record env := {
  mem : mem_reply;
  info_ok : bool;
}.

(** Build and platform parameters: the threshold macro of uvm_kvmalloc.h, the
    module parameter, and the kernel's address-range test. *)
Class Config := {
  UVM_KMALLOC_THRESHOLD : size_t;
  uvm_leak_checker : Z;
  is_vmalloc_addr : ptr -> bool;
}.

Definition UVM_KVMALLOC_LEAK_CHECK_NONE : Z := 0.
Definition UVM_KVMALLOC_LEAK_CHECK_BYTES : Z := 1.
Definition UVM_KVMALLOC_LEAK_CHECK_ORIGIN : Z := 2.

(** ** Linux primitives the file calls (slab.h, vmalloc.h) *)

Definition ZERO_SIZE_PTR : ptr := 16.
Definition ZERO_OR_NULL_PTR (x : ptr) : bool := x <=? ZERO_SIZE_PTR.

Definition zeros (n : N) : list Byte.byte := repeat Byte.x00 (N.to_nat n).

(** [kmalloc] / [kzalloc]: a zero-byte request yields [ZERO_SIZE_PTR]. *)
Definition kmalloc (size : size_t) (zero_memory : bool) (r : mem_reply)
    (st : kv_state) : ptr * kv_state :=
  if size =? 0 then (ZERO_SIZE_PTR, st)
  else match r with
       | NoMemory => (NULL, st)
       | Granted a usable junk =>
           let o := {| obj_ksize := usable;
                       obj_data := if zero_memory then zeros usable else junk |} in
           (a, set_kmalloc_objs (insert a o) st)
       end.

Definition kfree (p : ptr) (st : kv_state) : kv_state :=
  if ZERO_OR_NULL_PTR p then st else set_kmalloc_objs (delete p) st.

Definition ksize (st : kv_state) (p : ptr) : size_t :=
  if ZERO_OR_NULL_PTR p then 0
  else match kmalloc_objs st !! p with
       | Some o => obj_ksize o
       | None => 0
       end.

Definition kdata (st : kv_state) (p : ptr) : list Byte.byte :=
  match kmalloc_objs st !! p with
  | Some o => obj_data o
  | None => []
  end.

(** [krealloc]: size zero frees and yields [ZERO_SIZE_PTR]; on failure the old
    object is untouched; on success the object lives at the granted address
    (possibly the old one) and keeps its leading bytes. *)
Definition krealloc (p : ptr) (new_size : size_t) (r : mem_reply)
    (st : kv_state) : ptr * kv_state :=
  if new_size =? 0 then (ZERO_SIZE_PTR, kfree p st)
  else match r with
       | NoMemory => (NULL, st)
       | Granted a usable junk =>
           let keep := N.to_nat (N.min (ksize st p) new_size) in
           let o := {| obj_ksize := usable;
                       obj_data := take keep (kdata st p) ++ drop keep junk |} in
           (a, set_kmalloc_objs (fun m => <[a := o]> (delete p m)) st)
       end.

(** [vmalloc] / [vzalloc] of [len] bytes; the area is keyed by its base. *)
Definition vmalloc (len : size_t) (zero_memory : bool) (r : mem_reply)
    (st : kv_state) : ptr * kv_state :=
  if len =? 0 then (NULL, st)
  else match r with
       | NoMemory => (NULL, st)
       | Granted a _ junk =>
           let area := {| area_len := len;
                          alloc_size := 0;
                          ptr_data := if zero_memory then zeros (len - sizeof_hdr)
                                      else junk |} in
           (a, set_vmalloc_areas (insert a area) st)
       end.

Definition vfree (hdr : ptr) (st : kv_state) : kv_state :=
  set_vmalloc_areas (delete hdr) st.

Section WithConfig.
Context {cfg : Config}.

(** ** uvm_kvmalloc.c *)

(** [container_of(p, uvm_vmalloc_hdr_t, ptr)] *)
Definition get_hdr (p : ptr) : ptr := p - sizeof_hdr.

(** [hdr->alloc_size] *)
Definition hdr_alloc_size (st : kv_state) (hdr : ptr) : size_t :=
  match vmalloc_areas st !! hdr with
  | Some h => alloc_size h
  | None => 0
  end.

Definition uvm_kvsize (st : kv_state) (p : ptr) : size_t :=
  if is_vmalloc_addr p then hdr_alloc_size st (get_hdr p)
  else ksize st p.

Definition set_alloc_size (size : size_t) (h : uvm_vmalloc_hdr_t) : uvm_vmalloc_hdr_t :=
  {| area_len := area_len h; alloc_size := size; ptr_data := ptr_data h |}.

Definition alloc_internal (size : size_t) (zero_memory : bool) (r : mem_reply)
    (st : kv_state) : ptr * kv_state :=
  if size <=? UVM_KMALLOC_THRESHOLD then
    kmalloc size zero_memory r st
  else
    let '(hdr, st1) := vmalloc (wrap_size (sizeof_hdr + size)) zero_memory r st in
    if hdr =? NULL then (NULL, st1)
    else (hdr + sizeof_hdr,
          set_vmalloc_areas (alter (set_alloc_size size) hdr) st1).

(** Modelled from the spec: the ordered index of uvm_rb_tree.c, which is not
    among the sources.  The spec describes it as an index keyed by address;
    insertion of a key that is present is refused (the caller asserts it does
    not happen). *)
Definition uvm_rb_tree_insert (key : N) (info : uvm_kvmalloc_info_t)
    (t : gmap N uvm_kvmalloc_info_t) : gmap N uvm_kvmalloc_info_t :=
  match t !! key with
  | Some _ => t
  | None => <[key := info]> t
  end.

Definition insert_info (key : N) (info : uvm_kvmalloc_info_t)
    (st : kv_state) : kv_state :=
  set_allocation_info (uvm_rb_tree_insert key info) st.

Definition remove_info (p : ptr) (st : kv_state)
    : option uvm_kvmalloc_info_t * kv_state :=
  match allocation_info st !! p with
  | Some info => (Some info, set_allocation_info (delete p) st)
  | None => (None, set_untracked_allocations atomic_long_dec st)
  end.

Definition leak_check_origin : bool :=
  (UVM_KVMALLOC_LEAK_CHECK_ORIGIN <=? uvm_leak_checker)%Z.

Definition leak_check_enabled : bool :=
  negb (uvm_leak_checker =? 0)%Z.

Definition alloc_tracking_add (p : ptr) (file function : string) (line : Z)
    (info_ok : bool) (st : kv_state) : kv_state :=
  let size := uvm_kvsize st p in
  if ZERO_OR_NULL_PTR p then st
  else
    let st1 := set_bytes_allocated (atomic_long_add (long_of_size size)) st in
    if leak_check_origin then
      if info_ok then
        insert_info p {| file := file; function := function; line := line |} st1
      else set_untracked_allocations atomic_long_inc st1
    else st1.

Definition alloc_tracking_remove (p : ptr) (st : kv_state) : kv_state :=
  let size := uvm_kvsize st p in
  if ZERO_OR_NULL_PTR p then st
  else
    let st1 := set_bytes_allocated (atomic_long_sub (long_of_size size)) st in
    if leak_check_origin then snd (remove_info p st1)
    else st1.

Definition __uvm_kvmalloc_with (zero_memory : bool) (size : size_t)
    (file : string) (line : Z) (function : string) (e : env) (st : kv_state)
    : ptr * kv_state :=
  let '(p, st1) := alloc_internal size zero_memory (mem e) st in
  if leak_check_enabled && negb (p =? NULL) then
    (p, alloc_tracking_add p file function line (info_ok e) st1)
  else (p, st1).

Definition __uvm_kvmalloc := __uvm_kvmalloc_with false.
Definition __uvm_kvmalloc_zero := __uvm_kvmalloc_with true.

Definition uvm_kvfree (p : ptr) (st : kv_state) : kv_state :=
  if p =? NULL then st
  else
    let st1 := if leak_check_enabled then alloc_tracking_remove p st else st in
    if is_vmalloc_addr p then vfree (get_hdr p) st1
    else kfree p st1.

(** The bytes behind a pointer of either allocator, and [memcpy] into them. *)
Definition payload (st : kv_state) (p : ptr) : list Byte.byte :=
  if is_vmalloc_addr p then
    match vmalloc_areas st !! get_hdr p with
    | Some h => ptr_data h
    | None => []
    end
  else kdata st p.

Definition set_payload (p : ptr) (f : list Byte.byte -> list Byte.byte)
    (st : kv_state) : kv_state :=
  if is_vmalloc_addr p then
    set_vmalloc_areas
      (alter (fun h => {| area_len := area_len h; alloc_size := alloc_size h;
                          ptr_data := f (ptr_data h) |}) (get_hdr p)) st
  else
    set_kmalloc_objs
      (alter (fun o => {| obj_ksize := obj_ksize o; obj_data := f (obj_data o) |}) p) st.

Definition memcpy (dst src : ptr) (n : size_t) (st : kv_state) : kv_state :=
  let bytes := take (N.to_nat n) (payload st src) in
  set_payload dst (fun old => bytes ++ drop (N.to_nat n) old) st.

Definition realloc_from_kmalloc (p : ptr) (new_size : size_t) (r : mem_reply)
    (st : kv_state) : ptr * kv_state :=
  if new_size <=? UVM_KMALLOC_THRESHOLD then
    krealloc p new_size r st
  else
    let '(new_p, st1) := alloc_internal new_size false r st in
    if new_p =? NULL then (NULL, st1)
    else
      let st2 := memcpy new_p p (N.min (ksize st1 p) new_size) st1 in
      (new_p, kfree p st2).

Definition realloc_from_vmalloc (p : ptr) (new_size : size_t) (r : mem_reply)
    (st : kv_state) : ptr * kv_state :=
  let old_hdr := get_hdr p in
  if new_size =? 0 then (ZERO_SIZE_PTR, vfree old_hdr st)
  else if new_size =? hdr_alloc_size st old_hdr then (p, st)
  else
    let '(new_p, st1) := alloc_internal new_size false r st in
    if new_p =? NULL then (NULL, st1)
    else
      let st2 := memcpy new_p p (N.min new_size (hdr_alloc_size st1 old_hdr)) st1 in
      (new_p, vfree old_hdr st2).

Definition __uvm_kvrealloc (p : ptr) (new_size : size_t)
    (file : string) (line : Z) (function : string) (e : env) (st : kv_state)
    : ptr * kv_state :=
  if ZERO_OR_NULL_PTR p then __uvm_kvmalloc new_size file line function e st
  else
    let old_size := uvm_kvsize st p in
    let '(info, st1) :=
      if leak_check_enabled then
        if new_size =? 0 then (None, alloc_tracking_remove p st)
        else
          let st0 := set_bytes_allocated (atomic_long_sub (long_of_size old_size)) st in
          if leak_check_origin then remove_info p st0 else (None, st0)
      else (None, st) in
    let '(new_p, st2) :=
      if is_vmalloc_addr p then realloc_from_vmalloc p new_size (mem e) st1
      else realloc_from_kmalloc p new_size (mem e) st1 in
    let st3 :=
      if leak_check_enabled then
        if new_p =? NULL then
          let st' := set_bytes_allocated (atomic_long_add (long_of_size old_size)) st2 in
          match info with
          | Some i => if leak_check_origin then insert_info p i st' else st'
          | None => st'
          end
        else if negb (new_size =? 0) then
          alloc_tracking_add new_p file function line (info_ok e) st2
        else st2
      else st2 in
    (new_p, st3).

(** ** Vocabulary of the statements *)

(** A well-formed kernel answer never grants the null address. *)
Definition reply_wf (r : mem_reply) : Prop :=
  match r with
  | NoMemory => True
  | Granted a _ _ => a <> NULL
  end.

(** The state a failed [__uvm_kvrealloc] of [p] leaves behind: the one it
    started from, except that the sanity counter of untracked allocations has
    dropped when origin tracking is on and [p] has no record. *)
Definition after_failed_realloc (p : ptr) (st : kv_state) : kv_state :=
  if leak_check_enabled && leak_check_origin then
    match allocation_info st !! p with
    | Some _ => st
    | None => set_untracked_allocations atomic_long_dec st
    end
  else st.

(** Two states with the same heaps, byte count and origin table. *)
Definition same_allocations (st1 st2 : kv_state) : Prop :=
  kmalloc_objs st1 = kmalloc_objs st2 /\
  vmalloc_areas st1 = vmalloc_areas st2 /\
  bytes_allocated st1 = bytes_allocated st2 /\
  allocation_info st1 = allocation_info st2.

(** [p] is not backed by either allocator and, under origin tracking, has no
    record. *)
Definition released (p : ptr) (st : kv_state) : Prop :=
  (if is_vmalloc_addr p then (vmalloc_areas st !! get_hdr p = None)
   else (kmalloc_objs st !! p = None)) /\
  (if leak_check_origin then (allocation_info st !! p = None) else True).

(** The allocation at [p] is served by vmalloc behind a header that stores
    [size]: the area was requested with the length the code computes,
    [sizeof_hdr + size] in [size_t], and [p] lies just behind the header. *)
Definition served_by_vmalloc (p : ptr) (size : size_t) (st : kv_state) : Prop :=
  exists h, vmalloc_areas st !! get_hdr p = Some h /\
            p = get_hdr p + sizeof_hdr /\
            area_len h = wrap_size (sizeof_hdr + size) /\
            alloc_size h = size.

(** The allocation at [p] is a slab object. *)
Definition served_by_kmalloc (p : ptr) (st : kv_state) : Prop :=
  is_Some (kmalloc_objs st !! p).

End WithConfig.

(** A configuration to evaluate the model on: a threshold of four 4 KiB
    pages, origin tracking, and the vmalloc window of x86-64. *)
Definition VMALLOC_START : ptr := 0xffffc90000000000.
Definition VMALLOC_END : ptr := 0xffffe8ffffffffff.

Definition sample_config : Config :=
  {| UVM_KMALLOC_THRESHOLD := 16384;
     uvm_leak_checker := UVM_KVMALLOC_LEAK_CHECK_ORIGIN;
     is_vmalloc_addr := fun a => (VMALLOC_START <=? a) && (a <=? VMALLOC_END) |}.

Definition empty_state : kv_state :=
  {| kmalloc_objs := ∅; vmalloc_areas := ∅; bytes_allocated := 0;
     untracked_allocations := 0; allocation_info := ∅ |}.

(** A slab address (direct map) and a vmalloc base address. *)
Definition slab_addr : ptr := 0xffff888000001000.
Definition vmalloc_base : ptr := 0xffffc90000100000.

Definition out_of_memory : env := {| mem := NoMemory; info_ok := true |}.

Definition grant_slab (usable : size_t) : env :=
  {| mem := Granted slab_addr usable []; info_ok := true |}.

(** One tracked 128-byte slab object. *)
Definition one_object_state : kv_state :=
  {| kmalloc_objs := {[ slab_addr := {| obj_ksize := 128; obj_data := zeros 128 |} ]};
     vmalloc_areas := ∅;
     bytes_allocated := 128;
     untracked_allocations := 0;
     allocation_info :=
       {[ slab_addr := {| file := "uvm.c"; function := "uvm_service_block_context_init";
                          line := 74 |} ]} |}.

End Kvmalloc.

(* ===================================================================== *)
(** * Part I-b. uvm.c                                                     *)
(* ===================================================================== *)

Module Uvm.

(** The entry points call into the kernel and into parts of the driver that
    live in other files.  Each such call is recorded in the [trace] of the
    [world], in program order; what the callee answers is an argument of the
    entry point (the [..._env] records), and where the callee changes state
    that a property depends on (the range table, the wrappers), it is a
    function on the [world].  [UVM_ASSERT] and the debug prints are
    diagnostics and are left out. *)

(** Status codes.  The ones the file names have a constructor each; any other
    code of nvstatus.h is [NV_ERR_OTHER]. *)
Inductive NV_STATUS :=
| NV_OK
| NV_ERR_NO_MEMORY
| NV_ERR_BUSY_RETRY
| NV_WARN_MORE_PROCESSING_REQUIRED
| NV_ERR_UVM_ADDRESS_IN_USE
| NV_ERR_OTHER (code : N).

#[global] Instance NV_STATUS_eq_dec : EqDecision NV_STATUS.
Proof. solve_decision. Defined.

Definition is_ok (s : NV_STATUS) : bool :=
  match s with NV_OK => true | _ => false end.

Definition is_more_processing (s : NV_STATUS) : bool :=
  match s with NV_WARN_MORE_PROCESSING_REQUIRED => true | _ => false end.

(** 64-bit unsigned arithmetic of [unsigned long] and [NvU64]. *)
Definition wrap64 (n : N) : N := n mod 2 ^ 64.
Definition sub64 (a b : N) : N := wrap64 (a + 2 ^ 64 - wrap64 b).
Definition shl64 (a s : N) : N := wrap64 (N.shiftl a s).

(** Fault outcomes of linux/mm_types.h. *)
Definition VM_FAULT_OOM : N := 0x1.
Definition VM_FAULT_SIGBUS : N := 0x2.
Definition VM_FAULT_MAJOR : N := 0x4.
Definition VM_FAULT_NOPAGE : N := 0x100.

(** Mapping flags of linux/mm.h. *)
Definition VM_READ : N := 0x1.
Definition VM_WRITE : N := 0x2.
Definition VM_SHARED : N := 0x8.
Definition VM_DONTEXPAND : N := 0x40000.
Definition VM_MIXEDMAP : N := 0x10000000.

(** errno values. *)
Definition EAGAIN : Z := 11.
Definition ENOMEM : Z := 12.
Definition EINVAL : Z := 22.
Definition EBADFD : Z := 77.
Definition EOPNOTSUPP : Z := 95.

(** Platform parameters that come from headers outside this file. *)
Class Platform := {
  PAGE_SHIFT : N;
  nv_status_to_errno : NV_STATUS -> Z;
}.

(** ** Data *)

(** The fields of [uvm_service_block_context_t] that uvm.c touches; [scratch]
    stands for the rest of the per-fault working state. *)
Record uvm_service_block_context_t := {
  wakeup_time_stamp : N;
  did_migrate : bool;
  gpus_to_check_for_ecc : N;
  scratch : N;
}.

#[global] Instance uvm_service_block_context_t_eq_dec :
  EqDecision uvm_service_block_context_t.
Proof. solve_decision. Defined.

Definition set_wakeup_time_stamp (t : N) (c : uvm_service_block_context_t)
    : uvm_service_block_context_t :=
  {| wakeup_time_stamp := t; did_migrate := did_migrate c;
     gpus_to_check_for_ecc := gpus_to_check_for_ecc c; scratch := scratch c |}.

Inductive vm_operations_struct :=
| vm_ops_unset
| uvm_vm_ops_disabled
| uvm_vm_ops_managed
| uvm_vm_ops_semaphore_pool.

#[global] Instance vm_operations_struct_eq_dec : EqDecision vm_operations_struct.
Proof. solve_decision. Defined.

(** [struct vm_area_struct]; pointers are addresses, 0 is [NULL]. *)
Record vm_area_struct := {
  vm_start : N;
  vm_end : N;
  vm_pgoff : N;
  vm_flags : N;
  vm_mm : N;
  vm_file : N;
  vm_ops : vm_operations_struct;
  vm_private_data : N;
}.

Definition set_vm_ops (o : vm_operations_struct) (v : vm_area_struct) : vm_area_struct :=
  {| vm_start := vm_start v; vm_end := vm_end v; vm_pgoff := vm_pgoff v;
     vm_flags := vm_flags v; vm_mm := vm_mm v; vm_file := vm_file v;
     vm_ops := o; vm_private_data := vm_private_data v |}.

Definition set_vm_private_data (d : N) (v : vm_area_struct) : vm_area_struct :=
  {| vm_start := vm_start v; vm_end := vm_end v; vm_pgoff := vm_pgoff v;
     vm_flags := vm_flags v; vm_mm := vm_mm v; vm_file := vm_file v;
     vm_ops := vm_ops v; vm_private_data := d |}.

Definition set_vm_flags (f : N) (v : vm_area_struct) : vm_area_struct :=
  {| vm_start := vm_start v; vm_end := vm_end v; vm_pgoff := vm_pgoff v;
     vm_flags := f; vm_mm := vm_mm v; vm_file := vm_file v;
     vm_ops := vm_ops v; vm_private_data := vm_private_data v |}.

(** [uvm_vma_wrapper_t]: the back pointer to the vma. *)
Record uvm_vma_wrapper_t := {
  wrapper_vma : N;
}.

Inductive uvm_va_range_type_t :=
| UVM_VA_RANGE_TYPE_MANAGED
| UVM_VA_RANGE_TYPE_SEMAPHORE_POOL
| UVM_VA_RANGE_TYPE_OTHER.

#[global] Instance uvm_va_range_type_t_eq_dec : EqDecision uvm_va_range_type_t.
Proof. solve_decision. Defined.

(** [uvm_va_range_t]: inclusive bounds, kind, and for managed ranges the
    wrapper of the vma above it. *)
Record uvm_va_range_t := {
  node_start : N;
  node_end : N;
  type : uvm_va_range_type_t;
  vma_wrapper : N;
  zombie : bool;
}.

Definition set_vma_wrapper (wp : N) (r : uvm_va_range_t) : uvm_va_range_t :=
  {| node_start := node_start r; node_end := node_end r; type := type r;
     vma_wrapper := wp; zombie := zombie r |}.

Definition set_zombie (r : uvm_va_range_t) : uvm_va_range_t :=
  {| node_start := node_start r; node_end := node_end r; type := type r;
     vma_wrapper := vma_wrapper r; zombie := true |}.

Definition set_bounds (s e : N) (r : uvm_va_range_t) : uvm_va_range_t :=
  {| node_start := s; node_end := e; type := type r;
     vma_wrapper := vma_wrapper r; zombie := zombie r |}.

(** Work items of the deferred-release queue: the function and its data. *)
Inductive q_item :=
| q_uvm_release_deferred (va_space : N).

#[global] Instance q_item_eq_dec : EqDecision q_item.
Proof. solve_decision. Defined.

(** [struct file], as far as [uvm_release] touches it. *)
Record file := {
  private_data : N;
  f_mapping : N;
}.

(** Calls out of the file, in program order.  Results that steer the caller
    are part of the call. *)
Inductive call :=
| uvm_down_read_trylock (acquired : bool)
| uvm_down_read_trylock_no_tracking (acquired : bool)
| uvm_down_read
| uvm_up_read
| uvm_up_read_no_tracking
| uvm_va_space_down_read
| uvm_va_space_up_read
| uvm_va_space_down_write
| uvm_va_space_up_write
| uvm_va_space_destroy (va_space : N)
| address_space_init_once (va_space : N)
| nv_kthread_q_schedule_q_item (item : q_item)
| uvm_record_lock_mmap_lock (write : bool)
| uvm_record_unlock_mmap_lock (write : bool)
| uvm_tools_record_throttling_start (addr : N)
| uvm_tools_record_throttling_end (addr : N)
| usleep_range (min max : N)
| uvm_va_block_find_create_managed (addr : N) (status : NV_STATUS)
| uvm_va_block_cpu_fault (addr : N) (is_write : bool)
    (service_context : uvm_service_block_context_t) (status : NV_STATUS)
| uvm_tools_record_cpu_fatal_fault (addr : N) (is_write : bool) (status : NV_STATUS)
| uvm_global_mask_retain
| uvm_global_mask_check_ecc_error (status : NV_STATUS)
| uvm_global_mask_release
| uvm_tools_flush_events
| unmap_mapping_range (mapping holebegin holelen : N)
| uvm_mem_map_cpu_user (status : NV_STATUS)
| uvm_mem_unmap_cpu_user.

#[global] Instance call_eq_dec : EqDecision call.
Proof. solve_decision. Defined.

(** The state the entry points act on: the calls made so far (oldest first),
    the clock in ns, the deferred-release queue, the list of pooled fault
    service contexts, and one address space with its vmas, vma wrappers and
    range table (ordered by address). *)
Record world := {
  trace : list call;
  clock : N;
  deferred_release_q : list q_item;
  g_cpu_service_block_context_list : list uvm_service_block_context_t;
  vmas : gmap N vm_area_struct;
  wrappers : gmap N uvm_vma_wrapper_t;
  va_ranges : list uvm_va_range_t;
}.

Definition emit (c : call) (w : world) : world :=
  {| trace := trace w ++ [c]; clock := clock w;
     deferred_release_q := deferred_release_q w;
     g_cpu_service_block_context_list := g_cpu_service_block_context_list w;
     vmas := vmas w; wrappers := wrappers w; va_ranges := va_ranges w |}.

Definition advance (ns : N) (w : world) : world :=
  {| trace := trace w; clock := clock w + ns;
     deferred_release_q := deferred_release_q w;
     g_cpu_service_block_context_list := g_cpu_service_block_context_list w;
     vmas := vmas w; wrappers := wrappers w; va_ranges := va_ranges w |}.

Definition set_deferred_release_q (q : list q_item) (w : world) : world :=
  {| trace := trace w; clock := clock w;
     deferred_release_q := q;
     g_cpu_service_block_context_list := g_cpu_service_block_context_list w;
     vmas := vmas w; wrappers := wrappers w; va_ranges := va_ranges w |}.

Definition set_context_list (l : list uvm_service_block_context_t) (w : world) : world :=
  {| trace := trace w; clock := clock w;
     deferred_release_q := deferred_release_q w;
     g_cpu_service_block_context_list := l;
     vmas := vmas w; wrappers := wrappers w; va_ranges := va_ranges w |}.

Definition set_vmas (f : gmap N vm_area_struct -> gmap N vm_area_struct) (w : world) : world :=
  {| trace := trace w; clock := clock w;
     deferred_release_q := deferred_release_q w;
     g_cpu_service_block_context_list := g_cpu_service_block_context_list w;
     vmas := f (vmas w); wrappers := wrappers w; va_ranges := va_ranges w |}.

Definition set_wrappers (f : gmap N uvm_vma_wrapper_t -> gmap N uvm_vma_wrapper_t)
    (w : world) : world :=
  {| trace := trace w; clock := clock w;
     deferred_release_q := deferred_release_q w;
     g_cpu_service_block_context_list := g_cpu_service_block_context_list w;
     vmas := vmas w; wrappers := f (wrappers w); va_ranges := va_ranges w |}.

Definition set_va_ranges (f : list uvm_va_range_t -> list uvm_va_range_t)
    (w : world) : world :=
  {| trace := trace w; clock := clock w;
     deferred_release_q := deferred_release_q w;
     g_cpu_service_block_context_list := g_cpu_service_block_context_list w;
     vmas := vmas w; wrappers := wrappers w; va_ranges := f (va_ranges w) |}.

(** ** Device session: release *)

(** [uvm_va_space_get(filp)]: the address space hangs off [private_data]. *)
Definition uvm_va_space_get (filp : file) : N := private_data filp.

Definition uvm_release_deferred (va_space : N) (w : world) : world :=
  let w := emit uvm_down_read w in
  let w := emit (uvm_va_space_destroy va_space) w in
  emit uvm_up_read w.

(** The worker of the queue runs the function of an item on its data. *)
Definition run_q_item (item : q_item) (w : world) : world :=
  match item with
  | q_uvm_release_deferred va_space => uvm_release_deferred va_space w
  end.

(** [trylock] is what [uvm_down_read_trylock(&g_uvm_global.pm.lock)] answers. *)
Definition uvm_release (filp : file) (trylock : bool) (w : world)
    : Z * file * world :=
  let va_space := uvm_va_space_get filp in
  let filp := {| private_data := 0; f_mapping := 0 |} in
  let w := emit (uvm_down_read_trylock trylock) w in
  let w :=
    if trylock then
      let w := emit (uvm_va_space_destroy va_space) w in
      emit uvm_up_read w
    else
      let w := emit (address_space_init_once va_space) w in
      let item := q_uvm_release_deferred va_space in
      let w := emit (nv_kthread_q_schedule_q_item item) w in
      set_deferred_release_q (deferred_release_q w ++ [item]) w in
  (0%Z, filp, w).

(** ** Fault service contexts *)

(** [fresh] is what [uvm_kvmalloc] hands out when the list is empty: an
    uninitialised context, or nothing. *)
Definition uvm_service_block_context_cpu_alloc
    (fresh : option uvm_service_block_context_t) (w : world)
    : option uvm_service_block_context_t * world :=
  match g_cpu_service_block_context_list w with
  | service_context :: rest => (Some service_context, set_context_list rest w)
  | [] => (fresh, w)
  end.

Definition uvm_service_block_context_cpu_free
    (service_context : uvm_service_block_context_t) (w : world) : world :=
  set_context_list (service_context :: g_cpu_service_block_context_list w) w.

(** ** CPU fault handler *)

(** What the rest of the driver and the kernel do during one pass of the
    retry loop: how long [usleep_range] really sleeps (us) if it is called,
    the status of [uvm_va_block_find_create_managed], the effect of
    [uvm_va_block_cpu_fault] on the service context with its status, and the
    time the servicing takes (ns). *)
Record attempt := {
  slept_us : N;
  find_create_status : NV_STATUS;
  cpu_fault : uvm_service_block_context_t -> NV_STATUS * uvm_service_block_context_t;
  service_ns : N;
}.

(** What the handler is told during one fault. *)
Record fault_env := {
  global_status : NV_STATUS;
  pm_trylock : bool;
  fresh_context : option uvm_service_block_context_t;
  attempts : list attempt;
  tools_enabled : bool;
  ecc_status : NV_STATUS;
}.

(** The head of the loop body: the [if (status == NV_WARN_MORE_PROCESSING_REQUIRED)]
    block.  Returns [do_sleep]. *)
Definition throttle (fault_addr : N) (status : NV_STATUS)
    (service_context : uvm_service_block_context_t) (a : attempt) (w : world)
    : bool * world :=
  if is_more_processing status then
    let now := clock w in
    let do_sleep := now <? wakeup_time_stamp service_context in
    let w := if do_sleep
             then emit (uvm_tools_record_throttling_start fault_addr) w else w in
    let w := emit uvm_va_space_up_read w in
    let w :=
      if do_sleep then
        let nap_us := sub64 (wakeup_time_stamp service_context) now / 1000 in
        let w := emit (usleep_range nap_us (wrap64 (nap_us + nap_us / 2))) w in
        advance (slept_us a * 1000) w
      else w in
    (do_sleep, w)
  else (false, w).

(** The [do ... while] loop.  It runs as long as the environment has answers;
    [None] means the answers ran out while more processing was required. *)
Fixpoint fault_loop (fault_addr : N) (is_write : bool) (attempts : list attempt)
    (status : NV_STATUS) (service_context : uvm_service_block_context_t)
    (w : world) : option (NV_STATUS * uvm_service_block_context_t * world) :=
  match attempts with
  | [] => None
  | a :: rest =>
      let '(do_sleep, w) := throttle fault_addr status service_context a w in
      let w := emit uvm_va_space_down_read w in
      let w := if do_sleep
               then emit (uvm_tools_record_throttling_end fault_addr) w else w in
      let status := find_create_status a in
      let w := emit (uvm_va_block_find_create_managed fault_addr status) w in
      if negb (is_ok status) then Some (status, service_context, w)
      else
        let '(status, service_context') := cpu_fault a service_context in
        let w := emit (uvm_va_block_cpu_fault fault_addr is_write service_context status) w in
        let w := advance (service_ns a) w in
        if is_more_processing status
        then fault_loop fault_addr is_write rest status service_context' w
        else Some (status, service_context', w)
  end.

(** The [convert_error] switch. *)
Definition convert_error (status : NV_STATUS) (major_fault : bool) : N :=
  match status with
  | NV_OK | NV_ERR_BUSY_RETRY =>
      N.lor VM_FAULT_NOPAGE (if major_fault then VM_FAULT_MAJOR else 0)
  | NV_ERR_NO_MEMORY => VM_FAULT_OOM
  | _ => VM_FAULT_SIGBUS
  end.

(** The part of [uvm_vm_fault] that works with the service context: from the
    record of the mmap lock to the return of the context to the list. *)
Definition uvm_vm_fault_service (fault_addr : N) (is_write : bool) (e : fault_env)
    (status : NV_STATUS) (service_context : uvm_service_block_context_t)
    (w : world) : option (N * world) :=
  let w := emit (uvm_record_lock_mmap_lock false) w in
  match fault_loop fault_addr is_write (attempts e) status service_context w with
  | None => None
  | Some (status, service_context, w) =>
      let w := if negb (is_ok status)
               then emit (uvm_tools_record_cpu_fatal_fault fault_addr is_write status) w
               else w in
      let w := if is_ok status then emit uvm_global_mask_retain w else w in
      let w := emit uvm_va_space_up_read w in
      let w := emit (uvm_record_unlock_mmap_lock false) w in
      let '(status, w) :=
        if is_ok status then
          let w := emit (uvm_global_mask_check_ecc_error (ecc_status e)) w in
          (ecc_status e, emit uvm_global_mask_release w)
        else (status, w) in
      let w := if tools_enabled e then emit uvm_tools_flush_events w else w in
      let major_fault := did_migrate service_context in
      let w := uvm_service_block_context_cpu_free service_context w in
      let w := emit uvm_up_read_no_tracking w in
      Some (convert_error status major_fault, w)
  end.

Definition uvm_vm_fault (fault_addr : N) (is_write : bool) (e : fault_env)
    (w : world) : option (N * world) :=
  let status := global_status e in
  if negb (is_ok status) then Some (convert_error status false, w)
  else
    let w := emit (uvm_down_read_trylock_no_tracking (pm_trylock e)) w in
    if negb (pm_trylock e) then Some (convert_error NV_ERR_BUSY_RETRY false, w)
    else
      let '(service_context, w) :=
        uvm_service_block_context_cpu_alloc (fresh_context e) w in
      match service_context with
      | None =>
          let w := emit uvm_up_read_no_tracking w in
          Some (convert_error NV_ERR_NO_MEMORY false, w)
      | Some service_context =>
          let service_context := set_wakeup_time_stamp 0 service_context in
          uvm_vm_fault_service fault_addr is_write e status service_context w
      end.

(** ** The address-range table and the vma wrappers *)

Definition range_contains (addr : N) (r : uvm_va_range_t) : bool :=
  (node_start r <=? addr) && (addr <=? node_end r).

Definition range_overlaps (first last : N) (r : uvm_va_range_t) : bool :=
  (node_start r <=? last) && (first <=? node_end r).

Definition same_node (r r' : uvm_va_range_t) : bool :=
  node_start r' =? node_start r.

(** Modelled from the spec: [uvm_va_range_find] of uvm_va_range.c, which is
    not among the sources; the spec's [find(address) -> range | none]. *)
Definition uvm_va_range_find (addr : N) (tbl : list uvm_va_range_t)
    : option uvm_va_range_t :=
  List.find (range_contains addr) tbl.

(** Modelled from the spec: the iteration macros of uvm_va_range.h behind
    [uvm_for_each_va_range_in_vma] and its [_safe] form; the spec's
    [find_in_interval(start,end)], ordered by address, over the inclusive
    interval [vm_start, vm_end - 1] of the vma. *)
Definition va_ranges_in_vma (v : vm_area_struct) (tbl : list uvm_va_range_t)
    : list uvm_va_range_t :=
  List.filter (range_overlaps (vm_start v) (sub64 (vm_end v) 1)) tbl.

(** Modelled from the spec: [uvm_va_range_destroy], the spec's [remove(range)]. *)
Definition uvm_va_range_destroy (r : uvm_va_range_t) (tbl : list uvm_va_range_t)
    : list uvm_va_range_t :=
  List.filter (fun r' => negb (same_node r r')) tbl.

(** Modelled from the spec: [uvm_va_range_zombify]; the record stays in the
    table, marked for deferred reclamation. *)
Definition uvm_va_range_zombify (r : uvm_va_range_t) (tbl : list uvm_va_range_t)
    : list uvm_va_range_t :=
  List.map (fun r' => if same_node r r' then set_zombie r' else r') tbl.

(** Modelled from the spec: [uvm_va_range_split], the spec's
    [split(range, split_point) -> OK | error]: on success the record becomes
    two at the inclusive boundary, both with the payload of the original; on
    error the table is as before.  [status] is what the call answers. *)
Definition uvm_va_range_split (existing : uvm_va_range_t) (new_end : N)
    (status : NV_STATUS) (tbl : list uvm_va_range_t) : list uvm_va_range_t :=
  if is_ok status then
    List.flat_map
      (fun r' => if same_node existing r'
                 then [set_bounds (node_start r') new_end r';
                       set_bounds (wrap64 (new_end + 1)) (node_end r') r']
                 else [r']) tbl
  else tbl.

Fixpoint insert_by_start (r : uvm_va_range_t) (tbl : list uvm_va_range_t)
    : list uvm_va_range_t :=
  match tbl with
  | [] => [r]
  | r' :: rest =>
      if node_start r <=? node_start r' then r :: r' :: rest
      else r' :: insert_by_start r rest
  end.

(** Modelled from the spec: [uvm_va_range_create_mmap]; the spec's
    [insert(range) -> OK | ADDRESS_IN_USE], which rejects an interval that
    overlaps a record of the table.  [alloc_ok] is whether the record can be
    allocated. *)
Definition uvm_va_range_create_mmap (v : vm_area_struct) (vma_wrapper : N)
    (alloc_ok : bool) (tbl : list uvm_va_range_t)
    : NV_STATUS * list uvm_va_range_t :=
  let first := vm_start v in
  let last := sub64 (vm_end v) 1 in
  if negb alloc_ok then (NV_ERR_NO_MEMORY, tbl)
  else if List.existsb (range_overlaps first last) tbl
  then (NV_ERR_UVM_ADDRESS_IN_USE, tbl)
  else (NV_OK,
        insert_by_start {| node_start := first; node_end := last;
                           type := UVM_VA_RANGE_TYPE_MANAGED;
                           vma_wrapper := vma_wrapper; zombie := false |} tbl).

(** Modelled from the spec: [uvm_vma_wrapper_alloc] and
    [uvm_vma_wrapper_destroy]; the wrapper ties the vma to its records.
    [fresh] is the address the allocation returns, 0 when it fails. *)
Definition uvm_vma_wrapper_alloc (vma : N) (fresh : N) (w : world) : N * world :=
  if fresh =? 0 then (0, w)
  else (fresh, set_wrappers (insert fresh {| wrapper_vma := vma |}) w).

Definition uvm_vma_wrapper_destroy (vma_wrapper : N) (w : world) : world :=
  if vma_wrapper =? 0 then w else set_wrappers (delete vma_wrapper) w.

Definition update_vma (vma : N) (f : vm_area_struct -> vm_area_struct)
    (w : world) : world :=
  set_vmas (alter f vma) w.

Section WithPlatform.
Context {plat : Platform}.

(** ** Mapping lifecycle *)

(** [None] stands for the dereference of a pointer that is not a live object. *)
Definition uvm_destroy_vma_managed (vma : N) (make_zombie : bool) (w : world)
    : option world :=
  v ← vmas w !! vma;
  let w :=
    fold_left
      (fun w va_range =>
         if make_zombie then set_va_ranges (uvm_va_range_zombify va_range) w
         else set_va_ranges (uvm_va_range_destroy va_range) w)
      (va_ranges_in_vma v (va_ranges w)) w in
  let w :=
    if negb (vm_private_data v =? 0) then
      let w := uvm_vma_wrapper_destroy (vm_private_data v) w in
      update_vma vma (set_vm_private_data 0) w
    else w in
  Some w.

Definition uvm_disable_vma (vma : N) (w : world) : option world :=
  v ← vmas w !! vma;
  let w := emit (unmap_mapping_range (vm_file v)
                   (shl64 (vm_pgoff v) PAGE_SHIFT)
                   (sub64 (vm_end v) (vm_start v))) w in
  let w := update_vma vma (set_vm_ops uvm_vm_ops_disabled) w in
  let w :=
    if negb (vm_private_data v =? 0) then
      let w := uvm_vma_wrapper_destroy (vm_private_data v) w in
      update_vma vma (set_vm_private_data 0) w
    else w in
  Some w.

Definition uvm_vm_open_failure (original new : N) (w : world) : option world :=
  w ← uvm_destroy_vma_managed original false w;
  w ← uvm_disable_vma original w;
  uvm_disable_vma new w.

(** What [uvm_vm_open_managed] is told: the address of the wrapper it
    allocates (0 on failure) and the status of the range split. *)
Record open_env := {
  o_new_wrapper : N;
  o_split_status : NV_STATUS;
}.

(** The loop "Point va_ranges to the new vma". *)
Definition repoint_va_ranges (v : vm_area_struct) (vma_wrapper : N) (w : world)
    : world :=
  fold_left
    (fun w va_range =>
       set_va_ranges
         (List.map (fun r' => if same_node va_range r'
                              then set_vma_wrapper vma_wrapper r' else r')) w)
    (va_ranges_in_vma v (va_ranges w)) w.

(** The part of [uvm_vm_open_managed] between taking and dropping the
    address-space lock. *)
Definition uvm_vm_open_managed_locked (vma original : N) (v : vm_area_struct)
    (new_end : N) (e : open_env) (w : world) : option world :=
  let '(vma_wrapper, w) := uvm_vma_wrapper_alloc vma (o_new_wrapper e) w in
  let w := update_vma vma (set_vm_private_data vma_wrapper) w in
  if vma_wrapper =? 0 then uvm_vm_open_failure original vma w
  else
    va_range ← uvm_va_range_find new_end (va_ranges w);
    if negb (node_end va_range =? new_end) then
      let status := o_split_status e in
      let w := set_va_ranges (uvm_va_range_split va_range new_end status) w in
      if negb (is_ok status) then uvm_vm_open_failure original vma w
      else Some (repoint_va_ranges v vma_wrapper w)
    else Some (repoint_va_ranges v vma_wrapper w).

Definition uvm_vm_open_managed (vma : N) (e : open_env) (w : world)
    : option world :=
  v ← vmas w !! vma;
  wrapper ← wrappers w !! vm_private_data v;
  let original := wrapper_vma wrapper in
  let w := update_vma vma (set_vm_private_data 0) w in
  o ← vmas w !! original;
  if negb (vm_mm v =? vm_mm o) ||
     (negb (vm_start v =? vm_start o) && negb (vm_end v =? vm_end o))
  then uvm_disable_vma vma w
  else
    let w := emit (uvm_record_lock_mmap_lock true) w in
    let new_end :=
      if vm_start v =? vm_start o then sub64 (vm_end v) 1
      else sub64 (vm_start v) 1 in
    let w := emit uvm_va_space_down_write w in
    w ← uvm_vm_open_managed_locked vma original v new_end e w;
    let w := emit uvm_va_space_up_write w in
    Some (emit (uvm_record_unlock_mmap_lock true) w).

(** What [uvm_mmap] is told. *)
Record mmap_env := {
  m_global_status : NV_STATUS;
  m_va_space_initialized : NV_STATUS;
  m_va_space_mm_enabled : bool;
  m_va_space_mm : N;
  m_current_mm : N;
  m_pm_trylock : bool;
  m_new_wrapper : N;
  m_range_alloc_ok : bool;
  m_map_cpu_user : NV_STATUS;
}.

Definition VM_SHARED_READ_WRITE : N := N.lor VM_SHARED (N.lor VM_READ VM_WRITE).

(** The part of [uvm_mmap] under the address-space lock.  Returns [ret] and
    [vma_wrapper_allocated]. *)
Definition uvm_mmap_locked (vma : N) (v : vm_area_struct) (vma_wrapper : N)
    (e : mmap_env) (w : world) : Z * bool * world :=
  let w := emit uvm_va_space_down_write w in
  let '(status, tbl) :=
    uvm_va_range_create_mmap v vma_wrapper (m_range_alloc_ok e) (va_ranges w) in
  let w := set_va_ranges (fun _ => tbl) w in
  let '(status, allocated, w) :=
    if decide (status = NV_ERR_UVM_ADDRESS_IN_USE) then
      match uvm_va_range_find (vm_start v) (va_ranges w) with
      | Some va_range =>
          if (node_start va_range =? vm_start v) &&
             (wrap64 (node_end va_range + 1) =? vm_end v) &&
             bool_decide (type va_range = UVM_VA_RANGE_TYPE_SEMAPHORE_POOL)
          then
            let w := uvm_vma_wrapper_destroy vma_wrapper w in
            let w := update_vma vma (set_vm_private_data vma) w in
            let w := update_vma vma (set_vm_ops uvm_vm_ops_semaphore_pool) w in
            let w := emit (uvm_mem_map_cpu_user (m_map_cpu_user e)) w in
            (m_map_cpu_user e, false, w)
          else (status, true, w)
      | None => (status, true, w)
      end
    else (status, true, w) in
  let ret := if negb (is_ok status) then (- nv_status_to_errno status)%Z else 0%Z in
  (ret, allocated, emit uvm_va_space_up_write w).

Definition uvm_mmap (vma : N) (e : mmap_env) (w : world) : option (Z * world) :=
  v ← vmas w !! vma;
  if negb (is_ok (m_global_status e))
  then Some ((- nv_status_to_errno (m_global_status e))%Z, w)
  else if negb (is_ok (m_va_space_initialized e)) then Some ((- EBADFD)%Z, w)
  else if m_va_space_mm_enabled e && negb (m_va_space_mm e =? m_current_mm e)
  then Some ((- EOPNOTSUPP)%Z, w)
  else if negb (vm_start v =? shl64 (vm_pgoff v) PAGE_SHIFT)
  then Some ((- EINVAL)%Z, w)
  else if negb (N.land (vm_flags v) VM_SHARED_READ_WRITE =? VM_SHARED_READ_WRITE)
  then Some ((- EINVAL)%Z, w)
  else
    let w := emit (uvm_down_read_trylock (m_pm_trylock e)) w in
    if negb (m_pm_trylock e) then
      w ← uvm_disable_vma vma w;
      Some (0%Z, w)
    else
      let w := emit (uvm_record_lock_mmap_lock true) w in
      let w := update_vma vma
                 (set_vm_flags (N.lor (vm_flags v) (N.lor VM_MIXEDMAP VM_DONTEXPAND))) w in
      let w := update_vma vma (set_vm_ops uvm_vm_ops_managed) w in
      let '(vma_wrapper, w) := uvm_vma_wrapper_alloc vma (m_new_wrapper e) w in
      let w := update_vma vma (set_vm_private_data vma_wrapper) w in
      let '(ret, allocated, w) :=
        if vma_wrapper =? 0 then ((- ENOMEM)%Z, false, w)
        else uvm_mmap_locked vma v vma_wrapper e w in
      let w :=
        if negb (ret =? 0)%Z && allocated
        then uvm_vma_wrapper_destroy vma_wrapper w else w in
      let w := emit (uvm_record_unlock_mmap_lock true) w in
      let w := emit uvm_up_read w in
      Some (ret, w).

End WithPlatform.

(** ** Vocabulary of the statements *)

Definition is_throttling_start (c : call) : bool :=
  match c with uvm_tools_record_throttling_start _ => true | _ => false end.

Definition is_throttling_end (c : call) : bool :=
  match c with uvm_tools_record_throttling_end _ => true | _ => false end.

Definition is_sleep (c : call) : bool :=
  match c with usleep_range _ _ => true | _ => false end.

(** The calls that may put the caller to sleep. *)
Definition blocking_call (c : call) : bool :=
  match c with
  | uvm_down_read
  | uvm_va_space_down_read
  | uvm_va_space_down_write
  | usleep_range _ _ => true
  | _ => false
  end.

Definition count_calls (p : call -> bool) (t : list call) : nat :=
  length (List.filter p t).

(** As many throttling-start records as sleeps, and as many throttling-end
    records. *)
Definition throttle_balanced (t : list call) : Prop :=
  count_calls is_throttling_start t = count_calls is_sleep t /\
  count_calls is_throttling_end t = count_calls is_sleep t.

(** [w'] continues [w]: its trace adds calls with balanced throttling records,
    and its clock is not behind. *)
Definition continues (w w' : world) : Prop :=
  exists new, trace w' = trace w ++ new /\ throttle_balanced new /\
              clock w <= clock w'.

(** The world after the head of the loop body, the re-acquisition of the
    address-space lock and the throttling-end record. *)
Definition after_prologue (fault_addr : N) (status : NV_STATUS)
    (c : uvm_service_block_context_t) (a : attempt) (w : world) : world :=
  let '(do_sleep, w) := throttle fault_addr status c a w in
  let w := emit uvm_va_space_down_read w in
  if do_sleep then emit (uvm_tools_record_throttling_end fault_addr) w else w.

(** Two runs of the handler agree: same outcome, same calls, and worlds that
    are related by [R]. *)
Definition runs_agree (R : world -> world -> Prop)
    (r1 r2 : option (N * world)) : Prop :=
  match r1, r2 with
  | Some (o1, w1), Some (o2, w2) => o1 = o2 /\ trace w1 = trace w2 /\ R w1 w2
  | None, None => True
  | _, _ => False
  end.

(** Two contexts that differ at most in the wake-up time stamp. *)
Definition same_but_wakeup (c1 c2 : uvm_service_block_context_t) : Prop :=
  set_wakeup_time_stamp 0 c1 = set_wakeup_time_stamp 0 c2.

(** Two environments that differ at most in the time stamp of the context the
    heap hands out. *)
Definition same_env_but_wakeup (e1 e2 : fault_env) : Prop :=
  global_status e1 = global_status e2 /\
  pm_trylock e1 = pm_trylock e2 /\
  option_Forall2 same_but_wakeup (fresh_context e1) (fresh_context e2) /\
  attempts e1 = attempts e2 /\
  tools_enabled e1 = tools_enabled e2 /\
  ecc_status e1 = ecc_status e2.

(** Two worlds that differ at most in the time stamps of the pooled contexts. *)
Definition same_world_but_wakeup (w1 w2 : world) : Prop :=
  exists l, w2 = set_context_list l w1 /\
            Forall2 same_but_wakeup (g_cpu_service_block_context_list w1) l.

(** The vma is in the disabled state: it has the fault-fails operations, no
    wrapper, and its interval of the file has been unmapped. *)
Definition vma_disabled {plat : Platform} (vma : N) (w : world) : Prop :=
  exists v, vmas w !! vma = Some v /\
            vm_ops v = uvm_vm_ops_disabled /\
            vm_private_data v = 0 /\
            In (unmap_mapping_range (vm_file v) (shl64 (vm_pgoff v) PAGE_SHIFT)
                  (sub64 (vm_end v) (vm_start v))) (trace w).

(** Every record that refers to the wrapper lies under the vma. *)
Definition ranges_under_vma (wrapper : N) (v : vm_area_struct)
    (tbl : list uvm_va_range_t) : Prop :=
  forall r, In r tbl -> vma_wrapper r = wrapper ->
            vm_start v <= node_start r /\ node_start r <= node_end r /\
            node_end r < vm_end v.

(** ** Sample data *)

Definition sample_platform : Platform :=
  {| PAGE_SHIFT := 12;
     nv_status_to_errno := fun s =>
       match s with
       | NV_OK => 0%Z
       | NV_ERR_NO_MEMORY => ENOMEM
       | NV_ERR_BUSY_RETRY => EAGAIN
       | _ => EINVAL
       end |}.

Definition empty_world : world :=
  {| trace := []; clock := 0; deferred_release_q := [];
     g_cpu_service_block_context_list := [];
     vmas := ∅; wrappers := ∅; va_ranges := [] |}.

Definition blank_context : uvm_service_block_context_t :=
  {| wakeup_time_stamp := 0; did_migrate := false;
     gpus_to_check_for_ecc := 0; scratch := 0 |}.

(** A pooled context that still carries the time stamp of an earlier fault. *)
Definition stale_context : uvm_service_block_context_t :=
  {| wakeup_time_stamp := 123456789; did_migrate := false;
     gpus_to_check_for_ecc := 0; scratch := 0 |}.

(** Servicing that detects thrashing and asks to be retried 10 ms later. *)
Definition thrashing_attempt (now : N) : attempt :=
  {| slept_us := 10000;
     find_create_status := NV_OK;
     cpu_fault := fun c => (NV_WARN_MORE_PROCESSING_REQUIRED,
                            set_wakeup_time_stamp (now + 10000000) c);
     service_ns := 0 |}.

(** Servicing that succeeds. *)
Definition successful_attempt : attempt :=
  {| slept_us := 10000;
     find_create_status := NV_OK;
     cpu_fault := fun c => (NV_OK, c);
     service_ns := 0 |}.

Definition throttled_fault_env : fault_env :=
  {| global_status := NV_OK; pm_trylock := true; fresh_context := None;
     attempts := [thrashing_attempt 0; successful_attempt];
     tools_enabled := false; ecc_status := NV_OK |}.

Definition pm_busy_fault_env : fault_env :=
  {| global_status := NV_OK; pm_trylock := false; fresh_context := None;
     attempts := []; tools_enabled := false; ecc_status := NV_OK |}.

Definition fatal_status_fault_env : fault_env :=
  {| global_status := NV_ERR_OTHER 0xFFFF; pm_trylock := true;
     fresh_context := None; attempts := []; tools_enabled := false;
     ecc_status := NV_OK |}.

Definition world_with_pool (l : list uvm_service_block_context_t) : world :=
  set_context_list l empty_world.

(** A request to map 16 KiB at 0x7f0000000000 shared, readable and writable,
    with file offset 0 instead of the address. *)
Definition misplaced_vma : vm_area_struct :=
  {| vm_start := 0x7f0000000000; vm_end := 0x7f0000004000; vm_pgoff := 0;
     vm_flags := VM_SHARED_READ_WRITE; vm_mm := 1; vm_file := 1;
     vm_ops := vm_ops_unset; vm_private_data := 0 |}.

Definition world_with_vma (vma : N) (v : vm_area_struct) : world :=
  set_vmas (insert vma v) empty_world.

Definition ready_mmap_env : mmap_env :=
  {| m_global_status := NV_OK; m_va_space_initialized := NV_OK;
     m_va_space_mm_enabled := false; m_va_space_mm := 0; m_current_mm := 1;
     m_pm_trylock := true; m_new_wrapper := 0x5000; m_range_alloc_ok := true;
     m_map_cpu_user := NV_OK |}.

(** The same on a session that has not been initialised. *)
Definition uninitialized_mmap_env : mmap_env :=
  {| m_global_status := NV_OK; m_va_space_initialized := NV_ERR_OTHER 0x40;
     m_va_space_mm_enabled := false; m_va_space_mm := 0; m_current_mm := 1;
     m_pm_trylock := true; m_new_wrapper := 0x5000; m_range_alloc_ok := true;
     m_map_cpu_user := NV_OK |}.

(** A managed vma of 16 KiB at address 0x1000 with its wrapper at 0x5000 and
    one record under it, and at address 0x2000 the vma the kernel has carved
    out of its upper half, still a copy of the fields of the first. *)
Definition managed_vma : vm_area_struct :=
  {| vm_start := 0x7f0000000000; vm_end := 0x7f0000004000;
     vm_pgoff := 0x7f0000000; vm_flags := VM_SHARED_READ_WRITE;
     vm_mm := 1; vm_file := 1; vm_ops := uvm_vm_ops_managed;
     vm_private_data := 0x5000 |}.

Definition upper_half_vma : vm_area_struct :=
  {| vm_start := 0x7f0000002000; vm_end := 0x7f0000004000;
     vm_pgoff := 0x7f0000002; vm_flags := VM_SHARED_READ_WRITE;
     vm_mm := 1; vm_file := 1; vm_ops := uvm_vm_ops_managed;
     vm_private_data := 0x5000 |}.

Definition split_world : world :=
  {| trace := []; clock := 0; deferred_release_q := [];
     g_cpu_service_block_context_list := [];
     vmas := {[ 0x1000 := managed_vma; 0x2000 := upper_half_vma ]};
     wrappers := {[ 0x5000 := {| wrapper_vma := 0x1000 |} ]};
     va_ranges := [ {| node_start := 0x7f0000000000; node_end := 0x7f0000003fff;
                       type := UVM_VA_RANGE_TYPE_MANAGED;
                       vma_wrapper := 0x5000; zombie := false |} ] |}.

Definition failing_split_env : open_env :=
  {| o_new_wrapper := 0x6000; o_split_status := NV_ERR_NO_MEMORY |}.

End Uvm.

From Stdlib Require Import Ascii.
From stdpp Require Import sorting.

Local Open Scope N_scope.

(* ===================================================================== *)
(** * Part I-c. uvm_kvmalloc.c: start-up, shutdown and more vocabulary    *)
(* ===================================================================== *)

Module KvmallocLife.
Import Kvmalloc.

(** ** Start-up and shutdown: data *)

(** What [uvm_kvmalloc_exit] prints: the banner line, the summary with the
    leaked byte count (and whether it carries the hint to load the module
    with origin tracking), and one line per leaked allocation. *)
Inductive printk_line :=
| leak_banner
| leak_summary (bytes : Z) (hint : bool)
| leaked_block (size : size_t) (file : string) (line : Z) (function : string)
    (key : N).

(** The file's globals: [g_malloc_initialized], whether
    [g_uvm_leak_checker.info_cache] is set, the word that
    [g_uvm_global.unload_state.ptr] points to ([None] for a null pointer),
    the kernel log, and the heaps with the leak checker. *)
Record kv_module := {
  g_malloc_initialized : bool;
  info_cache : bool;
  unload_state : option N;
  log : list printk_line;
  kv : kv_state;
}.

Definition set_g_malloc_initialized (b : bool) (m : kv_module) : kv_module :=
  {| g_malloc_initialized := b; info_cache := info_cache m;
     unload_state := unload_state m; log := log m; kv := kv m |}.

Definition set_info_cache (b : bool) (m : kv_module) : kv_module :=
  {| g_malloc_initialized := g_malloc_initialized m; info_cache := b;
     unload_state := unload_state m; log := log m; kv := kv m |}.

Definition set_unload_state (f : N -> N) (m : kv_module) : kv_module :=
  {| g_malloc_initialized := g_malloc_initialized m; info_cache := info_cache m;
     unload_state := f <$> unload_state m; log := log m; kv := kv m |}.

Definition printk (lines : list printk_line) (m : kv_module) : kv_module :=
  {| g_malloc_initialized := g_malloc_initialized m; info_cache := info_cache m;
     unload_state := unload_state m; log := log m ++ lines; kv := kv m |}.

Definition set_kv (f : kv_state -> kv_state) (m : kv_module) : kv_module :=
  {| g_malloc_initialized := g_malloc_initialized m; info_cache := info_cache m;
     unload_state := unload_state m; log := log m; kv := f (kv m) |}.

(** The flag of uvm_test_ioctl.h that shutdown sets in the unload-state word. *)
Class TestFlags := {
  UVM_TEST_UNLOAD_STATE_MEMORY_LEAK : N;
}.

(** [kbasename] of linux/string.h: the text behind the last slash. *)
Fixpoint after_last_slash (path : string) : option string :=
  match path with
  | EmptyString => None
  | String c rest =>
      match after_last_slash rest with
      | Some tail => Some tail
      | None => if Ascii.eqb c "/"%char then Some rest else None
      end
  end.

Definition kbasename (path : string) : string :=
  match after_last_slash path with
  | Some tail => tail
  | None => path
  end.

(** Modelled from the spec: [uvm_rb_tree_for_each_safe] of uvm_rb_tree.h,
    which is not among the sources.  The spec describes the table as an
    ordered index keyed by address; the loop visits the keys that are in the
    table when it starts, in ascending order. *)
Definition uvm_rb_tree_keys (t : gmap N uvm_kvmalloc_info_t) : list N :=
  merge_sort N.le (map fst (map_to_list t)).

Section WithConfig.
Context {cfg : Config}.

(** ** Vocabulary *)

(** [p] is the address of a live allocation: a real pointer that its
    allocator knows. *)
Definition live (st : kv_state) (p : ptr) : Prop :=
  ZERO_OR_NULL_PTR p = false /\
  (if is_vmalloc_addr p then is_Some (vmalloc_areas st !! get_hdr p)
   else is_Some (kmalloc_objs st !! p)).

(** The vmalloc window lies above the sentinel pointers, with room for the
    header below every address in it. *)
Definition vmalloc_window_high : Prop :=
  forall p, is_vmalloc_addr p = true -> ZERO_SIZE_PTR + sizeof_hdr < p.

(** A grant for a new block of [size] bytes is sound: the slab allocator
    grants a fresh slab address with at least [size] usable bytes, vmalloc a
    fresh area whose payload lies in the vmalloc window. *)
Definition fresh_grant (size : size_t) (r : mem_reply) (st : kv_state) : Prop :=
  match r with
  | NoMemory => True
  | Granted a usable _ =>
      if size <=? UVM_KMALLOC_THRESHOLD
      then ZERO_OR_NULL_PTR a = false /\ is_vmalloc_addr a = false /\
           kmalloc_objs st !! a = None /\ size <= usable
      else a <> NULL /\ is_vmalloc_addr (a + sizeof_hdr) = true /\
           vmalloc_areas st !! a = None
  end.

(** A grant to [krealloc] is sound: the object stays where it is or moves to
    a fresh slab address, with at least [size] usable bytes. *)
Definition krealloc_grant (p : ptr) (size : size_t) (r : mem_reply)
    (st : kv_state) : Prop :=
  match r with
  | NoMemory => True
  | Granted a usable _ =>
      ZERO_OR_NULL_PTR a = false /\ is_vmalloc_addr a = false /\
      (a = p \/ kmalloc_objs st !! a = None) /\ size <= usable
  end.

(** The grant that a reallocation of [p] to [size] bytes consumes is sound. *)
Definition realloc_grant (p : ptr) (size : size_t) (r : mem_reply)
    (st : kv_state) : Prop :=
  if negb (is_vmalloc_addr p) && (size <=? UVM_KMALLOC_THRESHOLD)
  then krealloc_grant p size r st
  else fresh_grant size r st.

(** The allocation at [q] has in [st'] the size and the bytes it has in [st]. *)
Definition same_block (st st' : kv_state) (q : ptr) : Prop :=
  uvm_kvsize st' q = uvm_kvsize st q /\ payload st' q = payload st q.


(** The state with the heaps of [st] and the leak checker of [t]. *)
Definition with_tracking (t st : kv_state) : kv_state :=
  {| kmalloc_objs := kmalloc_objs st;
     vmalloc_areas := vmalloc_areas st;
     bytes_allocated := bytes_allocated t;
     untracked_allocations := untracked_allocations t;
     allocation_info := allocation_info t |}.

(** The reallocation proper, without the bookkeeping around it. *)
Definition realloc_dispatch (p : ptr) (new_size : size_t) (r : mem_reply)
    (st : kv_state) : ptr * kv_state :=
  if is_vmalloc_addr p then realloc_from_vmalloc p new_size r st
  else realloc_from_kmalloc p new_size r st.

(** The heaps without the block at [p], with a slab object at [a], with a
    vmalloc area based at [a]. *)
Definition without_block (p : ptr) (st : kv_state) : kv_state :=
  if is_vmalloc_addr p then set_vmalloc_areas (delete (get_hdr p)) st
  else set_kmalloc_objs (delete p) st.

Definition with_slab (a : ptr) (o : kmalloc_obj) (st : kv_state) : kv_state :=
  set_kmalloc_objs (insert a o) st.

Definition with_area (a : ptr) (h : uvm_vmalloc_hdr_t) (st : kv_state) : kv_state :=
  set_vmalloc_areas (insert a h) st.

(** The bytes that [uvm_kvsize] reports, summed over all blocks of the heaps. *)
Definition outstanding_bytes (st : kv_state) : N :=
  map_fold (fun _ o acc => obj_ksize o + acc) 0 (kmalloc_objs st) +
  map_fold (fun _ h acc => alloc_size h + acc) 0 (vmalloc_areas st).

(** From [st] to [s] the allocation at [p] has been added: it was not live,
    it is now, nothing else has changed, and the outstanding bytes have grown
    by its size. *)
Definition heap_added (p : ptr) (st s : kv_state) : Prop :=
  (forall x, live s x <-> x = p \/ live st x) /\
  (forall x, live st x -> same_block st s x) /\
  ~ live st p /\
  outstanding_bytes s = outstanding_bytes st + uvm_kvsize s p.

(** From [st] to [s] the allocation at [p] has been removed. *)
Definition heap_removed (p : ptr) (st s : kv_state) : Prop :=
  (forall x, live s x <-> x <> p /\ live st x) /\
  (forall x, live st x -> x <> p -> same_block st s x) /\
  outstanding_bytes st = outstanding_bytes s + uvm_kvsize st p.

(** From [st] to [s] the allocation at [p] has become the allocation at [q]. *)
Definition heap_moved (p q : ptr) (st s : kv_state) : Prop :=
  (forall x, live s x <-> x = q \/ (x <> p /\ live st x)) /\
  (forall x, live st x -> x <> p -> same_block st s x) /\
  (q <> p -> ~ live st q) /\
  outstanding_bytes s + uvm_kvsize st p = outstanding_bytes st + uvm_kvsize s q.

(** Every block of the heaps is a live allocation: slab objects sit at
    slab addresses, vmalloc areas put their payload in the vmalloc window. *)
Definition heaps_wf (st : kv_state) : Prop :=
  (forall a, is_Some (kmalloc_objs st !! a) ->
             is_vmalloc_addr a = false /\ ZERO_OR_NULL_PTR a = false) /\
  (forall a, is_Some (vmalloc_areas st !! a) ->
             is_vmalloc_addr (a + sizeof_hdr) = true).

(** What a reallocation does to the heaps: the block moves, the new pointer
    is a real one, and the heaps stay well formed. *)
Definition moves (p q : ptr) (st s : kv_state) : Prop :=
  heap_moved p q st s /\ ZERO_OR_NULL_PTR q = false /\
  (heaps_wf st -> heaps_wf s).

(** The aggregate counter is the outstanding bytes, as a [long]. *)
Definition counter_exact (st : kv_state) : Prop :=
  bytes_allocated st = long_of_size (outstanding_bytes st).

(** The origin table has a record for exactly the live allocations. *)
Definition fully_tracked (st : kv_state) : Prop :=
  forall p, is_Some (allocation_info st !! p) <-> live st p.

(** The leak checker accounts for the heaps: the three invariants together. *)
Definition tracker_sound (st : kv_state) : Prop :=
  heaps_wf st /\ counter_exact st /\ fully_tracked st.

(** ** Start-up and shutdown *)

(** [uvm_kvmalloc_init]; [cache_ok] tells whether [NV_KMEM_CACHE_CREATE]
    succeeds. *)
Definition uvm_kvmalloc_init (cache_ok : bool) (m : kv_module)
    : Uvm.NV_STATUS * kv_module :=
  if leak_check_origin then
    let m1 := set_info_cache cache_ok
                (set_kv (set_allocation_info (fun _ => ∅)) m) in
    if negb cache_ok then (Uvm.NV_ERR_NO_MEMORY, m1)
    else (Uvm.NV_OK, set_g_malloc_initialized true m1)
  else (Uvm.NV_OK, set_g_malloc_initialized true m).

(** The body of the loop of [uvm_kvmalloc_exit] for the node with [key]: a
    node that has left the table is not visited. *)
Definition report_and_free (key : N) (m : kv_module) : kv_module :=
  match allocation_info (kv m) !! key with
  | None => m
  | Some info =>
      set_kv (uvm_kvfree key)
        (printk [leaked_block (uvm_kvsize (kv m) key) (kbasename (file info))
                   (line info) (function info) key] m)
  end.

(** The loop of [uvm_kvmalloc_exit] over the nodes of the table. *)
Definition exit_loop (keys : list N) (m : kv_module) : kv_module :=
  fold_left (fun m key => report_and_free key m) keys m.

(** The assertion behind the loop (no bytes outstanding unless allocations
    went untracked) has no effect on the state; that it holds is a theorem
    of part II. *)
Definition uvm_kvmalloc_exit {flags : TestFlags} (m : kv_module) : kv_module :=
  if negb (g_malloc_initialized m) then m
  else
    let bytes := bytes_allocated (kv m) in
    let m1 :=
      if (0 <? bytes)%Z then
        set_unload_state (fun w => N.lor w UVM_TEST_UNLOAD_STATE_MEMORY_LEAK)
          (printk [leak_banner;
                   leak_summary bytes (negb leak_check_origin);
                   leak_banner] m)
      else m in
    let m2 :=
      if leak_check_origin then
        set_info_cache false
          (exit_loop (uvm_rb_tree_keys (allocation_info (kv m1))) m1)
      else m1 in
    set_g_malloc_initialized false m2.

(** The line that shutdown prints for the record of [key] in [st], if there
    is one. *)
Definition leak_line (st : kv_state) (key : N) : list printk_line :=
  match allocation_info st !! key with
  | None => []
  | Some info =>
      [leaked_block (uvm_kvsize st key) (kbasename (file info)) (line info)
         (function info) key]
  end.

(** What shutdown prints before the loop. *)
Definition leak_header (st : kv_state) : list printk_line :=
  if (0 <? bytes_allocated st)%Z
  then [leak_banner;
        leak_summary (bytes_allocated st) (negb leak_check_origin);
        leak_banner]
  else [].

(** ** Clients

    A client of the allocator issues calls of the three entry points, each
    with the kernel's answers to it. *)
Inductive api_call :=
| call_kvmalloc (zero_memory : bool) (size : size_t)
    (file : string) (line : Z) (function : string) (e : env)
| call_kvfree (p : ptr)
| call_kvrealloc (p : ptr) (new_size : size_t)
    (file : string) (line : Z) (function : string) (e : env).

Definition run_call (c : api_call) (st : kv_state) : kv_state :=
  match c with
  | call_kvmalloc z n f l fn e => (__uvm_kvmalloc_with z n f l fn e st).2
  | call_kvfree p => uvm_kvfree p st
  | call_kvrealloc p n f l fn e => (__uvm_kvrealloc p n f l fn e st).2
  end.

Fixpoint run_calls (cs : list api_call) (st : kv_state) : kv_state :=
  match cs with
  | [] => st
  | c :: cs => run_calls cs (run_call c st)
  end.

(** The call respects the contract of the API in [st]: the kernel's grant is
    sound, and a pointer passed in is null, the zero-size pointer or a live
    allocation. *)
Definition call_ok (c : api_call) (st : kv_state) : Prop :=
  match c with
  | call_kvmalloc _ n _ _ _ e => fresh_grant n (mem e) st
  | call_kvfree p => ZERO_OR_NULL_PTR p = true \/ live st p
  | call_kvrealloc p n _ _ _ e =>
      (ZERO_OR_NULL_PTR p = true /\ fresh_grant n (mem e) st) \/
      (live st p /\ realloc_grant p n (mem e) st)
  end.

(** The info node of the call, if it needs one, can be allocated. *)
Definition call_tracked (c : api_call) : Prop :=
  match c with
  | call_kvmalloc _ _ _ _ _ e => info_ok e = true
  | call_kvfree _ => True
  | call_kvrealloc _ _ _ _ _ e => info_ok e = true
  end.

Fixpoint calls_ok (cs : list api_call) (st : kv_state) : Prop :=
  match cs with
  | [] => True
  | c :: cs => call_ok c st /\ calls_ok cs (run_call c st)
  end.

End WithConfig.

(** The module as the kernel loads it, with no buffer registered for the
    unload state, and the flag value of the test interface. *)
Definition module_at_load : kv_module :=
  {| g_malloc_initialized := false; info_cache := false;
     unload_state := None; log := []; kv := empty_state |}.

(** One tracked vmalloc allocation of eight pages. *)
Definition one_area_state : kv_state :=
  {| kmalloc_objs := ∅;
     vmalloc_areas :=
       {[ vmalloc_base := {| area_len := sizeof_hdr + 32768; alloc_size := 32768;
                             ptr_data := zeros 8 |} ]};
     bytes_allocated := 32768;
     untracked_allocations := 0;
     allocation_info :=
       {[ vmalloc_base + sizeof_hdr :=
            {| file := "uvm.c"; function := "uvm_test_buffer"; line := 12 |} ]} |}.

Definition grant_area : env :=
  {| mem := Granted vmalloc_base 0 []; info_ok := true |}.

Definition sample_flags : TestFlags :=
  {| UVM_TEST_UNLOAD_STATE_MEMORY_LEAK := 1 |}.

(** A client that allocates a slab object, grows it into a vmalloc area and
    frees it, and one that leaks a slab object. *)
Definition sample_calls : list api_call :=
  [call_kvmalloc false 100 "uvm.c" 1 "caller" (grant_slab 128);
   call_kvrealloc slab_addr 32768 "uvm.c" 2 "caller" grant_area;
   call_kvfree (vmalloc_base + sizeof_hdr)].

Definition leaking_calls : list api_call :=
  [call_kvmalloc false 100 "uvm.c" 1 "caller" (grant_slab 128)].

(** The module at shutdown with one leaked object, and with a buffer
    registered for the unload state. *)
Definition leaking_module : kv_module :=
  {| g_malloc_initialized := true; info_cache := true;
     unload_state := Some 4; log := [];
     kv := run_calls (cfg := sample_config) leaking_calls empty_state |}.

Definition one_object_module : kv_module :=
  {| g_malloc_initialized := true; info_cache := true;
     unload_state := Some 4; log := []; kv := one_object_state |}.

End KvmallocLife.

(* ===================================================================== *)
(** * Part I-d. uvm.c: more entry points, and the locking vocabulary      *)
(* ===================================================================== *)

Module UvmLife.
Import Uvm.

(** ** The pool of fault service contexts

    [uvm_service_block_context_init] preallocates four contexts;
    [fresh] holds what [uvm_kvmalloc] answers, call by call. *)
Fixpoint preallocate_contexts (n : nat)
    (fresh : list (option uvm_service_block_context_t)) (w : world)
    : NV_STATUS * world :=
  match n with
  | O => (NV_OK, w)
  | S n =>
      match fresh with
      | Some service_context :: fresh =>
          preallocate_contexts n fresh
            (set_context_list
               (service_context :: g_cpu_service_block_context_list w) w)
      | _ => (NV_ERR_NO_MEMORY, w)
      end
  end.

Definition uvm_service_block_context_init
    (fresh : list (option uvm_service_block_context_t)) (w : world)
    : NV_STATUS * world :=
  preallocate_contexts 4 fresh w.

(** [uvm_service_block_context_exit] frees the contexts of the list, from its
    head on, and leaves the list empty.  Returns what it has passed to
    [uvm_kvfree]. *)
Definition uvm_service_block_context_exit (w : world)
    : list uvm_service_block_context_t * world :=
  (g_cpu_service_block_context_list w, set_context_list [] w).

(** ** Semaphore-pool mappings *)

(** [None] stands for the dereference of a pointer that is not a live
    object: a vma that is not there, a record that is not found. *)
Definition uvm_destroy_vma_semaphore_pool (vma : N) (w : world) : option world :=
  v ← vmas w !! vma;
  va_range ← uvm_va_range_find (vm_start v) (va_ranges w);
  Some (emit uvm_mem_unmap_cpu_user w).

(** [current_mm] is [current->mm], 0 for a task that is exiting. *)
Definition uvm_vm_close_semaphore_pool (vma : N) (current_mm : N) (w : world)
    : option world :=
  let w := if negb (current_mm =? 0)
           then emit (uvm_record_lock_mmap_lock true) w else w in
  let w := emit uvm_va_space_down_read w in
  w ← uvm_destroy_vma_semaphore_pool vma w;
  let w := emit uvm_va_space_up_read w in
  Some (if negb (current_mm =? 0)
        then emit (uvm_record_unlock_mmap_lock true) w else w).

(** [map_status] is what [uvm_mem_map_cpu_user] answers when the pool is
    mapped again for the parent. *)
Definition uvm_vm_open_semaphore_pool {plat : Platform} (vma : N)
    (map_status : NV_STATUS) (w : world) : option world :=
  v ← vmas w !! vma;
  let origin_vma := vm_private_data v in
  o ← vmas w !! origin_vma;
  let is_fork := negb (vm_mm v =? vm_mm o) in
  let w := emit (uvm_record_lock_mmap_lock true) w in
  let w := emit uvm_va_space_down_write w in
  va_range ← uvm_va_range_find (vm_start o) (va_ranges w);
  let w := update_vma vma (set_vm_private_data 0) w in
  w ← (if is_fork then
         w ← uvm_disable_vma vma w;
         let w := emit uvm_mem_unmap_cpu_user w in
         let w := emit (uvm_mem_map_cpu_user map_status) w in
         Some (if negb (is_ok map_status)
               then update_vma origin_vma (set_vm_ops uvm_vm_ops_disabled) w
               else w)
       else
         let w := update_vma origin_vma (set_vm_private_data 0) w in
         let w := update_vma origin_vma (set_vm_ops uvm_vm_ops_disabled) w in
         let w := update_vma vma (set_vm_ops uvm_vm_ops_disabled) w in
         Some (emit uvm_mem_unmap_cpu_user w));
  let w := emit uvm_va_space_up_write w in
  Some (emit (uvm_record_unlock_mmap_lock true) w).

(** ** Closing a managed mapping *)

(** The calls of [uvm_vm_close_managed] into the resource manager's side of
    the address space.  They come before every other call of the function:
    they are made only by a task without an mm, for which the mmap lock is
    not recorded. *)
Inductive rm_call :=
| uvm_va_space_down_read_rm
| uvm_va_space_stop_all_user_channels
| uvm_va_space_up_read_rm.

(** What [uvm_vm_close_managed] reads from the task and the address space:
    [current->mm], the sharing mode of the initialization flags, the
    [va_space_mm], whether the user channels are stopped, and the GPUs with a
    registered GPU address space. *)
Record close_env := {
  c_current_mm : N;
  c_multi_process_sharing : bool;
  c_va_space_mm_enabled : bool;
  c_va_space_mm : N;
  c_user_channels_stopped : bool;
  c_registered_gpu_va_spaces : list N;
}.

(** What the function leaves behind: the calls into the resource manager, the
    GPU address spaces it has marked with [needs_fault_buffer_flush], and the
    world. *)
Record close_result := {
  rm_calls : list rm_call;
  flush_marked : list N;
  closed_world : world;
}.

Definition uvm_vm_close_managed {plat : Platform} (vma : N) (e : close_env)
    (w : world) : option close_result :=
  let exiting := c_current_mm e =? 0 in
  let w := if negb exiting then emit (uvm_record_lock_mmap_lock true) w else w in
  let make_zombie := exiting && c_multi_process_sharing e in
  let rm :=
    if exiting && negb make_zombie then
      if c_va_space_mm_enabled e && (c_current_mm e =? c_va_space_mm e) then []
      else
        [uvm_va_space_down_read_rm] ++
        (if negb (c_user_channels_stopped e)
         then [uvm_va_space_stop_all_user_channels] else []) ++
        [uvm_va_space_up_read_rm]
    else [] in
  let w := emit uvm_va_space_down_write w in
  w ← uvm_destroy_vma_managed vma make_zombie w;
  let w := emit uvm_va_space_up_write w in
  let w := if negb exiting then emit (uvm_record_unlock_mmap_lock true) w else w in
  Some {| rm_calls := rm;
          flush_marked := c_registered_gpu_va_spaces e;
          closed_world := w |}.

(** ** Locks

    What the thread of an entry point holds: the power-management lock, the
    address-space lock (shared or exclusive), the record of the mmap lock,
    and a reference on the GPUs to check for ECC errors. *)
Inductive rwsem_state := rwsem_free | rwsem_read | rwsem_write.

#[global] Instance rwsem_state_eq_dec : EqDecision rwsem_state.
Proof. solve_decision. Defined.

Record held := {
  pm_lock : bool;
  va_space_lock : rwsem_state;
  mmap_lock_recorded : bool;
  gpus_retained : bool;
}.

#[global] Instance held_eq_dec : EqDecision held.
Proof. solve_decision. Defined.

Definition no_locks : held :=
  {| pm_lock := false; va_space_lock := rwsem_free;
     mmap_lock_recorded := false; gpus_retained := false |}.

Definition set_pm_lock (b : bool) (h : held) : held :=
  {| pm_lock := b; va_space_lock := va_space_lock h;
     mmap_lock_recorded := mmap_lock_recorded h;
     gpus_retained := gpus_retained h |}.

Definition set_va_space_lock (s : rwsem_state) (h : held) : held :=
  {| pm_lock := pm_lock h; va_space_lock := s;
     mmap_lock_recorded := mmap_lock_recorded h;
     gpus_retained := gpus_retained h |}.

Definition set_mmap_lock_recorded (b : bool) (h : held) : held :=
  {| pm_lock := pm_lock h; va_space_lock := va_space_lock h;
     mmap_lock_recorded := b; gpus_retained := gpus_retained h |}.

Definition set_gpus_retained (b : bool) (h : held) : held :=
  {| pm_lock := pm_lock h; va_space_lock := va_space_lock h;
     mmap_lock_recorded := mmap_lock_recorded h; gpus_retained := b |}.

Definition va_space_locked (h : held) : bool :=
  negb (bool_decide (va_space_lock h = rwsem_free)).

(** The discipline, one call at a time: a lock is taken when it is free and
    dropped when it is held in that mode; nothing sleeps under the
    address-space lock; blocks are looked up and serviced, and memory is
    mapped and unmapped, under it; an address space is destroyed under the
    power-management lock; the ECC check runs on retained GPUs, outside the
    address-space lock.  [None] is a violation. *)
Definition lock_step (h : held) (c : call) : option held :=
  let require (b : bool) (h' : held) := if b then Some h' else None in
  match c with
  | uvm_down_read_trylock acquired
  | uvm_down_read_trylock_no_tracking acquired =>
      require (negb (pm_lock h)) (set_pm_lock acquired h)
  | uvm_down_read => require (negb (pm_lock h)) (set_pm_lock true h)
  | uvm_up_read | uvm_up_read_no_tracking =>
      require (pm_lock h) (set_pm_lock false h)
  | uvm_va_space_down_read =>
      require (negb (va_space_locked h)) (set_va_space_lock rwsem_read h)
  | uvm_va_space_up_read =>
      require (bool_decide (va_space_lock h = rwsem_read))
        (set_va_space_lock rwsem_free h)
  | uvm_va_space_down_write =>
      require (negb (va_space_locked h)) (set_va_space_lock rwsem_write h)
  | uvm_va_space_up_write =>
      require (bool_decide (va_space_lock h = rwsem_write))
        (set_va_space_lock rwsem_free h)
  | uvm_record_lock_mmap_lock _ =>
      require (negb (mmap_lock_recorded h)) (set_mmap_lock_recorded true h)
  | uvm_record_unlock_mmap_lock _ =>
      require (mmap_lock_recorded h) (set_mmap_lock_recorded false h)
  | usleep_range _ _ => require (negb (va_space_locked h)) h
  | uvm_va_block_find_create_managed _ _
  | uvm_va_block_cpu_fault _ _ _ _
  | uvm_mem_map_cpu_user _
  | uvm_mem_unmap_cpu_user => require (va_space_locked h) h
  | uvm_va_space_destroy _ => require (pm_lock h) h
  | uvm_global_mask_retain =>
      require (va_space_locked h && negb (gpus_retained h))
        (set_gpus_retained true h)
  | uvm_global_mask_check_ecc_error _ =>
      require (gpus_retained h && negb (va_space_locked h)) h
  | uvm_global_mask_release =>
      require (gpus_retained h) (set_gpus_retained false h)
  | _ => Some h
  end.

Fixpoint lock_run (h : held) (t : list call) : option held :=
  match t with
  | [] => Some h
  | c :: t => h' ← lock_step h c; lock_run h' t
  end.

(** From [w] to [w'] the trace has grown by calls that respect the
    discipline and lead from [h] to [h']. *)
Definition locks_from (h : held) (w : world) (h' : held) (w' : world) : Prop :=
  exists new, trace w' = trace w ++ new /\ lock_run h new = Some h'.

(** The entry point has run from [w] to [w'] within the discipline, and
    holds nothing at its return. *)
Definition lock_balanced (w w' : world) : Prop :=
  locks_from no_locks w no_locks w'.

(** What the fault handler holds when it enters the body of the retry loop
    with [status], and when it leaves the loop. *)
Definition in_loop (status : NV_STATUS) : held :=
  {| pm_lock := true;
     va_space_lock := if is_more_processing status then rwsem_read else rwsem_free;
     mmap_lock_recorded := true; gpus_retained := false |}.

Definition after_loop : held :=
  {| pm_lock := true; va_space_lock := rwsem_read;
     mmap_lock_recorded := true; gpus_retained := false |}.

(** ** More vocabulary *)

(** The attempt ends the retry loop: the block cannot be found or created,
    or the servicing does not ask for more processing. *)
Definition final_attempt (a : attempt) : Prop :=
  is_ok (find_create_status a) = false \/
  forall c, is_more_processing (cpu_fault a c).1 = false.

Definition is_mem_unmap (c : call) : bool :=
  match c with uvm_mem_unmap_cpu_user => true | _ => false end.

Definition is_mem_map (c : call) : bool :=
  match c with uvm_mem_map_cpu_user _ => true | _ => false end.

(** The calls that [w'] has added to the trace of [w]. *)
Definition new_calls (w w' : world) : list call :=
  drop (length (trace w)) (trace w').

Definition is_destroy_of (va_space : N) (c : call) : bool :=
  match c with
  | uvm_va_space_destroy v => v =? va_space
  | _ => false
  end.

(** The request passes the checks at the head of [uvm_mmap]. *)
Definition mmap_request_ok {plat : Platform} (v : vm_area_struct) (e : mmap_env)
    : Prop :=
  m_global_status e = NV_OK /\
  m_va_space_initialized e = NV_OK /\
  (m_va_space_mm_enabled e = true -> m_va_space_mm e = m_current_mm e) /\
  vm_start v = shl64 (vm_pgoff v) PAGE_SHIFT /\
  N.land (vm_flags v) VM_SHARED_READ_WRITE = VM_SHARED_READ_WRITE.

(** The record that [uvm_mmap] creates for the vma. *)
Definition managed_range (v : vm_area_struct) (vma_wrapper : N) : uvm_va_range_t :=
  {| node_start := vm_start v; node_end := sub64 (vm_end v) 1;
     type := UVM_VA_RANGE_TYPE_MANAGED;
     vma_wrapper := vma_wrapper; zombie := false |}.

(** The worker of the deferred-release queue runs the items in order. *)
Definition run_q_items (items : list q_item) (w : world) : world :=
  fold_left (fun w item => run_q_item item w) items w.

(** ** Sample data *)

(** A request to map 16 KiB at the address that the file offset names. *)
Definition requested_vma : vm_area_struct :=
  {| vm_start := 0x7f0000000000; vm_end := 0x7f0000004000;
     vm_pgoff := 0x7f0000000; vm_flags := VM_SHARED_READ_WRITE;
     vm_mm := 1; vm_file := 1; vm_ops := vm_ops_unset;
     vm_private_data := 0 |}.

(** The same request while the record of the range cannot be allocated, and
    while the system is suspended. *)
Definition range_failing_mmap_env : mmap_env :=
  {| m_global_status := NV_OK; m_va_space_initialized := NV_OK;
     m_va_space_mm_enabled := false; m_va_space_mm := 0; m_current_mm := 1;
     m_pm_trylock := true; m_new_wrapper := 0x5000; m_range_alloc_ok := false;
     m_map_cpu_user := NV_OK |}.

Definition suspended_mmap_env : mmap_env :=
  {| m_global_status := NV_OK; m_va_space_initialized := NV_OK;
     m_va_space_mm_enabled := false; m_va_space_mm := 0; m_current_mm := 1;
     m_pm_trylock := false; m_new_wrapper := 0x5000; m_range_alloc_ok := true;
     m_map_cpu_user := NV_OK |}.

(** The managed vma at 0x1000 and the copy that a fork has made of it for
    another mm, at 0x3000. *)
Definition forked_vma : vm_area_struct :=
  {| vm_start := 0x7f0000000000; vm_end := 0x7f0000004000;
     vm_pgoff := 0x7f0000000; vm_flags := VM_SHARED_READ_WRITE;
     vm_mm := 2; vm_file := 1; vm_ops := uvm_vm_ops_managed;
     vm_private_data := 0x5000 |}.

Definition forked_world : world :=
  {| trace := []; clock := 0; deferred_release_q := [];
     g_cpu_service_block_context_list := [];
     vmas := {[ 0x1000 := managed_vma; 0x3000 := forked_vma ]};
     wrappers := {[ 0x5000 := {| wrapper_vma := 0x1000 |} ]};
     va_ranges := [ managed_range managed_vma 0x5000 ] |}.

(** A semaphore-pool vma at 0x1000, which points to itself, and the copy of
    a fork at 0x3000. *)
Definition pool_vma : vm_area_struct :=
  {| vm_start := 0x7f0000000000; vm_end := 0x7f0000004000;
     vm_pgoff := 0x7f0000000; vm_flags := VM_SHARED_READ_WRITE;
     vm_mm := 1; vm_file := 1; vm_ops := uvm_vm_ops_semaphore_pool;
     vm_private_data := 0x1000 |}.

Definition forked_pool_vma : vm_area_struct :=
  {| vm_start := 0x7f0000000000; vm_end := 0x7f0000004000;
     vm_pgoff := 0x7f0000000; vm_flags := VM_SHARED_READ_WRITE;
     vm_mm := 2; vm_file := 1; vm_ops := uvm_vm_ops_semaphore_pool;
     vm_private_data := 0x1000 |}.

Definition pool_world : world :=
  {| trace := []; clock := 0; deferred_release_q := [];
     g_cpu_service_block_context_list := [];
     vmas := {[ 0x1000 := pool_vma; 0x3000 := forked_pool_vma ]};
     wrappers := ∅;
     va_ranges := [ {| node_start := 0x7f0000000000; node_end := 0x7f0000003fff;
                       type := UVM_VA_RANGE_TYPE_SEMAPHORE_POOL;
                       vma_wrapper := 0; zombie := false |} ] |}.

(** An ordinary unmap by the owner of the mapping. *)
Definition munmap_env : close_env :=
  {| c_current_mm := 1; c_multi_process_sharing := false;
     c_va_space_mm_enabled := false; c_va_space_mm := 0;
     c_user_channels_stopped := false; c_registered_gpu_va_spaces := [0; 1] |}.

End UvmLife.

(* ===================================================================== *)
(** * Part I-e. uvm.c: loading and unloading the module                   *)
(* ===================================================================== *)

Module UvmModule.
Import Uvm.

(** Calls out of [uvm_init], [uvm_exit] and the unload-state test hook, in
    program order, with the results that steer the caller.  The messages of
    [pr_info] and [UVM_ERR_PRINT] are left out. *)
Inductive module_call :=
| uvm_global_init (status : NV_STATUS)
| uvm_global_exit
| alloc_chrdev_region (ret : Z)
| uvm_init_character_device
| cdev_add (ret : Z)
| cdev_del
| unregister_chrdev_region
| uvm_tools_init (ret : Z)
| uvm_tools_exit
| nv_mmap_read_lock
| NV_GET_USER_PAGES (ret : Z) (page : N)
| nv_mmap_read_unlock
| uvm_mutex_lock_global
| uvm_mutex_unlock_global
| kmap (page : N)
| kunmap (page : N)
| put_page (page : N).

#[global] Instance module_call_eq_dec : EqDecision module_call.
Proof. solve_decision. Defined.

Definition ENODEV : Z := 19.

(** What the callees of [uvm_init] answer. *)
Record init_env := {
  i_global_init : NV_STATUS;
  i_alloc_chrdev_region : Z;
  i_cdev_add : Z;
  i_tools_init : Z;
}.

(** [g_uvm_global.unload_state] and the word its [ptr] points to; a [ptr] of
    0 is [NULL]. *)
Record unload_state_t := {
  unload_page : N;
  unload_ptr : N;
  unload_word : N;
}.

(** What the kernel answers to [uvm_test_register_unload_state_buffer]: the
    result of [NV_GET_USER_PAGES] with the page it has pinned, and the
    address at which [kmap] maps that page. *)
Record unload_env := {
  u_get_user_pages : Z;
  u_page : N;
  u_kmap : N;
}.

(** Status codes and conversions of headers outside this file. *)
Class StatusCodes := {
  NV_ERR_INVALID_ADDRESS : NV_STATUS;
  NV_ERR_IN_USE : NV_STATUS;
  errno_to_nv_status : Z -> NV_STATUS;
}.

Definition uvm_chardev_create (e : init_env) (t : list module_call)
    : Z * list module_call :=
  let ret := i_alloc_chrdev_region e in
  let t := t ++ [alloc_chrdev_region ret] in
  if negb (ret =? 0)%Z then (ret, t)
  else
    let t := t ++ [uvm_init_character_device] in
    let ret := i_cdev_add e in
    let t := t ++ [cdev_add ret] in
    if negb (ret =? 0)%Z then (ret, t ++ [unregister_chrdev_region])
    else (0%Z, t).

Definition uvm_chardev_exit (t : list module_call) : list module_call :=
  t ++ [cdev_del; unregister_chrdev_region].

(** The [error] label of [uvm_init]. *)
Definition uvm_init_error (initialized_globals added_device : bool) (ret : Z)
    (t : list module_call) : Z * list module_call :=
  let t := if added_device then uvm_chardev_exit t else t in
  let t := if initialized_globals then t ++ [uvm_global_exit] else t in
  (ret, t).

Definition uvm_init (e : init_env) (t : list module_call)
    : Z * list module_call :=
  let status := i_global_init e in
  let t := t ++ [uvm_global_init status] in
  if negb (is_ok status) then uvm_init_error false false (- ENODEV)%Z t
  else
    let '(ret, t) := uvm_chardev_create e t in
    if negb (ret =? 0)%Z then uvm_init_error true false ret t
    else
      let ret := i_tools_init e in
      let t := t ++ [uvm_tools_init ret] in
      if negb (ret =? 0)%Z then uvm_init_error true true ret t
      else (0%Z, t).

Definition uvm_test_unload_state_exit (g : unload_state_t)
    (t : list module_call) : list module_call :=
  if negb (unload_ptr g =? 0)
  then t ++ [kunmap (unload_page g); put_page (unload_page g)]
  else t.

Definition uvm_exit (g : unload_state_t) (t : list module_call)
    : list module_call :=
  let t := t ++ [uvm_tools_exit] in
  let t := uvm_chardev_exit t in
  let t := t ++ [uvm_global_exit] in
  uvm_test_unload_state_exit g t.

Section WithPlatform.
Context {plat : Platform} {codes : StatusCodes}.

Definition PAGE_SIZE : N := 2 ^ PAGE_SHIFT.

(** [x & ~PAGE_MASK]: the offset of [x] in its page. *)
Definition page_offset (x : N) : N := N.land x (PAGE_SIZE - 1).

(** [IS_ALIGNED(x, a)] for a power of two [a]. *)
Definition IS_ALIGNED (x a : N) : bool := N.land x (a - 1) =? 0.

Definition uvm_test_register_unload_state_buffer (unload_state_buf : N)
    (e : unload_env) (g : unload_state_t) (t : list module_call)
    : NV_STATUS * unload_state_t * list module_call :=
  if negb (IS_ALIGNED unload_state_buf 8) then (NV_ERR_INVALID_ADDRESS, g, t)
  else
    let ret := u_get_user_pages e in
    let page := u_page e in
    let t := t ++ [nv_mmap_read_lock; NV_GET_USER_PAGES ret page;
                   nv_mmap_read_unlock] in
    if (ret <? 0)%Z then (errno_to_nv_status ret, g, t)
    else
      let t := t ++ [uvm_mutex_lock_global] in
      if negb (unload_ptr g =? 0) then
        (NV_ERR_IN_USE, g, t ++ [put_page page; uvm_mutex_unlock_global])
      else
        let t := t ++ [kmap page] in
        let g := {| unload_page := page;
                    unload_ptr := u_kmap e + page_offset unload_state_buf;
                    unload_word := 0 |} in
        (NV_OK, g, t ++ [uvm_mutex_unlock_global]).

End WithPlatform.

(** ** Resources

    What the module holds: the globals, the device-number region, the
    character device, the tools device, and the references on pinned pages
    with the pages that are mapped. *)
Record resources := {
  globals_up : bool;
  region_held : bool;
  cdev_added : bool;
  tools_up : bool;
  pinned : list N;
  mapped : list N;
}.

Definition nothing_held : resources :=
  {| globals_up := false; region_held := false; cdev_added := false;
     tools_up := false; pinned := []; mapped := [] |}.

Definition module_loaded : resources :=
  {| globals_up := true; region_held := true; cdev_added := true;
     tools_up := true; pinned := []; mapped := [] |}.

(** Set-up builds on what is there and tear-down runs in the reverse order;
    a call that fails leaves nothing behind; a page is unpinned after it is
    unmapped.  [None] is a violation. *)
Definition resource_step (r : resources) (c : module_call) : option resources :=
  let require (b : bool) (r' : resources) := if b then Some r' else None in
  match c with
  | uvm_global_init status =>
      require (negb (globals_up r))
        {| globals_up := is_ok status; region_held := region_held r;
           cdev_added := cdev_added r; tools_up := tools_up r;
           pinned := pinned r; mapped := mapped r |}
  | uvm_global_exit =>
      require (globals_up r && negb (region_held r))
        {| globals_up := false; region_held := region_held r;
           cdev_added := cdev_added r; tools_up := tools_up r;
           pinned := pinned r; mapped := mapped r |}
  | alloc_chrdev_region ret =>
      require (globals_up r && negb (region_held r))
        {| globals_up := globals_up r; region_held := (ret =? 0)%Z;
           cdev_added := cdev_added r; tools_up := tools_up r;
           pinned := pinned r; mapped := mapped r |}
  | unregister_chrdev_region =>
      require (region_held r && negb (cdev_added r))
        {| globals_up := globals_up r; region_held := false;
           cdev_added := cdev_added r; tools_up := tools_up r;
           pinned := pinned r; mapped := mapped r |}
  | uvm_init_character_device => require (region_held r) r
  | cdev_add ret =>
      require (region_held r && negb (cdev_added r))
        {| globals_up := globals_up r; region_held := region_held r;
           cdev_added := (ret =? 0)%Z; tools_up := tools_up r;
           pinned := pinned r; mapped := mapped r |}
  | cdev_del =>
      require (cdev_added r && negb (tools_up r))
        {| globals_up := globals_up r; region_held := region_held r;
           cdev_added := false; tools_up := tools_up r;
           pinned := pinned r; mapped := mapped r |}
  | uvm_tools_init ret =>
      require (cdev_added r && negb (tools_up r))
        {| globals_up := globals_up r; region_held := region_held r;
           cdev_added := cdev_added r; tools_up := (ret =? 0)%Z;
           pinned := pinned r; mapped := mapped r |}
  | uvm_tools_exit =>
      require (tools_up r)
        {| globals_up := globals_up r; region_held := region_held r;
           cdev_added := cdev_added r; tools_up := false;
           pinned := pinned r; mapped := mapped r |}
  | NV_GET_USER_PAGES ret page =>
      Some {| globals_up := globals_up r; region_held := region_held r;
              cdev_added := cdev_added r; tools_up := tools_up r;
              pinned := if (0 <? ret)%Z then page :: pinned r else pinned r;
              mapped := mapped r |}
  | kmap page =>
      require (bool_decide (page ∈ pinned r))
        {| globals_up := globals_up r; region_held := region_held r;
           cdev_added := cdev_added r; tools_up := tools_up r;
           pinned := pinned r; mapped := page :: mapped r |}
  | kunmap page =>
      require (bool_decide (page ∈ mapped r))
        {| globals_up := globals_up r; region_held := region_held r;
           cdev_added := cdev_added r; tools_up := tools_up r;
           pinned := pinned r;
           mapped := List.remove N.eq_dec page (mapped r) |}
  | put_page page =>
      require (bool_decide (page ∈ pinned r) &&
               negb (bool_decide (page ∈ mapped r)))
        {| globals_up := globals_up r; region_held := region_held r;
           cdev_added := cdev_added r; tools_up := tools_up r;
           pinned := List.remove N.eq_dec page (pinned r);
           mapped := mapped r |}
  | _ => Some r
  end.

Fixpoint resource_run (r : resources) (t : list module_call) : option resources :=
  match t with
  | [] => Some r
  | c :: t => r' ← resource_step r c; resource_run r' t
  end.

(** The resources with one more page pinned and mapped. *)
Definition with_page (page : N) (r : resources) : resources :=
  {| globals_up := globals_up r; region_held := region_held r;
     cdev_added := cdev_added r; tools_up := tools_up r;
     pinned := page :: pinned r; mapped := page :: mapped r |}.

(** ** Sample data *)

Definition sample_codes : StatusCodes :=
  {| NV_ERR_INVALID_ADDRESS := NV_ERR_OTHER 0x1e;
     NV_ERR_IN_USE := NV_ERR_OTHER 0x17;
     errno_to_nv_status := fun _ => NV_ERR_OTHER 0xffff |}.

Definition no_unload_state : unload_state_t :=
  {| unload_page := 0; unload_ptr := 0; unload_word := 0 |}.

(** A load on which the tools device cannot be set up. *)
Definition tools_failing_env : init_env :=
  {| i_global_init := NV_OK; i_alloc_chrdev_region := 0; i_cdev_add := 0;
     i_tools_init := (-12)%Z |}.

Definition working_env : init_env :=
  {| i_global_init := NV_OK; i_alloc_chrdev_region := 0; i_cdev_add := 0;
     i_tools_init := 0 |}.

(** A user buffer at offset 0x18 of its page, which the kernel pins as page 7
    and maps at 0xffff888000042000. *)
Definition sample_unload_env : unload_env :=
  {| u_get_user_pages := 1; u_page := 7; u_kmap := 0xffff888000042000 |}.

End UvmModule.

(* ===================================================================== *)
(** * Part II-a. Properties of uvm_kvmalloc.c                             *)
(* ===================================================================== *)

Module KvmallocProofs.
Import Kvmalloc.

Section KvmallocFacts.
Context {cfg : Config}.

Lemma wrap_long_in_range z : long_range (wrap_long z).
Proof.
  unfold long_range, wrap_long.
  pose proof (Z.mod_pos_bound (z + 2 ^ 63) (2 ^ 64)) as Hb. lia.
Qed.

Lemma wrap_long_id z : long_range z -> wrap_long z = z.
Proof.
  unfold long_range, wrap_long. intros Hz.
  rewrite Z.mod_small by lia. lia.
Qed.

Lemma wrap_long_absorb_l a b : wrap_long (wrap_long a + b) = wrap_long (a + b).
Proof.
  unfold wrap_long. f_equal.
  replace ((a + 2 ^ 63) mod 2 ^ 64 - 2 ^ 63 + b + 2 ^ 63)%Z
    with ((a + 2 ^ 63) mod 2 ^ 64 + b)%Z by lia.
  rewrite Zplus_mod_idemp_l. f_equal. lia.
Qed.

Lemma atomic_long_sub_add i v :
  long_range v -> atomic_long_add i (atomic_long_sub i v) = v.
Proof.
  intros Hv. unfold atomic_long_add, atomic_long_sub.
  rewrite wrap_long_absorb_l.
  replace (v - i + i)%Z with v by lia. by apply wrap_long_id.
Qed.

Lemma atomic_long_add_sub i v :
  long_range v -> atomic_long_sub i (atomic_long_add i v) = v.
Proof.
  intros Hv. unfold atomic_long_add, atomic_long_sub.
  replace (wrap_long (v + i) - i)%Z with (wrap_long (v + i) + - i)%Z by lia.
  rewrite wrap_long_absorb_l.
  replace (v + i + - i)%Z with v by lia. by apply wrap_long_id.
Qed.

Lemma kv_state_eta st :
  {| kmalloc_objs := kmalloc_objs st; vmalloc_areas := vmalloc_areas st;
     bytes_allocated := bytes_allocated st;
     untracked_allocations := untracked_allocations st;
     allocation_info := allocation_info st |} = st.
Proof. by destruct st. Qed.

Lemma alloc_internal_null size z r st st' :
  reply_wf r -> alloc_internal size z r st = (NULL, st') -> st' = st.
Proof.
  intros Hwf. unfold alloc_internal, kmalloc, vmalloc.
  destruct (size <=? UVM_KMALLOC_THRESHOLD).
  - destruct (size =? 0); [intros [=] |].
    destruct r as [|a u j]; [by intros [= <-] |].
    simpl in Hwf. intros [= Ha _]. done.
  - destruct (wrap_size (sizeof_hdr + size) =? 0); simpl; [by intros [= <-] |].
    destruct r as [|a u j]; simpl; [by intros [= <-] |].
    simpl in Hwf. destruct (a =? NULL) eqn:Ea.
    + apply N.eqb_eq in Ea. done.
    + intros [= Hp _]. unfold sizeof_hdr, NULL in Hp. lia.
Qed.

Lemma realloc_from_vmalloc_null p n r st st' :
  ZERO_OR_NULL_PTR p = false ->
  reply_wf r -> realloc_from_vmalloc p n r st = (NULL, st') ->
  st' = st /\ n <> 0.
Proof.
  intros Hp Hwf. unfold realloc_from_vmalloc.
  destruct (n =? 0) eqn:En; [intros [=] |].
  apply N.eqb_neq in En.
  destruct (n =? _).
  { intros [= -> _]. done. }
  destruct (alloc_internal n false r st) as [q st1] eqn:Ha.
  destruct (q =? NULL) eqn:Eq.
  - apply N.eqb_eq in Eq. subst q. intros [= <-].
    split; [by eapply alloc_internal_null | done].
  - intros [= Hq _]. apply N.eqb_neq in Eq. done.
Qed.

Lemma realloc_from_kmalloc_null p n r st st' :
  reply_wf r -> realloc_from_kmalloc p n r st = (NULL, st') ->
  st' = st /\ n <> 0.
Proof.
  intros Hwf. unfold realloc_from_kmalloc, krealloc.
  destruct (n <=? UVM_KMALLOC_THRESHOLD) eqn:Eth.
  - destruct (n =? 0) eqn:En; [intros [=] |].
    apply N.eqb_neq in En.
    destruct r as [|a u j]; [by intros [= <-] |].
    simpl in Hwf. intros [= Ha _]. done.
  - apply N.leb_gt in Eth.
    destruct (alloc_internal n false r st) as [q st1] eqn:Ha.
    destruct (q =? NULL) eqn:Eq.
    + apply N.eqb_eq in Eq. subst q. intros [= <-].
      split; [by eapply alloc_internal_null | lia].
    + intros [= Hq _]. apply N.eqb_neq in Eq. done.
Qed.

Lemma realloc_dispatch_null p n r st st2 :
  ZERO_OR_NULL_PTR p = false -> reply_wf r ->
  (if is_vmalloc_addr p then realloc_from_vmalloc p n r st
   else realloc_from_kmalloc p n r st) = (NULL, st2) ->
  st2 = st /\ n <> 0.
Proof.
  intros Hp Hwf. destruct (is_vmalloc_addr p).
  - by apply realloc_from_vmalloc_null.
  - by apply realloc_from_kmalloc_null.
Qed.

Lemma kvrealloc_failure_state p n f l fn e st st' :
  ZERO_OR_NULL_PTR p = false -> reply_wf (mem e) ->
  long_range (bytes_allocated st) ->
  __uvm_kvrealloc p n f l fn e st = (NULL, st') ->
  n <> 0 /\ st' = after_failed_realloc p st.
Proof.
  intros Hp Hwf Hb. unfold __uvm_kvrealloc, after_failed_realloc. rewrite Hp.
  destruct leak_check_enabled eqn:Hen; simpl.
  - destruct (n =? 0) eqn:En.
    + destruct (if is_vmalloc_addr p then _ else _) as [q st2] eqn:Hr.
      intros [= -> _].
      apply realloc_dispatch_null in Hr as [_ Hn]; [| done..].
      apply N.eqb_eq in En. done.
    + apply N.eqb_neq in En. intros Heq. split; [done |]. revert Heq.
      destruct leak_check_origin eqn:Hor.
      * unfold remove_info. simpl.
        destruct (allocation_info st !! p) as [i|] eqn:Hi.
        -- destruct (if is_vmalloc_addr p then _ else _) as [q st2] eqn:Hr.
           intros [= -> <-]. simpl.
           apply realloc_dispatch_null in Hr as [-> _]; [| done..].
           unfold insert_info, set_allocation_info, set_bytes_allocated,
             uvm_rb_tree_insert. simpl.
           rewrite lookup_delete_eq, insert_delete_eq, (insert_id _ _ _ Hi).
           rewrite atomic_long_sub_add by done. by destruct st.
        -- destruct (if is_vmalloc_addr p then _ else _) as [q st2] eqn:Hr.
           intros [= -> <-]. simpl.
           apply realloc_dispatch_null in Hr as [-> _]; [| done..].
           unfold set_untracked_allocations, set_bytes_allocated. simpl.
           rewrite atomic_long_sub_add by done. done.
      * destruct (if is_vmalloc_addr p then _ else _) as [q st2] eqn:Hr.
        intros [= -> <-]. simpl.
        apply realloc_dispatch_null in Hr as [-> _]; [| done..].
        unfold set_bytes_allocated. simpl.
        rewrite atomic_long_sub_add by done. by destruct st.
  - destruct (if is_vmalloc_addr p then _ else _) as [q st2] eqn:Hr.
    intros [= -> <-].
    by apply realloc_dispatch_null in Hr as [-> Hn].
Qed.

Lemma origin_implies_enabled : leak_check_origin = true -> leak_check_enabled = true.
Proof.
  unfold leak_check_origin, leak_check_enabled, UVM_KVMALLOC_LEAK_CHECK_ORIGIN.
  intros H. apply Z.leb_le in H. apply negb_true_iff, Z.eqb_neq. lia.
Qed.

(** [uvm_kvsize] only reads the two heaps. *)
Lemma uvm_kvsize_heap st1 st2 p :
  kmalloc_objs st1 = kmalloc_objs st2 ->
  vmalloc_areas st1 = vmalloc_areas st2 ->
  uvm_kvsize st1 p = uvm_kvsize st2 p.
Proof.
  intros Hk Hv. unfold uvm_kvsize, hdr_alloc_size, ksize. by rewrite Hk, Hv.
Qed.

(** What [uvm_kvfree] does to each component of the state. *)
Lemma uvm_kvfree_fields p st :
  p <> NULL ->
  kmalloc_objs (uvm_kvfree p st) =
    (if is_vmalloc_addr p || ZERO_OR_NULL_PTR p then kmalloc_objs st
     else delete p (kmalloc_objs st)) /\
  vmalloc_areas (uvm_kvfree p st) =
    (if is_vmalloc_addr p then delete (get_hdr p) (vmalloc_areas st)
     else vmalloc_areas st) /\
  bytes_allocated (uvm_kvfree p st) =
    (if leak_check_enabled && negb (ZERO_OR_NULL_PTR p)
     then atomic_long_sub (long_of_size (uvm_kvsize st p)) (bytes_allocated st)
     else bytes_allocated st) /\
  allocation_info (uvm_kvfree p st) =
    (if leak_check_enabled && negb (ZERO_OR_NULL_PTR p) && leak_check_origin
     then delete p (allocation_info st)
     else allocation_info st).
Proof.
  intros Hp. unfold uvm_kvfree.
  apply N.eqb_neq in Hp. rewrite Hp.
  unfold alloc_tracking_remove, remove_info, vfree, kfree.
  destruct leak_check_enabled, (ZERO_OR_NULL_PTR p), leak_check_origin,
    (is_vmalloc_addr p); simpl; try done;
  destruct (allocation_info st !! p) eqn:Hi; simpl;
    rewrite ?(delete_id _ _ Hi); done.
Qed.

Lemma uvm_kvfree_same_allocations p st1 st2 :
  same_allocations st1 st2 ->
  same_allocations (uvm_kvfree p st1) (uvm_kvfree p st2).
Proof.
  intros (Hk & Hv & Hb & Hi).
  destruct (N.eq_dec p NULL) as [->|Hp]; [done |].
  unfold same_allocations.
  destruct (uvm_kvfree_fields p st1 Hp) as (-> & -> & -> & ->).
  destruct (uvm_kvfree_fields p st2 Hp) as (-> & -> & -> & ->).
  rewrite (uvm_kvsize_heap st1 st2 p Hk Hv), Hk, Hv, Hb, Hi. done.
Qed.

Lemma uvm_kvfree_released p st :
  ZERO_OR_NULL_PTR p = false -> released p (uvm_kvfree p st).
Proof.
  intros Hz.
  assert (p <> NULL) as Hp.
  { intros ->. done. }
  destruct (uvm_kvfree_fields p st Hp) as (Hk & Hv & _ & Hi).
  unfold released. rewrite Hk, Hv, Hi, Hz. split.
  - destruct (is_vmalloc_addr p); simpl; apply lookup_delete_eq.
  - destruct leak_check_origin eqn:Ho; [| done].
    rewrite (origin_implies_enabled Ho). simpl. apply lookup_delete_eq.
Qed.

Lemma after_failed_realloc_same p st : same_allocations (after_failed_realloc p st) st.
Proof.
  unfold after_failed_realloc, same_allocations.
  destruct (leak_check_enabled && leak_check_origin); [| done].
  by destruct (allocation_info st !! p).
Qed.

(** C1.  When [__uvm_kvrealloc] of a live pointer fails (returns [NULL]), both
    heaps are as before, so the original allocation is valid and unmodified;
    the aggregate byte count and the origin table are as before; [uvm_kvsize]
    of the pointer is the original size; and [uvm_kvfree] of the pointer
    releases the original allocation exactly as it would have before the
    call.  The whole state is unchanged unless origin tracking is on and the
    pointer has no record. *)
Theorem kvrealloc_failure_keeps_original p n f l fn e st st' :
  ZERO_OR_NULL_PTR p = false ->
  reply_wf (mem e) ->
  long_range (bytes_allocated st) ->
  __uvm_kvrealloc p n f l fn e st = (NULL, st') ->
  same_allocations st' st /\
  uvm_kvsize st' p = uvm_kvsize st p /\
  same_allocations (uvm_kvfree p st') (uvm_kvfree p st) /\
  released p (uvm_kvfree p st') /\
  (leak_check_origin = false \/ is_Some (allocation_info st !! p) -> st' = st).
Proof.
  intros Hp Hwf Hb Hr.
  apply kvrealloc_failure_state in Hr as [_ ->]; [| done..].
  pose proof (after_failed_realloc_same p st) as Hs.
  split; [done |]. split.
  { destruct Hs as (Hk & Hv & _). by apply uvm_kvsize_heap. }
  split; [by apply uvm_kvfree_same_allocations |].
  split; [by apply uvm_kvfree_released |].
  unfold after_failed_realloc. intros [-> | [i ->]].
  - by rewrite andb_false_r.
  - by destruct (_ && _).
Qed.

(** A failed reallocation of an allocation without origin record lowers the
    sanity counter of untracked allocations and does not raise it again. *)
Lemma kvrealloc_failure_untracked_drift p n f l fn e st st' :
  ZERO_OR_NULL_PTR p = false ->
  reply_wf (mem e) ->
  long_range (bytes_allocated st) ->
  leak_check_origin = true ->
  allocation_info st !! p = None ->
  __uvm_kvrealloc p n f l fn e st = (NULL, st') ->
  untracked_allocations st' = atomic_long_dec (untracked_allocations st).
Proof.
  intros Hp Hwf Hb Ho Hi Hr.
  apply kvrealloc_failure_state in Hr as [_ ->]; [| done..].
  unfold after_failed_realloc.
  by rewrite Ho, (origin_implies_enabled Ho), Hi.
Qed.

(** C5.  [__uvm_kvrealloc] of a live pointer to size zero is [uvm_kvfree] of
    the pointer and returns [ZERO_SIZE_PTR], which is not the [NULL] of a
    failed reallocation; [__uvm_kvrealloc] of [NULL] is [__uvm_kvmalloc]. *)
Theorem kvrealloc_zero_frees_null_allocates p n f l fn e st :
  ZERO_OR_NULL_PTR p = false ->
  __uvm_kvrealloc p 0 f l fn e st = (ZERO_SIZE_PTR, uvm_kvfree p st) /\
  ZERO_SIZE_PTR <> NULL /\
  __uvm_kvrealloc NULL n f l fn e st = __uvm_kvmalloc n f l fn e st.
Proof.
  intros Hz. split; [| split; [done | done]].
  assert ((p =? NULL) = false) as Hp.
  { apply N.eqb_neq. intros ->. done. }
  unfold __uvm_kvrealloc, uvm_kvfree. rewrite Hz, Hp.
  unfold realloc_from_vmalloc, realloc_from_kmalloc, krealloc.
  rewrite (proj2 (N.leb_le 0 UVM_KMALLOC_THRESHOLD) (N.le_0_l _)).
  destruct leak_check_enabled, (is_vmalloc_addr p); done.
Qed.

Lemma alloc_internal_bytes size z r st :
  bytes_allocated (alloc_internal size z r st).2 = bytes_allocated st.
Proof.
  unfold alloc_internal, kmalloc, vmalloc.
  destruct (size <=? _).
  - destruct (size =? 0); [done |]. by destruct r.
  - destruct (wrap_size _ =? 0); simpl; [done |].
    destruct r as [|a u j]; simpl; [done |]. by destruct (a =? NULL).
Qed.

Lemma alloc_tracking_add_fields p f fn l ok st :
  ZERO_OR_NULL_PTR p = false ->
  kmalloc_objs (alloc_tracking_add p f fn l ok st) = kmalloc_objs st /\
  vmalloc_areas (alloc_tracking_add p f fn l ok st) = vmalloc_areas st /\
  bytes_allocated (alloc_tracking_add p f fn l ok st) =
    atomic_long_add (long_of_size (uvm_kvsize st p)) (bytes_allocated st).
Proof.
  intros Hz. unfold alloc_tracking_add. rewrite Hz.
  by destruct leak_check_origin, ok.
Qed.

Lemma uvm_kvfree_bytes p st :
  bytes_allocated (uvm_kvfree p st) =
    (if leak_check_enabled && negb (ZERO_OR_NULL_PTR p)
     then atomic_long_sub (long_of_size (uvm_kvsize st p)) (bytes_allocated st)
     else bytes_allocated st).
Proof.
  destruct (N.eq_dec p NULL) as [-> | Hp].
  - by rewrite andb_false_r.
  - by destruct (uvm_kvfree_fields p st Hp) as (_ & _ & -> & _).
Qed.

Lemma alloc_tracking_add_heaps p f fn l ok st :
  kmalloc_objs (alloc_tracking_add p f fn l ok st) = kmalloc_objs st /\
  vmalloc_areas (alloc_tracking_add p f fn l ok st) = vmalloc_areas st.
Proof.
  unfold alloc_tracking_add.
  by destruct (ZERO_OR_NULL_PTR p), leak_check_origin, ok.
Qed.

Lemma kvmalloc_with_bytes zero size f l fn e st p st1 :
  long_range (bytes_allocated st) ->
  __uvm_kvmalloc_with zero size f l fn e st = (p, st1) ->
  bytes_allocated st1 =
    atomic_long_add
      (if leak_check_enabled && negb (ZERO_OR_NULL_PTR p)
       then long_of_size (uvm_kvsize st1 p) else 0%Z)
      (bytes_allocated st) /\
  kmalloc_objs st1 = kmalloc_objs (alloc_internal size zero (mem e) st).2 /\
  vmalloc_areas st1 = vmalloc_areas (alloc_internal size zero (mem e) st).2 /\
  p = (alloc_internal size zero (mem e) st).1.
Proof.
  intros Hb. unfold __uvm_kvmalloc_with.
  pose proof (alloc_internal_bytes size zero (mem e) st) as Hb0.
  destruct (alloc_internal size zero (mem e) st) as [q st0]. simpl in *.
  assert (forall b, atomic_long_add 0 b = wrap_long b) as Hadd0
    by (intros b; unfold atomic_long_add; by rewrite Z.add_0_r).
  destruct leak_check_enabled; simpl.
  - destruct (q =? NULL) eqn:Eq; simpl.
    + intros [= <- <-]. apply N.eqb_eq in Eq. subst q. simpl.
      rewrite Hadd0, wrap_long_id by done. done.
    + intros [= <- <-].
      destruct (alloc_tracking_add_heaps q f fn l (info_ok e) st0) as [Hk Hv].
      split; [| done].
      destruct (ZERO_OR_NULL_PTR q) eqn:Hz; simpl.
      * unfold alloc_tracking_add. rewrite Hz.
        rewrite Hadd0, wrap_long_id by done. done.
      * destruct (alloc_tracking_add_fields q f fn l (info_ok e) st0 Hz)
          as (_ & _ & ->).
        by rewrite Hb0, (uvm_kvsize_heap _ st0 q Hk Hv).
  - intros [= <- <-]. rewrite Hadd0, wrap_long_id by done. done.
Qed.

(** C10.  With the leak checker on, an allocation raises the aggregate byte
    counter by [uvm_kvsize] of the new pointer and the free lowers it by the
    same [uvm_kvsize]; the pair leaves the counter where it was.  For a slab
    object that quantity is the object's [ksize], whatever size was
    requested. *)
Theorem leak_counter_balanced zero size f l fn e st p st1 :
  long_range (bytes_allocated st) ->
  __uvm_kvmalloc_with zero size f l fn e st = (p, st1) ->
  let counted :=
    if leak_check_enabled && negb (ZERO_OR_NULL_PTR p)
    then long_of_size (uvm_kvsize st1 p) else 0%Z in
  bytes_allocated st1 = atomic_long_add counted (bytes_allocated st) /\
  bytes_allocated (uvm_kvfree p st1) = atomic_long_sub counted (bytes_allocated st1) /\
  bytes_allocated (uvm_kvfree p st1) = bytes_allocated st /\
  (forall a usable junk,
      mem e = Granted a usable junk ->
      (size <=? UVM_KMALLOC_THRESHOLD) = true ->
      size <> 0 ->
      is_vmalloc_addr a = false -> ZERO_OR_NULL_PTR a = false ->
      p = a /\ uvm_kvsize st1 p = usable).
Proof.
  intros Hb Ha counted.
  destruct (kvmalloc_with_bytes _ _ _ _ _ _ _ _ _ Hb Ha) as (H1 & Hk & Hv & Hp).
  fold counted in H1.
  assert (bytes_allocated (uvm_kvfree p st1) =
          atomic_long_sub counted (bytes_allocated st1)) as H2.
  { rewrite uvm_kvfree_bytes. subst counted.
    destruct (leak_check_enabled && negb (ZERO_OR_NULL_PTR p)); [done |].
    unfold atomic_long_sub. rewrite Z.sub_0_r, wrap_long_id; [done |].
    rewrite H1. apply wrap_long_in_range. }
  split; [done |]. split; [done |]. split.
  - rewrite H2, H1. by apply atomic_long_add_sub.
  - intros a usable junk Hm Hth Hs Hva Hza.
    apply N.eqb_neq in Hs.
    unfold alloc_internal in Hk, Hv, Hp. rewrite Hth, Hm in Hk, Hv, Hp.
    unfold kmalloc in Hk, Hv, Hp. rewrite Hs in Hk, Hv, Hp. simpl in Hk, Hv, Hp.
    subst p. split; [done |].
    unfold uvm_kvsize, ksize. rewrite Hva, Hza, Hk. simpl.
    by rewrite lookup_insert_eq.
Qed.

(** C4, as the code has it.  For every requested size, a successful
    [alloc_internal] of a size up to and including [UVM_KMALLOC_THRESHOLD] is
    the slab allocator's own result; of a larger size it is a vmalloc area,
    requested with the length [sizeof_hdr + size] computed in [size_t], whose
    header stores the requested size, the pointer handed out lying just behind
    the header.  [uvm_kvsize] of the new pointer is the header's stored size
    when vmalloc owns the address and the slab object's own size when the slab
    allocator does.  In any state, [uvm_kvsize] of a vmalloc address is the
    [alloc_size] of the header in front of it, whatever the slab heap holds,
    and [uvm_kvsize] of a slab address is the object's [ksize], whatever the
    vmalloc areas hold. *)
Theorem alloc_internal_dispatch size zero r st p st' :
  alloc_internal size zero r st = (p, st') ->
  p <> NULL ->
  (if size <=? UVM_KMALLOC_THRESHOLD
   then kmalloc size zero r st = (p, st') /\
        vmalloc_areas st' = vmalloc_areas st /\
        (size <> 0 ->
         served_by_kmalloc p st' /\
         exists usable junk, r = Granted p usable junk /\
           (is_vmalloc_addr p = false -> ZERO_OR_NULL_PTR p = false ->
            uvm_kvsize st' p = usable))
   else served_by_vmalloc p size st' /\
        kmalloc_objs st' = kmalloc_objs st /\
        (is_vmalloc_addr p = true -> uvm_kvsize st' p = size)) /\
  (forall s q h f, is_vmalloc_addr q = true ->
     vmalloc_areas s !! get_hdr q = Some h ->
     uvm_kvsize (set_kmalloc_objs f s) q = alloc_size h) /\
  (forall s q o f, is_vmalloc_addr q = false -> ZERO_OR_NULL_PTR q = false ->
     kmalloc_objs s !! q = Some o ->
     uvm_kvsize (set_vmalloc_areas f s) q = obj_ksize o).
Proof.
  intros Ha Hp. split; [| split].
  - unfold alloc_internal in Ha.
    destruct (size <=? UVM_KMALLOC_THRESHOLD) eqn:Hth.
    + split; [done |]. unfold kmalloc in Ha.
      destruct (size =? 0) eqn:Es.
      * injection Ha as <- <-. split; [done |].
        apply N.eqb_eq in Es. done.
      * destruct r as [|a u j]; injection Ha as <- <-; [done |].
        split; [done |]. intros _. split.
        -- unfold served_by_kmalloc. simpl.
           rewrite lookup_insert_eq. by eexists.
        -- exists u, j. split; [done |]. intros Hv Hz.
           unfold uvm_kvsize, ksize. rewrite Hv, Hz. simpl.
           by rewrite lookup_insert_eq.
    + unfold vmalloc in Ha.
      destruct (wrap_size (sizeof_hdr + size) =? 0);
        [simpl in Ha; by injection Ha as <- _ |].
      destruct r as [|a u j]; simpl in Ha; [by injection Ha as <- _ |].
      destruct (a =? NULL) eqn:Ea; [by injection Ha as <- _ |].
      injection Ha as <- <-.
      assert (get_hdr (a + sizeof_hdr) = a) as Hh
        by (unfold get_hdr; lia).
      set (len := wrap_size (sizeof_hdr + size)).
      assert (vmalloc_areas
               (set_vmalloc_areas (alter (set_alloc_size size) a)
                 (set_vmalloc_areas
                   (insert a {| area_len := len; alloc_size := 0;
                      ptr_data := if zero then zeros (len - sizeof_hdr)
                                  else j |}) st)) !! a
              = Some {| area_len := len; alloc_size := size;
                        ptr_data := if zero then zeros (len - sizeof_hdr)
                                    else j |}) as Hl.
      { simpl. by rewrite lookup_alter_eq, lookup_insert_eq. }
      split; [| split; [done |]].
      * eexists. rewrite Hh. split; [exact Hl |]. done.
      * intros Hv. unfold uvm_kvsize, hdr_alloc_size. rewrite Hv, Hh, Hl. done.
  - intros s q h f Hv Hl. unfold uvm_kvsize, hdr_alloc_size.
    rewrite Hv. simpl. by rewrite Hl.
  - intros s q o f Hv Hz Hl. unfold uvm_kvsize, ksize.
    rewrite Hv, Hz. simpl. by rewrite Hl.
Qed.
End KvmallocFacts.

Lemma kvrealloc_failure_keeps_original_witness :
  ZERO_OR_NULL_PTR slab_addr = false /\
  __uvm_kvrealloc (cfg := sample_config) slab_addr 256 "uvm.c" 1 "caller"
      out_of_memory one_object_state = (NULL, one_object_state) /\
  same_allocations one_object_state one_object_state /\
  uvm_kvsize (cfg := sample_config) one_object_state slab_addr = 128.
Proof.
  assert (ZERO_OR_NULL_PTR slab_addr = false) as H1 by reflexivity.
  assert (__uvm_kvrealloc (cfg := sample_config) slab_addr 256 "uvm.c" 1 "caller"
            out_of_memory one_object_state = (NULL, one_object_state)) as H2
    by (vm_compute; reflexivity).
  assert (long_range (bytes_allocated one_object_state)) as H3
    by (unfold long_range; simpl; lia).
  destruct (kvrealloc_failure_keeps_original (cfg := sample_config)
              slab_addr 256 "uvm.c" 1 "caller" out_of_memory
              one_object_state one_object_state H1 I H3 H2) as (Hs & Hk & _).
  repeat split; try assumption; apply Hs.
Defined.

Lemma kvrealloc_zero_frees_null_allocates_witness :
  __uvm_kvrealloc (cfg := sample_config) slab_addr 0 "uvm.c" 1 "caller"
      out_of_memory one_object_state
    = (ZERO_SIZE_PTR, uvm_kvfree (cfg := sample_config) slab_addr one_object_state).
Proof.
  apply (kvrealloc_zero_frees_null_allocates (cfg := sample_config)
           slab_addr 0 "uvm.c" 1 "caller" out_of_memory one_object_state).
  reflexivity.
Defined.

Lemma leak_counter_balanced_witness :
  exists st1,
    __uvm_kvmalloc (cfg := sample_config) 100 "uvm.c" 1 "caller" (grant_slab 128)
        empty_state = (slab_addr, st1) /\
    bytes_allocated st1 = 128%Z /\
    bytes_allocated (uvm_kvfree (cfg := sample_config) slab_addr st1) = 0%Z.
Proof.
  eexists. split; [vm_compute; reflexivity |].
  assert (long_range (bytes_allocated empty_state)) as H0
    by (unfold long_range; simpl; lia).
  destruct (leak_counter_balanced (cfg := sample_config) false 100 "uvm.c" 1 "caller"
              (grant_slab 128) empty_state slab_addr _ H0 eq_refl)
    as (Ha & _ & Hf & _).
  split; [exact Ha | exact Hf].
Defined.

(** At exactly the threshold the request goes to the slab allocator: the
    reading "at or above the threshold is served by vmalloc" fails there. *)
Lemma alloc_at_threshold_is_slab :
  exists p st',
    UVM_KMALLOC_THRESHOLD (Config := sample_config) <= 16384 /\
    alloc_internal (cfg := sample_config) 16384 false
        (Granted slab_addr 16384 []) empty_state = (p, st') /\
    p <> NULL /\
    served_by_kmalloc p st' /\
    ~ served_by_vmalloc p 16384 st'.
Proof.
  eexists _, _. split; [vm_compute; discriminate |].
  split; [vm_compute; reflexivity |].
  split; [discriminate |]. split.
  - unfold served_by_kmalloc. vm_compute. by eexists.
  - intros (h & Hl & _). vm_compute in Hl. discriminate.
Qed.

Lemma alloc_internal_dispatch_witness :
  (exists st',
     alloc_internal (cfg := sample_config) 20000 false
         (Granted vmalloc_base 0 []) empty_state = (vmalloc_base + sizeof_hdr, st') /\
     served_by_vmalloc (vmalloc_base + sizeof_hdr) 20000 st' /\
     uvm_kvsize (cfg := sample_config) st' (vmalloc_base + sizeof_hdr) = 20000) /\
  (exists st',
     alloc_internal (cfg := sample_config) (SIZE_MAX_plus_1 - 4) false
         (Granted vmalloc_base 0 []) empty_state = (vmalloc_base + sizeof_hdr, st') /\
     served_by_vmalloc (vmalloc_base + sizeof_hdr) (SIZE_MAX_plus_1 - 4) st' /\
     uvm_kvsize (cfg := sample_config) st' (vmalloc_base + sizeof_hdr)
       = SIZE_MAX_plus_1 - 4).
Proof.
  assert (vmalloc_base + sizeof_hdr <> NULL) as Hp by discriminate.
  split.
  - eexists. split; [vm_compute; reflexivity |].
    destruct (alloc_internal_dispatch (cfg := sample_config) 20000 false
                (Granted vmalloc_base 0 []) empty_state _ _ eq_refl Hp)
      as ((Hs & _ & Hk) & _).
    split; [exact Hs | exact (Hk eq_refl)].
  - eexists. split; [vm_compute; reflexivity |].
    destruct (alloc_internal_dispatch (cfg := sample_config)
                (SIZE_MAX_plus_1 - 4) false
                (Granted vmalloc_base 0 []) empty_state _ _ eq_refl Hp)
      as ((Hs & _ & Hk) & _).
    split; [exact Hs | exact (Hk eq_refl)].
Defined.

End KvmallocProofs.

(* ===================================================================== *)
(** * Part II-b. Properties of uvm.c                                      *)
(* ===================================================================== *)

Module UvmProofs.
Import Uvm.

(** C8.  When [uvm_release] cannot take the power-management lock without
    blocking, it tears nothing down itself: it resets the inode references,
    puts a [uvm_release_deferred] item for the address space on the
    deferred-release queue and returns 0, without any blocking acquisition.
    Run by the queue, the item takes the same lock with a blocking
    acquisition, destroys the address space and releases the lock. *)
Theorem release_defers_when_pm_lock_busy filp w :
  let va_space := uvm_va_space_get filp in
  let item := q_uvm_release_deferred va_space in
  let calls := [uvm_down_read_trylock false;
                address_space_init_once va_space;
                nv_kthread_q_schedule_q_item item] in
  let '(ret, _, w') := uvm_release filp false w in
  ret = 0%Z /\
  trace w' = trace w ++ calls /\
  existsb blocking_call calls = false /\
  deferred_release_q w' = deferred_release_q w ++ [item] /\
  blocking_call uvm_down_read = true /\
  (forall w0, trace (run_q_item item w0) =
              trace w0 ++ [uvm_down_read; uvm_va_space_destroy va_space; uvm_up_read]).
Proof.
  simpl. split; [done |]. split.
  - by rewrite <- !app_assoc.
  - split; [done |]. split; [done |]. split; [done |].
    intros w0. by rewrite <- !app_assoc.
Qed.

(** With a fatal global status the handler skips the resolution, but what it
    returns is the bus error, not the retry-later outcome. *)
Lemma fault_with_fatal_global_status_is_sigbus :
  global_status fatal_status_fault_env <> NV_OK /\
  uvm_vm_fault 0x7f0000001000 false fatal_status_fault_env empty_world
    = Some (VM_FAULT_SIGBUS, empty_world) /\
  VM_FAULT_SIGBUS <> VM_FAULT_NOPAGE.
Proof. split; [discriminate |]. split; [reflexivity | discriminate]. Qed.

(** C3, as the code has it.  When the global status is not [NV_OK], or the
    power-management lock cannot be taken without blocking, [uvm_vm_fault]
    skips the resolution: no context leaves the list, no block is looked up
    or serviced, and the address-space lock is not touched; the only call is
    the attempt on the power-management lock, and only when the status was
    [NV_OK].  When the lock is busy the outcome is retry-later
    ([VM_FAULT_NOPAGE]); with a bad global status it is the conversion of
    that status: out of memory for [NV_ERR_NO_MEMORY], retry-later for
    [NV_ERR_BUSY_RETRY], and the bus error for any other. *)
Theorem fault_skipped_when_not_ready fault_addr is_write e w :
  global_status e <> NV_OK \/ pm_trylock e = false ->
  exists ret w',
    uvm_vm_fault fault_addr is_write e w = Some (ret, w') /\
    g_cpu_service_block_context_list w' = g_cpu_service_block_context_list w /\
    clock w' = clock w /\
    trace w' = trace w ++
      (if is_ok (global_status e) then [uvm_down_read_trylock_no_tracking false]
       else []) /\
    ret = match global_status e with
          | NV_OK | NV_ERR_BUSY_RETRY => VM_FAULT_NOPAGE
          | NV_ERR_NO_MEMORY => VM_FAULT_OOM
          | _ => VM_FAULT_SIGBUS
          end.
Proof.
  intros H. unfold uvm_vm_fault.
  destruct (global_status e) eqn:Hs; simpl.
  - destruct H as [H | H]; [done |]. rewrite H. simpl.
    eexists _, _. split; [done |]. simpl. done.
  - eexists _, _. split; [done |]. by rewrite app_nil_r.
  - eexists _, _. split; [done |]. by rewrite app_nil_r.
  - eexists _, _. split; [done |]. by rewrite app_nil_r.
  - eexists _, _. split; [done |]. by rewrite app_nil_r.
  - eexists _, _. split; [done |]. by rewrite app_nil_r.
Qed.

Section FaultFacts.

Lemma count_calls_app p t1 t2 :
  count_calls p (t1 ++ t2) = (count_calls p t1 + count_calls p t2)%nat.
Proof. unfold count_calls. by rewrite List.filter_app, length_app. Qed.

Lemma throttle_balanced_app t1 t2 :
  throttle_balanced t1 -> throttle_balanced t2 -> throttle_balanced (t1 ++ t2).
Proof.
  unfold throttle_balanced. intros [H1 H2] [H3 H4].
  rewrite !count_calls_app. lia.
Qed.


Lemma continues_trans w1 w2 w3 :
  continues w1 w2 -> continues w2 w3 -> continues w1 w3.
Proof.
  intros (n1 & Ht1 & Hb1 & Hc1) (n2 & Ht2 & Hb2 & Hc2).
  exists (n1 ++ n2). rewrite Ht2, Ht1, <- app_assoc.
  split; [done |]. split; [by apply throttle_balanced_app | lia].
Qed.

(** A call other than a throttling record or a sleep keeps the balance. *)
Lemma continues_emit c w :
  is_throttling_start c = false -> is_sleep c = false ->
  is_throttling_end c = false ->
  continues w (emit c w).
Proof.
  intros H1 H2 H3. exists [c]. split; [done |]. split; [| done].
  unfold throttle_balanced, count_calls. simpl. by rewrite H1, H2, H3.
Qed.

Lemma continues_advance ns w : continues w (advance ns w).
Proof.
  exists []. simpl. rewrite app_nil_r.
  split; [done |]. split; [done | lia].
Qed.

(** The three ways through the head of the loop body. *)
Lemma throttle_cases fault_addr status c a w :
  let now := clock w in
  let ts := wakeup_time_stamp c in
  let nap_us := sub64 ts now / 1000 in
  (is_more_processing status = true /\ now < ts /\
   throttle fault_addr status c a w =
     (true, advance (slept_us a * 1000)
              (emit (usleep_range nap_us (wrap64 (nap_us + nap_us / 2)))
                 (emit uvm_va_space_up_read
                    (emit (uvm_tools_record_throttling_start fault_addr) w))))) \/
  (is_more_processing status = true /\ ts <= now /\
   throttle fault_addr status c a w = (false, emit uvm_va_space_up_read w)) \/
  (is_more_processing status = false /\
   throttle fault_addr status c a w = (false, w)).
Proof.
  intros now ts nap_us. unfold throttle.
  destruct (is_more_processing status); [| by right; right].
  fold now ts. destruct (now <? ts) eqn:Hlt.
  - left. apply N.ltb_lt in Hlt. done.
  - right; left. apply N.ltb_ge in Hlt. done.
Qed.

Lemma after_prologue_continues fault_addr status c a w :
  continues w (after_prologue fault_addr status c a w).
Proof.
  unfold after_prologue.
  destruct (throttle_cases fault_addr status c a w)
    as [(_ & _ & ->) | [(_ & _ & ->) | (_ & ->)]].
  - eexists [_; _; _; _; _]. simpl. rewrite <- !app_assoc. simpl.
    split; [done |]. split; [done | lia].
  - eexists [_; _]. simpl. rewrite <- !app_assoc. simpl. done.
  - by apply continues_emit.
Qed.

Lemma fault_loop_unfold fault_addr is_write a rest status c w :
  fault_loop fault_addr is_write (a :: rest) status c w =
    let w := after_prologue fault_addr status c a w in
    let st := find_create_status a in
    let w := emit (uvm_va_block_find_create_managed fault_addr st) w in
    if negb (is_ok st) then Some (st, c, w)
    else
      let w := advance (service_ns a)
                 (emit (uvm_va_block_cpu_fault fault_addr is_write c (cpu_fault a c).1) w) in
      if is_more_processing (cpu_fault a c).1
      then fault_loop fault_addr is_write rest (cpu_fault a c).1 (cpu_fault a c).2 w
      else Some ((cpu_fault a c).1, (cpu_fault a c).2, w).
Proof.
  unfold after_prologue. simpl.
  destruct (throttle fault_addr status c a w) as [b w1].
  destruct (is_ok (find_create_status a)); simpl; [| done].
  by destruct (cpu_fault a c) as [s1 c1].
Qed.

Lemma fault_loop_continues fault_addr is_write atts status c w s' c' w' :
  fault_loop fault_addr is_write atts status c w = Some (s', c', w') ->
  continues w w'.
Proof.
  revert status c w.
  induction atts as [| a rest IH]; intros status c w; [done |].
  rewrite fault_loop_unfold. cbv zeta.
  pose proof (after_prologue_continues fault_addr status c a w) as Hp.
  set (w1 := after_prologue fault_addr status c a w) in *.
  destruct (is_ok (find_create_status a)); simpl.
  - destruct (is_more_processing (cpu_fault a c).1).
    + intros Hl. apply IH in Hl.
      eapply continues_trans; [exact Hp |].
      eapply continues_trans; [| exact Hl].
      eapply continues_trans; [| apply continues_advance].
      eapply continues_trans; by apply continues_emit.
    + intros [= <- <- <-].
      eapply continues_trans; [exact Hp |].
      eapply continues_trans; [| apply continues_advance].
      eapply continues_trans; by apply continues_emit.
  - intros [= <- <- <-].
    eapply continues_trans; [exact Hp |]. by apply continues_emit.
Qed.







(** The retry loop neither reads nor writes the list of pooled contexts. *)
Lemma fault_loop_frame fault_addr is_write atts status c l w :
  fault_loop fault_addr is_write atts status c (set_context_list l w) =
    (fun r => (r.1, set_context_list l r.2)) <$>
      fault_loop fault_addr is_write atts status c w.
Proof.
  revert status c w.
  induction atts as [| a rest IH]; intros status c w; [done |].
  rewrite !fault_loop_unfold. cbv zeta.
  assert (after_prologue fault_addr status c a (set_context_list l w) =
          set_context_list l (after_prologue fault_addr status c a w)) as ->.
  { unfold after_prologue.
    destruct (throttle_cases fault_addr status c a w)
      as [(Hm & Hlt & He) | [(Hm & Hge & He) | (Hm & He)]]; rewrite He;
    unfold throttle; rewrite Hm; simpl; [| | done].
    - apply N.ltb_lt in Hlt. by rewrite Hlt.
    - apply N.ltb_ge in Hge. by rewrite Hge. }
  destruct (is_ok (find_create_status a)); simpl; [| done].
  destruct (is_more_processing (cpu_fault a c).1); [| done].
  apply (IH _ _ (advance (service_ns a) (emit _ (emit _ (after_prologue fault_addr status c a w))))).
Qed.

(** Servicing with the same context in two worlds that differ in pooled time
    stamps. *)
Lemma uvm_vm_fault_service_frame fault_addr is_write e status c l w :
  Forall2 same_but_wakeup (g_cpu_service_block_context_list w) l ->
  runs_agree same_world_but_wakeup
    (uvm_vm_fault_service fault_addr is_write e status c w)
    (uvm_vm_fault_service fault_addr is_write e status c (set_context_list l w)).
Proof.
  intros Hl. unfold uvm_vm_fault_service.
  change (emit (uvm_record_lock_mmap_lock false) (set_context_list l w))
    with (set_context_list l (emit (uvm_record_lock_mmap_lock false) w)).
  rewrite fault_loop_frame.
  set (w0 := emit (uvm_record_lock_mmap_lock false) w).
  assert (forall s c' w', fault_loop fault_addr is_write (attempts e) status c w0
            = Some (s, c', w') ->
            g_cpu_service_block_context_list w' =
            g_cpu_service_block_context_list w) as Hsame.
  { intros s c' w' Hr.
    pose proof (fault_loop_frame fault_addr is_write (attempts e) status c
                  (g_cpu_service_block_context_list w) w0) as Hfr.
    assert (set_context_list (g_cpu_service_block_context_list w) w0 = w0) as Hid
      by (subst w0; by destruct w).
    rewrite Hid, Hr in Hfr. simpl in Hfr. injection Hfr as Hfr.
    rewrite Hfr. done. }
  destruct (fault_loop fault_addr is_write (attempts e) status c w0)
    as [[[s c'] w']|]; simpl; [| done].
  specialize (Hsame s c' w' eq_refl).
  destruct (is_ok s), (tools_enabled e); simpl;
    (split; [done |]; split; [done |];
     exists (c' :: l); split; [done |]; simpl; rewrite Hsame;
     constructor; [done | done]).
Qed.

(** C9.  The handler sets the wake-up time stamp of the context it acquires
    to zero before anything reads it: the servicing starts from the acquired
    context with time stamp zero, and two runs that differ only in the time
    stamps that earlier faults left in the pooled contexts, or that the heap
    left in a freshly allocated one, return the same outcome, make the same
    calls and leave worlds that again differ only in pooled time stamps. *)
Theorem fault_ignores_stale_wakeup fault_addr is_write e1 e2 w1 w2 :
  same_env_but_wakeup e1 e2 ->
  same_world_but_wakeup w1 w2 ->
  runs_agree same_world_but_wakeup
    (uvm_vm_fault fault_addr is_write e1 w1)
    (uvm_vm_fault fault_addr is_write e2 w2) /\
  (forall c w,
      global_status e1 = NV_OK -> pm_trylock e1 = true ->
      uvm_service_block_context_cpu_alloc (fresh_context e1)
        (emit (uvm_down_read_trylock_no_tracking true) w1) = (Some c, w) ->
      wakeup_time_stamp (set_wakeup_time_stamp 0 c) = 0 /\
      uvm_vm_fault fault_addr is_write e1 w1 =
        uvm_vm_fault_service fault_addr is_write e1 NV_OK
          (set_wakeup_time_stamp 0 c) w).
Proof.
  intros (Hg & Hp & Hf & Ha & Ht & He) (l & -> & Hl). split.
  2: { intros c w Hok Hlock Hacq. split; [done |].
       unfold uvm_vm_fault. rewrite Hok, Hlock. simpl. by rewrite Hacq. }
  assert (forall st c w, uvm_vm_fault_service fault_addr is_write e2 st c w
            = uvm_vm_fault_service fault_addr is_write e1 st c w) as Hsv.
  { intros st c w. unfold uvm_vm_fault_service. by rewrite Ha, Ht, He. }
  unfold uvm_vm_fault. rewrite <- Hg, <- Hp.
  destruct (is_ok (global_status e1)); simpl.
  2: { split; [done |]. split; [done |]. by exists l. }
  destruct (pm_trylock e1); simpl.
  2: { split; [done |]. split; [done |]. by exists l. }
  unfold uvm_service_block_context_cpu_alloc. simpl.
  inversion Hl as [Hnil Hnil' | c1 c2 r1 r2 Hc Hr Hc1 Hc2].
  - simpl. inversion Hf as [f1 f2 Hff Hf1 Hf2 | Hf1 Hf2]; simpl.
    + rewrite Hsv, <- (Hff : set_wakeup_time_stamp 0 f1 = set_wakeup_time_stamp 0 f2).
      apply (uvm_vm_fault_service_frame _ _ _ _ _ []
               (emit (uvm_down_read_trylock_no_tracking true) w1)).
      simpl. rewrite <- Hnil. constructor.
    + split; [done |]. split; [done |]. exists []. simpl.
      split; [done |]. rewrite <- Hnil. constructor.
  - simpl. rewrite Hsv, <- (Hc : set_wakeup_time_stamp 0 c1 = set_wakeup_time_stamp 0 c2).
    apply (uvm_vm_fault_service_frame _ _ _ _ _ r2
             (set_context_list r1 (emit (uvm_down_read_trylock_no_tracking true) w1))).
    done.
Qed.

End FaultFacts.

Lemma fault_skipped_when_not_ready_witness :
  exists w',
    uvm_vm_fault 0x7f0000001000 true pm_busy_fault_env empty_world
      = Some (VM_FAULT_NOPAGE, w') /\
    trace w' = [uvm_down_read_trylock_no_tracking false].
Proof.
  destruct (fault_skipped_when_not_ready 0x7f0000001000 true pm_busy_fault_env
              empty_world (or_intror eq_refl))
    as (ret & w' & Hrun & _ & _ & Htr & Hret).
  exists w'. rewrite Hrun, Hret. split; [reflexivity | exact Htr].
Defined.


Lemma fault_ignores_stale_wakeup_witness :
  runs_agree same_world_but_wakeup
    (uvm_vm_fault 0x7f0000001000 true throttled_fault_env
       (world_with_pool [blank_context]))
    (uvm_vm_fault 0x7f0000001000 true throttled_fault_env
       (world_with_pool [stale_context])).
Proof.
  apply (fault_ignores_stale_wakeup 0x7f0000001000 true
           throttled_fault_env throttled_fault_env
           (world_with_pool [blank_context]) (world_with_pool [stale_context])).
  - repeat split. constructor.
  - exists [stale_context]. split; [reflexivity |].
    constructor; [reflexivity | constructor].
Defined.

Section MappingFacts.
Context {plat : Platform}.

(** C6, as the code has it.  A request whose file offset is not its start
    address, or that lacks one of the shared, readable and writable flags,
    makes [uvm_mmap] return before anything is established: the world is
    untouched, so no lock is taken, no operations or wrapper are installed
    and no record is created.  The value returned is [-EINVAL] when the global
    status is [NV_OK], the session is initialised and its mm, if it has one,
    is the caller's; otherwise it is the error of the first of these earlier
    checks that fails. *)
Theorem mmap_rejects_bad_request vma v e w :
  vmas w !! vma = Some v ->
  vm_start v <> shl64 (vm_pgoff v) PAGE_SHIFT \/
    N.land (vm_flags v) VM_SHARED_READ_WRITE <> VM_SHARED_READ_WRITE ->
  exists ret,
    uvm_mmap vma e w = Some (ret, w) /\
    ret = (if negb (is_ok (m_global_status e))
           then (- nv_status_to_errno (m_global_status e))%Z
           else if negb (is_ok (m_va_space_initialized e)) then (- EBADFD)%Z
           else if m_va_space_mm_enabled e &&
                   negb (m_va_space_mm e =? m_current_mm e)
           then (- EOPNOTSUPP)%Z
           else (- EINVAL)%Z).
Proof.
  intros Hv Hbad. unfold uvm_mmap. rewrite Hv. simpl.
  destruct (negb (is_ok (m_global_status e))); [by eexists |].
  destruct (negb (is_ok (m_va_space_initialized e))); [by eexists |].
  destruct (m_va_space_mm_enabled e && negb (m_va_space_mm e =? m_current_mm e));
    [by eexists |].
  destruct (vm_start v =? shl64 (vm_pgoff v) PAGE_SHIFT) eqn:Hoff; simpl;
    [| by eexists].
  destruct (N.land (vm_flags v) VM_SHARED_READ_WRITE =? VM_SHARED_READ_WRITE)
    eqn:Hfl; simpl; [| by eexists].
  apply N.eqb_eq in Hoff, Hfl. by destruct Hbad.
Qed.

Lemma fold_left_set_va_ranges (f : uvm_va_range_t -> list uvm_va_range_t -> list uvm_va_range_t)
    (rs : list uvm_va_range_t) (w : world) :
  fold_left (fun w r => set_va_ranges (f r) w) rs w =
    set_va_ranges (fun t => fold_left (fun t r => f r t) rs t) w.
Proof.
  revert w. induction rs as [| r rs IH]; intros w; simpl.
  - by destruct w.
  - by rewrite IH.
Qed.

Lemma In_fold_destroy rs t x :
  In x (fold_left (fun t r => uvm_va_range_destroy r t) rs t) ->
  In x t /\ forall r, In r rs -> same_node r x = false.
Proof.
  revert t. induction rs as [| r rs IH]; intros t; simpl.
  - intros Hx. split; [done |]. intros r [].
  - intros Hx. apply IH in Hx as [Hx Hrs].
    unfold uvm_va_range_destroy in Hx. apply List.filter_In in Hx as [Hx Hr].
    split; [done |]. intros r' [<- | Hr']; [| by apply Hrs].
    by apply negb_true_iff.
Qed.

(** After the destroy loop over the records under a vma, no record of the
    table overlaps the vma. *)
Lemma destroyed_under_vma v t x :
  In x (fold_left (fun t r => uvm_va_range_destroy r t) (va_ranges_in_vma v t) t) ->
  In x t /\ range_overlaps (vm_start v) (sub64 (vm_end v) 1) x = false.
Proof.
  intros Hx. apply In_fold_destroy in Hx as [Hx Hrs]. split; [done |].
  destruct (range_overlaps _ _ x) eqn:Ho; [| done].
  assert (In x (va_ranges_in_vma v t)) as Hin.
  { unfold va_ranges_in_vma. apply List.filter_In. done. }
  apply Hrs in Hin. unfold same_node in Hin. by rewrite N.eqb_refl in Hin.
Qed.

Lemma set_vm_private_data_0_id v :
  vm_private_data v = 0 -> set_vm_private_data 0 v = v.
Proof. destruct v. simpl. by intros ->. Qed.

Lemma uvm_destroy_vma_managed_spec vma v w :
  vmas w !! vma = Some v ->
  exists w',
    uvm_destroy_vma_managed vma false w = Some w' /\
    vmas w' !! vma = Some (set_vm_private_data 0 v) /\
    (forall x, x <> vma -> vmas w' !! x = vmas w !! x) /\
    wrappers w' = (if vm_private_data v =? 0 then wrappers w
                   else delete (vm_private_data v) (wrappers w)) /\
    va_ranges w' =
      fold_left (fun t r => uvm_va_range_destroy r t)
        (va_ranges_in_vma v (va_ranges w)) (va_ranges w) /\
    trace w' = trace w.
Proof.
  intros Hv. unfold uvm_destroy_vma_managed. rewrite Hv. simpl.
  rewrite fold_left_set_va_ranges. eexists. split; [done |].
  destruct (vm_private_data v =? 0) eqn:Hp; simpl.
  - apply N.eqb_eq in Hp. rewrite set_vm_private_data_0_id by done. done.
  - unfold uvm_vma_wrapper_destroy. rewrite Hp. simpl.
    rewrite lookup_alter_eq, Hv. simpl. split; [done |].
    split; [| done]. intros x Hx. by rewrite lookup_alter_ne.
Qed.

Lemma uvm_disable_vma_spec vma v w :
  vmas w !! vma = Some v ->
  exists w',
    uvm_disable_vma vma w = Some w' /\
    vmas w' !! vma = Some (set_vm_private_data 0 (set_vm_ops uvm_vm_ops_disabled v)) /\
    (forall x, x <> vma -> vmas w' !! x = vmas w !! x) /\
    wrappers w' = (if vm_private_data v =? 0 then wrappers w
                   else delete (vm_private_data v) (wrappers w)) /\
    va_ranges w' = va_ranges w /\
    trace w' = trace w ++
      [unmap_mapping_range (vm_file v) (shl64 (vm_pgoff v) PAGE_SHIFT)
         (sub64 (vm_end v) (vm_start v))].
Proof.
  intros Hv. unfold uvm_disable_vma. rewrite Hv. simpl.
  eexists. split; [done |].
  destruct (vm_private_data v =? 0) eqn:Hp; simpl.
  - apply N.eqb_eq in Hp.
    rewrite lookup_alter_eq, Hv. simpl.
    rewrite (set_vm_private_data_0_id (set_vm_ops _ v)) by done.
    split; [done |]. split; [| done]. intros x Hx. by rewrite lookup_alter_ne.
  - unfold uvm_vma_wrapper_destroy. rewrite Hp. simpl.
    rewrite !lookup_alter_eq, Hv. simpl. split; [done |].
    split; [| done]. intros x Hx. by rewrite !lookup_alter_ne.
Qed.

Lemma vma_disabled_intro vma v w :
  vmas w !! vma = Some (set_vm_private_data 0 (set_vm_ops uvm_vm_ops_disabled v)) ->
  In (unmap_mapping_range (vm_file v) (shl64 (vm_pgoff v) PAGE_SHIFT)
        (sub64 (vm_end v) (vm_start v))) (trace w) ->
  vma_disabled vma w.
Proof. intros Hv Ht. eexists. split; [exact Hv |]. done. Qed.


(** What [uvm_vm_open_failure] leaves behind. *)
Lemma uvm_vm_open_failure_spec original new o v w :
  original <> new ->
  vmas w !! original = Some o ->
  vmas w !! new = Some v ->
  vm_private_data o <> 0 ->
  vm_end o < 2 ^ 64 ->
  ranges_under_vma (vm_private_data o) o (va_ranges w) ->
  exists w',
    uvm_vm_open_failure original new w = Some w' /\
    vma_disabled original w' /\ vma_disabled new w' /\
    wrappers w' !! vm_private_data o = None /\
    (vm_private_data v <> 0 -> wrappers w' !! vm_private_data v = None) /\
    (forall r, In r (va_ranges w') -> vma_wrapper r <> vm_private_data o) /\
    (exists new_calls, trace w' = trace w ++ new_calls).
Proof.
  intros Hne Ho Hv Hpo Hend Hunder. unfold uvm_vm_open_failure.
  destruct (uvm_destroy_vma_managed_spec original o w Ho)
    as (w1 & -> & Ho1 & Hx1 & Hw1 & Hr1 & Ht1). simpl.
  destruct (uvm_disable_vma_spec original _ w1 Ho1)
    as (w2 & -> & Ho2 & Hx2 & Hw2 & Hr2 & Ht2). simpl.
  assert (vmas w2 !! new = Some v) as Hv2.
  { rewrite Hx2, Hx1 by done. done. }
  destruct (uvm_disable_vma_spec new v w2 Hv2)
    as (w3 & -> & Hn3 & Hx3 & Hw3 & Hr3 & Ht3).
  exists w3. split; [done |].
  apply N.eqb_neq in Hpo as Hpob. rewrite Hpob in Hw1.
  simpl in Hw2. rewrite Hw1 in Hw2.
  split; [| split; [| split; [| split; [| split]]]].
  - apply (vma_disabled_intro original (set_vm_private_data 0 o)).
    + rewrite Hx3 by done. exact Ho2.
    + rewrite Ht3, Ht2. simpl. apply in_or_app. left. apply in_or_app. right.
      by left.
  - apply (vma_disabled_intro new v); [exact Hn3 |].
    rewrite Ht3. apply in_or_app. right. by left.
  - rewrite Hw3, Hw2.
    destruct (vm_private_data v =? 0).
    + apply lookup_delete_eq.
    + destruct (decide (vm_private_data v = vm_private_data o)) as [-> | Hd].
      * apply lookup_delete_eq.
      * rewrite lookup_delete_ne by done. apply lookup_delete_eq.
  - intros Hpv. apply N.eqb_neq in Hpv. rewrite Hw3, Hpv. apply lookup_delete_eq.
  - intros r Hr Hwr. rewrite Hr3, Hr2, Hr1 in Hr.
    apply destroyed_under_vma in Hr as [Hin Hov].
    destruct (Hunder r Hin Hwr) as (H1 & H2 & H3).
    unfold range_overlaps in Hov.
    assert (sub64 (vm_end o) 1 = vm_end o - 1) as Hs.
    { unfold sub64, wrap64. rewrite (N.mod_small 1) by done.
      replace (vm_end o + 2 ^ 64 - 1) with (vm_end o - 1 + 1 * 2 ^ 64) by lia.
      rewrite N.Div0.mod_add. apply N.mod_small. lia. }
    rewrite Hs in Hov. apply andb_false_iff in Hov as [Hov | Hov].
    + apply N.leb_gt in Hov. lia.
    + apply N.leb_gt in Hov. lia.
  - eexists. rewrite Ht3, Ht2, Ht1. simpl. by rewrite <- app_assoc.
Qed.

(** C2.  A managed vma is opened as a split of [orig] (same mm, one edge in
    common), and either the wrapper cannot be allocated, or the record across
    the split boundary cannot be split.  Then both vmas end up disabled: their
    file interval is unmapped, they have the fault-fails operations and no
    wrapper; the wrappers are gone; and no record of the table refers to the
    wrapper of the original vma any more. *)
Theorem failed_split_disables_both new orig v o wrapper e w :
  vmas w !! new = Some v ->
  vmas w !! orig = Some o ->
  new <> orig ->
  wrappers w !! vm_private_data v = Some wrapper ->
  wrapper_vma wrapper = orig ->
  vm_private_data o = vm_private_data v ->
  vm_private_data v <> 0 ->
  vm_mm v = vm_mm o ->
  vm_start v = vm_start o \/ vm_end v = vm_end o ->
  vm_end o < 2 ^ 64 ->
  ranges_under_vma (vm_private_data o) o (va_ranges w) ->
  let new_end := if vm_start v =? vm_start o then sub64 (vm_end v) 1
                 else sub64 (vm_start v) 1 in
  o_new_wrapper e = 0 \/
    (exists r, uvm_va_range_find new_end (va_ranges w) = Some r /\
               node_end r <> new_end /\ o_split_status e <> NV_OK) ->
  exists w',
    uvm_vm_open_managed new e w = Some w' /\
    vma_disabled orig w' /\ vma_disabled new w' /\
    wrappers w' !! vm_private_data o = None /\
    (o_new_wrapper e <> 0 -> wrappers w' !! o_new_wrapper e = None) /\
    (forall r, In r (va_ranges w') -> vma_wrapper r <> vm_private_data o).
Proof.
  intros Hv Ho Hne Hw Hwv Hpo Hpv Hmm Hedge Hend Hunder new_end Hfail.
  unfold uvm_vm_open_managed. rewrite Hv. simpl. rewrite Hw. simpl.
  rewrite Hwv. rewrite lookup_alter_ne by done. rewrite Ho. simpl.
  assert ((negb (vm_mm v =? vm_mm o) ||
           negb (vm_start v =? vm_start o) && negb (vm_end v =? vm_end o)) = false)
    as ->.
  { rewrite Hmm, N.eqb_refl. simpl.
    destruct Hedge as [-> | ->]; rewrite N.eqb_refl; simpl; [done |].
    apply andb_false_r. }
  fold new_end. unfold uvm_vm_open_managed_locked, uvm_vma_wrapper_alloc.
  set (w0 := emit uvm_va_space_down_write
               (emit (uvm_record_lock_mmap_lock true)
                  (update_vma new (set_vm_private_data 0) w))).
  assert (forall wx vx,
            vmas wx !! orig = Some o ->
            vmas wx !! new = Some vx ->
            (vm_private_data vx = 0 \/ vm_private_data vx = o_new_wrapper e) ->
            va_ranges wx = va_ranges w ->
            exists w',
              (w ← uvm_vm_open_failure orig new wx;
               Some (emit (uvm_record_unlock_mmap_lock true)
                       (emit uvm_va_space_up_write w))) = Some w' /\
              vma_disabled orig w' /\ vma_disabled new w' /\
              wrappers w' !! vm_private_data o = None /\
              (o_new_wrapper e <> 0 -> vm_private_data vx = o_new_wrapper e ->
               wrappers w' !! o_new_wrapper e = None) /\
              (forall r, In r (va_ranges w') -> vma_wrapper r <> vm_private_data o))
    as Hfin.
  { intros wx vx Hox Hvx Hpx Hrx.
    assert (vm_private_data o <> 0) as Hpo0 by (by rewrite Hpo).
    assert (ranges_under_vma (vm_private_data o) o (va_ranges wx)) as Hux
      by (by rewrite Hrx).
    destruct (uvm_vm_open_failure_spec orig new o vx wx (not_eq_sym Hne)
                Hox Hvx Hpo0 Hend Hux)
      as (w1 & -> & Hd1 & Hd2 & Hw1 & Hw2 & Hr1 & (nc & Ht1)).
    simpl. eexists. split; [done |].
    assert (forall x, vma_disabled x w1 ->
              vma_disabled x (emit (uvm_record_unlock_mmap_lock true)
                                (emit uvm_va_space_up_write w1))) as Hkeep.
    { intros x (vd & Hvd & Hops & Hpd & Hin).
      exists vd. simpl. repeat split; try done.
      apply in_or_app. left. apply in_or_app. by left. }
    split; [by apply Hkeep |]. split; [by apply Hkeep |].
    split; [done |]. split; [| done].
    intros Hnz Heq. simpl. rewrite <- Heq. apply Hw2. by rewrite Heq. }
  destruct (o_new_wrapper e =? 0) eqn:Hnw; simpl.
  - apply N.eqb_eq in Hnw.
    match goal with
    | |- exists w', (uvm_vm_open_failure orig new ?wx ≫= _) = Some w' /\ _ =>
        destruct (Hfin wx (set_vm_private_data 0 (set_vm_private_data 0 v)))
          as (w' & Hrun & H1 & H2 & H3 & H4 & H5)
    end.
    + simpl. rewrite !lookup_alter_ne by done. done.
    + simpl. rewrite !lookup_alter_eq, Hv. done.
    + by left.
    + done.
    + exists w'. split; [exact Hrun |]. repeat split; done.
  - destruct Hfail as [Hz | (r & Hfind & Hre & Hst)];
      [by rewrite Hz in Hnw |].
    simpl. rewrite Hfind. simpl. rewrite ?Hnw.
    apply N.eqb_neq in Hnw.
    apply N.eqb_neq in Hre. rewrite Hre. simpl.
    assert (is_ok (o_split_status e) = false) as Hnok
      by (by destruct (o_split_status e)).
    rewrite Hnok. simpl.
    match goal with
    | |- exists w', (uvm_vm_open_failure orig new ?wx ≫= _) = Some w' /\ _ =>
        destruct (Hfin wx
          (set_vm_private_data (o_new_wrapper e) (set_vm_private_data 0 v)))
          as (w' & Hrun & H1 & H2 & H3 & H4 & H5)
    end.
    + simpl. rewrite !lookup_alter_ne by done. done.
    + simpl. rewrite !lookup_alter_eq, Hv. done.
    + by right.
    + simpl. unfold uvm_va_range_split. by rewrite Hnok.
    + exists w'. split; [exact Hrun |]. repeat split; try done.
      intros Hnz. by apply H4.
Qed.

End MappingFacts.

(** A misplaced request on a session that is not initialised is refused with
    [EBADFD], not with the invalid-argument error. *)
Lemma mmap_bad_offset_uninitialized_is_ebadfd :
  vm_start misplaced_vma <> shl64 (vm_pgoff misplaced_vma) (PAGE_SHIFT (Platform := sample_platform)) /\
  uvm_mmap (plat := sample_platform) 0x1000 uninitialized_mmap_env
      (world_with_vma 0x1000 misplaced_vma)
    = Some ((- EBADFD)%Z, world_with_vma 0x1000 misplaced_vma) /\
  (- EBADFD)%Z <> (- EINVAL)%Z.
Proof.
  split; [discriminate |]. split; [vm_compute; reflexivity | discriminate].
Qed.

Lemma mmap_rejects_bad_request_witness :
  uvm_mmap (plat := sample_platform) 0x1000 ready_mmap_env
      (world_with_vma 0x1000 misplaced_vma)
    = Some ((- EINVAL)%Z, world_with_vma 0x1000 misplaced_vma).
Proof.
  assert (vmas (world_with_vma 0x1000 misplaced_vma) !! 0x1000 = Some misplaced_vma)
    as Hv by reflexivity.
  assert (vm_start misplaced_vma <>
          shl64 (vm_pgoff misplaced_vma) (PAGE_SHIFT (Platform := sample_platform)))
    as Hoff by discriminate.
  destruct (mmap_rejects_bad_request (plat := sample_platform) 0x1000 misplaced_vma
              ready_mmap_env _ Hv (or_introl Hoff)) as (ret & Hrun & Hret).
  rewrite Hrun, Hret. reflexivity.
Defined.

Lemma failed_split_disables_both_witness :
  exists w',
    uvm_vm_open_managed (plat := sample_platform) 0x2000 failing_split_env split_world
      = Some w' /\
    vma_disabled (plat := sample_platform) 0x1000 w' /\
    vma_disabled (plat := sample_platform) 0x2000 w' /\
    wrappers w' !! 0x5000 = None /\
    wrappers w' !! 0x6000 = None /\
    va_ranges w' = [].
Proof.
  assert (ranges_under_vma (vm_private_data managed_vma) managed_vma
            (va_ranges split_world)) as Hunder.
  { intros r [<- | []] _. vm_compute. repeat split; discriminate. }
  destruct (failed_split_disables_both (plat := sample_platform)
              0x2000 0x1000 upper_half_vma managed_vma {| wrapper_vma := 0x1000 |}
              failing_split_env split_world)
    as (w' & Hrun & H1 & H2 & H3 & H4 & H5);
    try reflexivity; try discriminate; try exact Hunder.
  - by right.
  - right. eexists. split; [vm_compute; reflexivity |].
    split; discriminate.
  - exists w'. split; [exact Hrun |]. split; [exact H1 |]. split; [exact H2 |].
    split; [exact H3 |]. split; [apply H4; discriminate |].
    assert (uvm_vm_open_managed (plat := sample_platform) 0x2000 failing_split_env
              split_world = Some w') as Hr by exact Hrun.
    vm_compute in Hr. injection Hr as <-. reflexivity.
Defined.

End UvmProofs.

(* ===================================================================== *)
(** * Part II-c. The allocator over its life: blocks, leak checker, shutdown *)
(* ===================================================================== *)

Module KvmallocLifeProofs.
Import Kvmalloc KvmallocProofs KvmallocLife.

Section Reallocation.
Context {cfg : Config}.

(** ** The heap operations do not look at the leak checker *)

Lemma with_tracking_same t st :
  kmalloc_objs t = kmalloc_objs st -> vmalloc_areas t = vmalloc_areas st ->
  with_tracking t st = t.
Proof. destruct t, st. simpl. by intros -> ->. Qed.

Lemma kmalloc_tracking size z r t st :
  kmalloc size z r (with_tracking t st) =
    ((kmalloc size z r st).1, with_tracking t (kmalloc size z r st).2).
Proof. unfold kmalloc. destruct (size =? 0); [done |]. by destruct r. Qed.

Lemma vmalloc_tracking len z r t st :
  vmalloc len z r (with_tracking t st) =
    ((vmalloc len z r st).1, with_tracking t (vmalloc len z r st).2).
Proof. unfold vmalloc. destruct (len =? 0); [done |]. by destruct r. Qed.

Lemma kfree_tracking p t st :
  kfree p (with_tracking t st) = with_tracking t (kfree p st).
Proof. unfold kfree. by destruct (ZERO_OR_NULL_PTR p). Qed.

Lemma vfree_tracking p t st :
  vfree p (with_tracking t st) = with_tracking t (vfree p st).
Proof. done. Qed.

Lemma krealloc_tracking p n r t st :
  krealloc p n r (with_tracking t st) =
    ((krealloc p n r st).1, with_tracking t (krealloc p n r st).2).
Proof.
  unfold krealloc. destruct (n =? 0); [by rewrite kfree_tracking |].
  by destruct r.
Qed.

Lemma alloc_internal_tracking size z r t st :
  alloc_internal size z r (with_tracking t st) =
    ((alloc_internal size z r st).1, with_tracking t (alloc_internal size z r st).2).
Proof.
  unfold alloc_internal. destruct (size <=? _); [apply kmalloc_tracking |].
  rewrite vmalloc_tracking.
  destruct (vmalloc _ z r st) as [h s]. simpl. by destruct (h =? NULL).
Qed.

Lemma memcpy_tracking dst src n t st :
  memcpy dst src n (with_tracking t st) = with_tracking t (memcpy dst src n st).
Proof.
  unfold memcpy, set_payload, payload, kdata. simpl.
  by destruct (is_vmalloc_addr dst).
Qed.

Lemma realloc_dispatch_tracking p n r t st :
  realloc_dispatch p n r (with_tracking t st) =
    ((realloc_dispatch p n r st).1, with_tracking t (realloc_dispatch p n r st).2).
Proof.
  unfold realloc_dispatch, realloc_from_vmalloc, realloc_from_kmalloc.
  destruct (is_vmalloc_addr p).
  - destruct (n =? 0); [done |].
    unfold hdr_alloc_size at 1 3. simpl.
    destruct (n =? _); [done |].
    rewrite alloc_internal_tracking.
    destruct (alloc_internal n false r st) as [q s]. simpl.
    destruct (q =? NULL); [done |]. simpl.
    rewrite <- vfree_tracking, <- memcpy_tracking. done.
  - destruct (n <=? _); [apply krealloc_tracking |].
    rewrite alloc_internal_tracking.
    destruct (alloc_internal n false r st) as [q s]. simpl.
    destruct (q =? NULL); [done |]. simpl.
    rewrite <- kfree_tracking, <- memcpy_tracking. done.
Qed.


Ltac add_heaps :=
  match goal with
  | |- context [alloc_tracking_add ?a ?b ?c ?d ?o ?X] =>
      destruct (alloc_tracking_add_heaps a b c d o X) as [-> ->]
  end.

Ltac fold_dispatch p n st :=
  match goal with
  | |- context [if is_vmalloc_addr p then realloc_from_vmalloc p n ?r ?s
                else realloc_from_kmalloc p n ?r ?s] =>
      change (if is_vmalloc_addr p then realloc_from_vmalloc p n r s
              else realloc_from_kmalloc p n r s)
        with (realloc_dispatch p n r s);
      rewrite <- (with_tracking_same s st) by done;
      rewrite realloc_dispatch_tracking
  end.

(** The pointer and the heaps that [__uvm_kvrealloc] yields are those of the
    reallocation proper. *)
Lemma kvrealloc_heaps p n f l fn e st :
  ZERO_OR_NULL_PTR p = false ->
  (__uvm_kvrealloc p n f l fn e st).1 = (realloc_dispatch p n (mem e) st).1 /\
  kmalloc_objs (__uvm_kvrealloc p n f l fn e st).2 =
    kmalloc_objs (realloc_dispatch p n (mem e) st).2 /\
  vmalloc_areas (__uvm_kvrealloc p n f l fn e st).2 =
    vmalloc_areas (realloc_dispatch p n (mem e) st).2.
Proof.
  intros Hp. unfold __uvm_kvrealloc. rewrite Hp.
  destruct leak_check_enabled; simpl.
  - destruct (n =? 0) eqn:Hn.
    + unfold alloc_tracking_remove. rewrite Hp.
      destruct leak_check_origin; simpl.
      * unfold remove_info. simpl.
        destruct (allocation_info st !! p); simpl;
          fold_dispatch p n st;
          destruct (realloc_dispatch p n (mem e) st) as [q s]; simpl;
          by destruct (q =? NULL).
      * fold_dispatch p n st.
        destruct (realloc_dispatch p n (mem e) st) as [q s]; simpl.
        by destruct (q =? NULL).
    + destruct leak_check_origin; simpl.
      * unfold remove_info. simpl.
        destruct (allocation_info st !! p); simpl;
          fold_dispatch p n st;
          destruct (realloc_dispatch p n (mem e) st) as [q s]; simpl;
          (destruct (q =? NULL); simpl; [done |]);
          by add_heaps.
      * fold_dispatch p n st.
        destruct (realloc_dispatch p n (mem e) st) as [q s]; simpl.
        destruct (q =? NULL); simpl; [done |].
        by add_heaps.
  - change (if is_vmalloc_addr p then realloc_from_vmalloc p n (mem e) st
            else realloc_from_kmalloc p n (mem e) st)
      with (realloc_dispatch p n (mem e) st).
    by destruct (realloc_dispatch p n (mem e) st).
Qed.


(** ** What the allocators yield *)

Lemma alloc_internal_small n z a u j st :
  (n <=? UVM_KMALLOC_THRESHOLD) = true -> n <> 0 ->
  alloc_internal n z (Granted a u j) st =
    (a, set_kmalloc_objs
          (insert a {| obj_ksize := u;
                       obj_data := if z then zeros u else j |}) st).
Proof.
  intros Hth Hn. unfold alloc_internal, kmalloc. rewrite Hth.
  apply N.eqb_neq in Hn. by rewrite Hn.
Qed.

Lemma alloc_internal_large n z a u j st q s :
  (n <=? UVM_KMALLOC_THRESHOLD) = false ->
  alloc_internal n z (Granted a u j) st = (q, s) -> q <> NULL ->
  q = a + sizeof_hdr /\
  s = set_vmalloc_areas
        (insert a {| area_len := wrap_size (sizeof_hdr + n); alloc_size := n;
                     ptr_data := if z then zeros (wrap_size (sizeof_hdr + n) - sizeof_hdr)
                                 else j |}) st.
Proof.
  intros Hth. unfold alloc_internal, vmalloc. rewrite Hth.
  destruct (wrap_size (sizeof_hdr + n) =? 0); simpl; [by intros [= <- _] |].
  destruct (a =? NULL); [by intros [= <- _] |].
  intros [= <- <-] _. split; [done |].
  unfold set_vmalloc_areas. simpl. by rewrite alter_insert_eq.
Qed.

Lemma alloc_internal_no_memory n z st :
  n <> 0 -> alloc_internal n z NoMemory st = (NULL, st).
Proof.
  intros Hn. unfold alloc_internal, kmalloc, vmalloc.
  apply N.eqb_neq in Hn. rewrite Hn.
  destruct (n <=? _); [done |].
  by destruct (wrap_size _ =? 0).
Qed.


Lemma get_hdr_add a : get_hdr (a + sizeof_hdr) = a.
Proof. unfold get_hdr. lia. Qed.



Lemma payload_heap st1 st2 p :
  kmalloc_objs st1 = kmalloc_objs st2 ->
  vmalloc_areas st1 = vmalloc_areas st2 ->
  payload st1 p = payload st2 p.
Proof. intros Hk Hv. unfold payload, kdata. by rewrite Hk, Hv. Qed.

Lemma live_heap st1 st2 p :
  kmalloc_objs st1 = kmalloc_objs st2 ->
  vmalloc_areas st1 = vmalloc_areas st2 ->
  live st1 p <-> live st2 p.
Proof. intros Hk Hv. unfold live. by rewrite Hk, Hv. Qed.


(** The state after a successful [__uvm_kvrealloc] to a size other than zero
    with the leak checker on. *)
Lemma kvrealloc_success_state p n f l fn e st :
  ZERO_OR_NULL_PTR p = false -> n <> 0 -> leak_check_enabled = true ->
  (realloc_dispatch p n (mem e) st).1 <> NULL ->
  let st0 := set_bytes_allocated
               (atomic_long_sub (long_of_size (uvm_kvsize st p))) st in
  let st1 := if leak_check_origin then (remove_info p st0).2 else st0 in
  (__uvm_kvrealloc p n f l fn e st).2 =
    alloc_tracking_add (realloc_dispatch p n (mem e) st).1 f fn l (info_ok e)
      (with_tracking st1 (realloc_dispatch p n (mem e) st).2).
Proof.
  intros Hp Hn Hen Hq. cbv zeta.
  apply N.eqb_neq in Hn. apply N.eqb_neq in Hq.
  unfold __uvm_kvrealloc. rewrite Hp, Hen, Hn. simpl.
  destruct leak_check_origin; simpl.
  - unfold remove_info. simpl.
    destruct (allocation_info st !! p); simpl;
      fold_dispatch p n st;
      destruct (realloc_dispatch p n (mem e) st) as [q s]; simpl in *;
      by rewrite Hq.
  - fold_dispatch p n st.
    destruct (realloc_dispatch p n (mem e) st) as [q s]; simpl in *.
    by rewrite Hq.
Qed.

(** The leak checker after a successful reallocation. *)
Lemma kvrealloc_success_tracking p n f l fn e st q st' :
  ZERO_OR_NULL_PTR p = false -> n <> 0 -> leak_check_enabled = true ->
  __uvm_kvrealloc p n f l fn e st = (q, st') ->
  ZERO_OR_NULL_PTR q = false ->
  bytes_allocated st' =
    atomic_long_add (long_of_size (uvm_kvsize st' q))
      (atomic_long_sub (long_of_size (uvm_kvsize st p)) (bytes_allocated st)) /\
  (leak_check_origin = true ->
     allocation_info st' =
       (if info_ok e
        then uvm_rb_tree_insert q {| file := f; function := fn; line := l |}
               (delete p (allocation_info st))
        else delete p (allocation_info st))).
Proof.
  intros Hp Hn Hen Hrun Hzq.
  destruct (kvrealloc_heaps p n f l fn e st Hp) as (Hq & Hk & Hv).
  rewrite Hrun in Hq, Hk, Hv. simpl in Hq, Hk, Hv.
  assert (q <> NULL) as Hqn by (intros ->; done).
  pose proof (kvrealloc_success_state p n f l fn e st Hp Hn Hen) as Hst.
  rewrite <- Hq in Hst. specialize (Hst Hqn). cbv zeta in Hst.
  rewrite Hrun in Hst. simpl in Hst.
  set (d := (realloc_dispatch p n (mem e) st).2) in *.
  rewrite (uvm_kvsize_heap st' d q Hk Hv).
  match type of Hst with
  | _ = alloc_tracking_add _ _ _ _ _ ?X =>
      destruct (alloc_tracking_add_fields q f fn l (info_ok e) X Hzq)
        as (_ & _ & Hb);
      assert (uvm_kvsize X q = uvm_kvsize d q) as Hsz
        by (by apply uvm_kvsize_heap)
  end.
  rewrite <- Hst in Hb. rewrite Hsz in Hb. split.
  - rewrite Hb. destruct leak_check_origin; [| done].
    unfold remove_info. simpl. by destruct (allocation_info st !! p).
  - intros Hor. rewrite Hor in Hst.
    rewrite Hst. unfold alloc_tracking_add. rewrite Hzq, Hor.
    unfold remove_info. simpl.
    destruct (allocation_info st !! p) eqn:Hip; simpl;
      destruct (info_ok e); simpl; try done;
      by rewrite (delete_id _ _ Hip).
Qed.

(** X5: a successful reallocation moves the bookkeeping to the new pointer. *)
Theorem kvrealloc_moves_tracking p n f l fn e st q st' :
  ZERO_OR_NULL_PTR p = false -> n <> 0 -> leak_check_enabled = true ->
  __uvm_kvrealloc p n f l fn e st = (q, st') ->
  ZERO_OR_NULL_PTR q = false ->
  let site := {| file := f; function := fn; line := l |} in
  bytes_allocated st' =
    atomic_long_add (long_of_size (uvm_kvsize st' q))
      (atomic_long_sub (long_of_size (uvm_kvsize st p)) (bytes_allocated st)) /\
  (leak_check_origin = true ->
     allocation_info st' =
       (if info_ok e
        then uvm_rb_tree_insert q site (delete p (allocation_info st))
        else delete p (allocation_info st)) /\
     (q <> p -> allocation_info st' !! p = None) /\
     (info_ok e = true -> q = p \/ allocation_info st !! q = None ->
      allocation_info st' !! q = Some site)).
Proof.
  intros Hp Hn Hen Hrun Hzq site.
  destruct (kvrealloc_success_tracking p n f l fn e st q st' Hp Hn Hen Hrun Hzq)
    as [Hb Hinfo].
  split; [done |]. intros Hor. specialize (Hinfo Hor).
  split; [done |]. rewrite Hinfo. split.
  - intros Hne. unfold uvm_rb_tree_insert.
    destruct (info_ok e); [| apply lookup_delete_eq].
    destruct (delete p (allocation_info st) !! q);
      [apply lookup_delete_eq |].
    rewrite lookup_insert_ne by done. apply lookup_delete_eq.
  - intros -> Hfree. unfold uvm_rb_tree_insert.
    assert (delete p (allocation_info st) !! q = None) as ->.
    { destruct Hfree as [-> | Hfree]; [apply lookup_delete_eq |].
      destruct (decide (p = q)) as [-> | Hne]; [apply lookup_delete_eq |].
      by rewrite lookup_delete_ne. }
    apply lookup_insert_eq.
Qed.

End Reallocation.

Section Heaps.
Context {cfg : Config}.

(** ** Sums over the heaps *)

Lemma sum_insert_fresh {A} (g : A -> N) (m : gmap N A) k x :
  m !! k = None ->
  map_fold (fun _ y acc => g y + acc) 0 (<[k := x]> m) =
    g x + map_fold (fun _ y acc => g y + acc) 0 m.
Proof.
  intros Hk.
  apply (map_fold_insert_L (fun _ y acc => g y + acc)); [intros; lia | done].
Qed.

Lemma sum_delete {A} (g : A -> N) (m : gmap N A) k x :
  m !! k = Some x ->
  map_fold (fun _ y acc => g y + acc) 0 m =
    g x + map_fold (fun _ y acc => g y + acc) 0 (delete k m).
Proof.
  intros Hk.
  apply (map_fold_delete_L (fun _ y acc => g y + acc)); [intros; lia | done].
Qed.

Lemma outstanding_heap st1 st2 :
  kmalloc_objs st1 = kmalloc_objs st2 ->
  vmalloc_areas st1 = vmalloc_areas st2 ->
  outstanding_bytes st1 = outstanding_bytes st2.
Proof. intros Hk Hv. unfold outstanding_bytes. by rewrite Hk, Hv. Qed.

Lemma same_block_heap st st1 st2 q :
  kmalloc_objs st1 = kmalloc_objs st2 ->
  vmalloc_areas st1 = vmalloc_areas st2 ->
  same_block st st1 q <-> same_block st st2 q.
Proof.
  intros Hk Hv. unfold same_block.
  by rewrite (uvm_kvsize_heap st1 st2 q Hk Hv), (payload_heap st1 st2 q Hk Hv).
Qed.

Lemma high_not_sentinel p :
  vmalloc_window_high -> is_vmalloc_addr p = true ->
  ZERO_OR_NULL_PTR p = false /\ sizeof_hdr <= p.
Proof.
  intros Hhigh Hp. apply Hhigh in Hp.
  unfold ZERO_OR_NULL_PTR, ZERO_SIZE_PTR, sizeof_hdr in *.
  split; [apply N.leb_gt |]; lia.
Qed.

Lemma get_hdr_inj p q :
  vmalloc_window_high -> is_vmalloc_addr p = true -> is_vmalloc_addr q = true ->
  get_hdr p = get_hdr q -> p = q.
Proof.
  intros Hhigh Hp Hq. apply (high_not_sentinel _ Hhigh) in Hp as [_ Hp].
  apply (high_not_sentinel _ Hhigh) in Hq as [_ Hq].
  unfold get_hdr. lia.
Qed.

(** ** The three shapes of a heap change *)

Lemma without_block_spec p st :
  vmalloc_window_high -> live st p ->
  (forall x, live (without_block p st) x <-> x <> p /\ live st x) /\
  (forall x, live st x -> x <> p -> same_block st (without_block p st) x) /\
  outstanding_bytes st = outstanding_bytes (without_block p st) + uvm_kvsize st p.
Proof.
  intros Hhigh [Hz Hl].
  unfold without_block, live, same_block, uvm_kvsize, payload, hdr_alloc_size,
    ksize, kdata, outstanding_bytes.
  destruct (is_vmalloc_addr p) eqn:Hvp; simpl.
  - destruct Hl as [h Hh]. rewrite Hh. split; [| split].
    + intros x. destruct (is_vmalloc_addr x) eqn:Hvx.
      * destruct (decide (x = p)) as [-> | Hne].
        -- rewrite lookup_delete_eq. split; [intros [_ []]; done | tauto].
        -- rewrite lookup_delete_ne; [tauto |].
           intros Heq. apply Hne. symmetry. by apply get_hdr_inj.
      * split; [| tauto]. intros [? ?]. split; [| done].
        intros ->. congruence.
    + intros x [Hzx Hlx] Hne. destruct (is_vmalloc_addr x) eqn:Hvx; [| done].
      rewrite lookup_delete_ne; [done |].
      intros Heq. apply Hne. symmetry. by apply get_hdr_inj.
    + rewrite (sum_delete alloc_size _ _ _ Hh). lia.
  - destruct Hl as [o Ho]. rewrite Hz, Ho. split; [| split].
    + intros x. destruct (is_vmalloc_addr x) eqn:Hvx.
      * split; [| tauto]. intros [? ?]. split; [| done].
        intros ->. congruence.
      * destruct (decide (x = p)) as [-> | Hne].
        -- rewrite lookup_delete_eq. split; [intros [_ []]; done | tauto].
        -- rewrite lookup_delete_ne by done. tauto.
    + intros x [Hzx Hlx] Hne. destruct (is_vmalloc_addr x) eqn:Hvx; [done |].
      by rewrite lookup_delete_ne.
    + rewrite (sum_delete obj_ksize _ _ _ Ho). lia.
Qed.

Lemma with_slab_spec a o st :
  is_vmalloc_addr a = false -> ZERO_OR_NULL_PTR a = false ->
  kmalloc_objs st !! a = None ->
  (forall x, live (with_slab a o st) x <-> x = a \/ live st x) /\
  (forall x, live st x -> same_block st (with_slab a o st) x) /\
  outstanding_bytes (with_slab a o st) = outstanding_bytes st + obj_ksize o /\
  uvm_kvsize (with_slab a o st) a = obj_ksize o /\
  payload (with_slab a o st) a = obj_data o.
Proof.
  intros Hva Hza Hfresh.
  unfold with_slab, live, same_block, uvm_kvsize, payload, hdr_alloc_size,
    ksize, kdata, outstanding_bytes. simpl.
  split; [| split; [| split; [| split]]].
  - intros x. destruct (is_vmalloc_addr x) eqn:Hvx.
    + split; [tauto |]. intros [-> | ?]; [congruence | done].
    + destruct (decide (x = a)) as [-> | Hne].
      * rewrite lookup_insert_eq. split; [tauto |]. intros _. split; [done |].
        by eexists.
      * rewrite lookup_insert_ne by done. split; [tauto |].
        intros [? | ?]; done.
  - intros x [Hzx Hlx]. destruct (is_vmalloc_addr x) eqn:Hvx; [done |].
    destruct (decide (x = a)) as [-> | Hne].
    + rewrite Hfresh in Hlx. by destruct Hlx.
    + by rewrite lookup_insert_ne.
  - rewrite (sum_insert_fresh obj_ksize _ _ _ Hfresh). lia.
  - by rewrite Hva, Hza, lookup_insert_eq.
  - by rewrite Hva, lookup_insert_eq.
Qed.

Lemma with_area_spec a h st :
  vmalloc_window_high ->
  is_vmalloc_addr (a + sizeof_hdr) = true ->
  vmalloc_areas st !! a = None ->
  (forall x, live (with_area a h st) x <-> x = a + sizeof_hdr \/ live st x) /\
  (forall x, live st x -> same_block st (with_area a h st) x) /\
  outstanding_bytes (with_area a h st) = outstanding_bytes st + alloc_size h /\
  uvm_kvsize (with_area a h st) (a + sizeof_hdr) = alloc_size h /\
  payload (with_area a h st) (a + sizeof_hdr) = ptr_data h.
Proof.
  intros Hhigh Hva Hfresh.
  destruct (high_not_sentinel _ Hhigh Hva) as [Hza _].
  unfold with_area, live, same_block, uvm_kvsize, payload, hdr_alloc_size,
    ksize, kdata, outstanding_bytes. simpl.
  split; [| split; [| split; [| split]]].
  - intros x. destruct (is_vmalloc_addr x) eqn:Hvx.
    + destruct (decide (get_hdr x = a)) as [<- | Hne].
      * assert (x = get_hdr x + sizeof_hdr) as Hx.
        { destruct (high_not_sentinel _ Hhigh Hvx) as [_ Hge].
          unfold get_hdr. lia. }
        rewrite lookup_insert_eq. split.
        -- intros _. by left.
        -- intros _. split; [by apply (high_not_sentinel _ Hhigh) | by eexists].
      * rewrite lookup_insert_ne by done. split; [tauto |].
        intros [-> | ?]; [| done]. by rewrite get_hdr_add in Hne.
    + split; [tauto |]. intros [-> | ?]; [congruence | done].
  - intros x [Hzx Hlx]. destruct (is_vmalloc_addr x) eqn:Hvx; [| done].
    destruct (decide (get_hdr x = a)) as [<- | Hne].
    + rewrite Hfresh in Hlx. by destruct Hlx.
    + by rewrite lookup_insert_ne.
  - rewrite (sum_insert_fresh alloc_size _ _ _ Hfresh). lia.
  - by rewrite Hva, get_hdr_add, lookup_insert_eq.
  - by rewrite Hva, get_hdr_add, lookup_insert_eq.
Qed.


(** ** The shapes of the three operations *)

Lemma alloc_internal_shape size z r st p s :
  vmalloc_window_high ->
  fresh_grant size r st ->
  alloc_internal size z r st = (p, s) -> ZERO_OR_NULL_PTR p = false ->
  (exists u j, r = Granted p u j /\
     is_vmalloc_addr p = false /\ kmalloc_objs st !! p = None /\ size <= u /\
     s = with_slab p {| obj_ksize := u;
                        obj_data := if z then zeros u else j |} st) \/
  (exists a u j, r = Granted a u j /\
     p = a + sizeof_hdr /\ is_vmalloc_addr p = true /\
     vmalloc_areas st !! a = None /\
     s = with_area a
           {| area_len := wrap_size (sizeof_hdr + size); alloc_size := size;
              ptr_data := if z then zeros (wrap_size (sizeof_hdr + size) - sizeof_hdr)
                          else j |} st).
Proof.
  intros Hhigh Hgrant Hrun Hzp.
  assert (p <> NULL) as Hp by (intros ->; done).
  destruct (N.eq_dec size 0) as [-> | Hs].
  { unfold alloc_internal, kmalloc in Hrun.
    rewrite (proj2 (N.leb_le 0 _) (N.le_0_l _)) in Hrun. simpl in Hrun.
    injection Hrun as <- _. done. }
  destruct r as [| a u j];
    [rewrite alloc_internal_no_memory in Hrun by done; by injection Hrun as <- _ |].
  unfold fresh_grant in Hgrant.
  destruct (size <=? UVM_KMALLOC_THRESHOLD) eqn:Hth.
  - destruct Hgrant as (Hza & Hva & Hfresh & Hu).
    rewrite alloc_internal_small in Hrun by done. injection Hrun as <- <-.
    left. by exists u, j.
  - destruct Hgrant as (Hanull & Hva & Hfresh).
    destruct (alloc_internal_large _ _ _ _ _ _ _ _ Hth Hrun Hp) as [-> ->].
    right. by exists a, u, j.
Qed.

Lemma alloc_internal_added size z r st p s :
  vmalloc_window_high ->
  fresh_grant size r st ->
  alloc_internal size z r st = (p, s) -> ZERO_OR_NULL_PTR p = false ->
  heap_added p st s /\ size <= uvm_kvsize s p /\
  (z = true -> sizeof_hdr + size < SIZE_MAX_plus_1 ->
   take (N.to_nat size) (payload s p) = zeros size).
Proof.
  intros Hhigh Hgrant Hrun Hzp.
  assert (forall n m, n <= m -> take (N.to_nat n) (zeros m) = zeros n) as Hzeros.
  { intros n m Hnm. unfold zeros.
    replace (N.to_nat m) with (N.to_nat n + (N.to_nat m - N.to_nat n))%nat by lia.
    rewrite repeat_app, take_app_le by (rewrite repeat_length; lia).
    apply firstn_all2. rewrite repeat_length. lia. }
  destruct (alloc_internal_shape _ _ _ _ _ _ Hhigh Hgrant Hrun Hzp)
    as [(u & j & -> & Hvp & Hfresh & Hu & ->)
       | (a & u & j & -> & -> & Hvp & Hfresh & ->)].
  - destruct (with_slab_spec p {| obj_ksize := u;
                 obj_data := if z then zeros u else j |} st Hvp Hzp Hfresh)
      as (H1 & H2 & H3 & H4 & H5).
    rewrite H4, H5. simpl. split; [| split; [done |]].
    + split; [done |]. split; [done |]. split; [| by rewrite H4].
      intros [_ Hl]. rewrite Hvp, Hfresh in Hl. by destruct Hl.
    + intros -> _. by apply Hzeros.
  - destruct (with_area_spec a
                {| area_len := wrap_size (sizeof_hdr + size); alloc_size := size;
                   ptr_data := if z then zeros (wrap_size (sizeof_hdr + size) - sizeof_hdr)
                               else j |} st Hhigh Hvp Hfresh)
      as (H1 & H2 & H3 & H4 & H5).
    rewrite H4, H5. simpl. split; [| split; [done |]].
    + split; [done |]. split; [done |]. split; [| by rewrite H4].
      intros [_ Hl]. rewrite Hvp, get_hdr_add, Hfresh in Hl. by destruct Hl.
    + intros -> Hlen. unfold wrap_size. rewrite N.mod_small by done.
      apply Hzeros. lia.
Qed.

(** A zeroing allocation leaves no byte of the new block unset, whatever the
    length of the block. *)
Lemma alloc_internal_zeroed size r st p s :
  vmalloc_window_high ->
  fresh_grant size r st ->
  alloc_internal size true r st = (p, s) -> ZERO_OR_NULL_PTR p = false ->
  Forall (fun b => b = Byte.x00) (payload s p).
Proof.
  intros Hhigh Hgrant Hrun Hzp.
  assert (forall m, Forall (fun b => b = Byte.x00) (zeros m)) as Hzeros.
  { intros m. unfold zeros. apply Forall_forall. intros b Hb.
    apply list_elem_of_In in Hb. by apply repeat_spec in Hb. }
  destruct (alloc_internal_shape _ _ _ _ _ _ Hhigh Hgrant Hrun Hzp)
    as [(u & j & -> & Hvp & Hfresh & Hu & ->)
       | (a & u & j & -> & -> & Hvp & Hfresh & ->)].
  - destruct (with_slab_spec p {| obj_ksize := u; obj_data := zeros u |}
                st Hvp Hzp Hfresh) as (_ & _ & _ & _ & H5).
    rewrite H5. simpl. apply Hzeros.
  - destruct (with_area_spec a
                {| area_len := wrap_size (sizeof_hdr + size); alloc_size := size;
                   ptr_data := zeros (wrap_size (sizeof_hdr + size) - sizeof_hdr) |}
                st Hhigh Hvp Hfresh) as (_ & _ & _ & _ & H5).
    rewrite H5. simpl. apply Hzeros.
Qed.

Lemma uvm_kvfree_heaps p st :
  ZERO_OR_NULL_PTR p = false ->
  kmalloc_objs (uvm_kvfree p st) = kmalloc_objs (without_block p st) /\
  vmalloc_areas (uvm_kvfree p st) = vmalloc_areas (without_block p st).
Proof.
  intros Hz. assert (p <> NULL) as Hp by (intros ->; done).
  destruct (uvm_kvfree_fields p st Hp) as (-> & -> & _).
  unfold without_block. rewrite Hz. by destruct (is_vmalloc_addr p).
Qed.

Lemma heap_removed_heap p st s1 s2 :
  kmalloc_objs s1 = kmalloc_objs s2 -> vmalloc_areas s1 = vmalloc_areas s2 ->
  heap_removed p st s1 -> heap_removed p st s2.
Proof.
  intros Hk Hv (H1 & H2 & H3). split; [| split].
  - intros x. rewrite <- (live_heap s1 s2 x Hk Hv). apply H1.
  - intros x Hl Hne. apply (same_block_heap st s1 s2 x Hk Hv). by apply H2.
  - by rewrite <- (outstanding_heap s1 s2 Hk Hv).
Qed.

Lemma heap_added_heap p st s1 s2 :
  kmalloc_objs s1 = kmalloc_objs s2 -> vmalloc_areas s1 = vmalloc_areas s2 ->
  heap_added p st s1 -> heap_added p st s2.
Proof.
  intros Hk Hv (H1 & H2 & H3 & H4). split; [| split; [| split]].
  - intros x. rewrite <- (live_heap s1 s2 x Hk Hv). apply H1.
  - intros x Hl. apply (same_block_heap st s1 s2 x Hk Hv). by apply H2.
  - done.
  - by rewrite <- (outstanding_heap s1 s2 Hk Hv), <- (uvm_kvsize_heap s1 s2 p Hk Hv).
Qed.

Lemma heap_moved_heap p q st s1 s2 :
  kmalloc_objs s1 = kmalloc_objs s2 -> vmalloc_areas s1 = vmalloc_areas s2 ->
  heap_moved p q st s1 -> heap_moved p q st s2.
Proof.
  intros Hk Hv (H1 & H2 & H3 & H4). split; [| split; [| split]].
  - intros x. rewrite <- (live_heap s1 s2 x Hk Hv). apply H1.
  - intros x Hl Hne. apply (same_block_heap st s1 s2 x Hk Hv). by apply H2.
  - done.
  - by rewrite <- (outstanding_heap s1 s2 Hk Hv), <- (uvm_kvsize_heap s1 s2 q Hk Hv).
Qed.

Lemma uvm_kvfree_removed p st :
  vmalloc_window_high -> live st p -> heap_removed p st (uvm_kvfree p st).
Proof.
  intros Hhigh Hl.
  destruct (uvm_kvfree_heaps p st (proj1 Hl)) as [Hk Hv].
  apply (heap_removed_heap p st (without_block p st)); [done | done |].
  by apply without_block_spec.
Qed.


Lemma same_block_trans st1 st2 st3 x :
  same_block st1 st2 x -> same_block st2 st3 x -> same_block st1 st3 x.
Proof. unfold same_block. intros [-> ->] [-> ->]. done. Qed.

Lemma with_slab_added a o st :
  is_vmalloc_addr a = false -> ZERO_OR_NULL_PTR a = false ->
  kmalloc_objs st !! a = None ->
  heap_added a st (with_slab a o st).
Proof.
  intros Hva Hza Hfresh.
  destruct (with_slab_spec a o st Hva Hza Hfresh) as (H1 & H2 & H3 & H4 & _).
  split; [done |]. split; [done |]. split; [| by rewrite H4].
  intros [_ Hl]. rewrite Hva, Hfresh in Hl. by destruct Hl.
Qed.

Lemma with_area_added a h st :
  vmalloc_window_high ->
  is_vmalloc_addr (a + sizeof_hdr) = true ->
  vmalloc_areas st !! a = None ->
  heap_added (a + sizeof_hdr) st (with_area a h st).
Proof.
  intros Hhigh Hva Hfresh.
  destruct (with_area_spec a h st Hhigh Hva Hfresh) as (H1 & H2 & H3 & H4 & _).
  split; [done |]. split; [done |]. split; [| by rewrite H4].
  intros [_ Hl]. rewrite Hva, get_hdr_add, Hfresh in Hl. by destruct Hl.
Qed.

Lemma heaps_wf_heap s1 s2 :
  kmalloc_objs s1 = kmalloc_objs s2 -> vmalloc_areas s1 = vmalloc_areas s2 ->
  heaps_wf s1 -> heaps_wf s2.
Proof. intros Hk Hv. unfold heaps_wf. by rewrite Hk, Hv. Qed.

Lemma without_block_wf p st : heaps_wf st -> heaps_wf (without_block p st).
Proof.
  intros [Hk Hv]. unfold without_block.
  destruct (is_vmalloc_addr p); split; simpl; try done.
  - intros a [x Hx]. apply Hv. apply lookup_delete_Some in Hx as [_ Hx]. by eexists.
  - intros a [x Hx]. apply Hk. apply lookup_delete_Some in Hx as [_ Hx]. by eexists.
Qed.

Lemma with_slab_wf a o st :
  is_vmalloc_addr a = false -> ZERO_OR_NULL_PTR a = false ->
  heaps_wf st -> heaps_wf (with_slab a o st).
Proof.
  intros Hva Hza [Hk Hv]. split; simpl; [| done].
  intros x [y Hy]. destruct (decide (x = a)) as [-> | Hne]; [done |].
  rewrite lookup_insert_ne in Hy by done. apply Hk. by eexists.
Qed.

Lemma with_area_wf a h st :
  is_vmalloc_addr (a + sizeof_hdr) = true ->
  heaps_wf st -> heaps_wf (with_area a h st).
Proof.
  intros Hva [Hk Hv]. split; simpl; [done |].
  intros x [y Hy]. destruct (decide (x = a)) as [-> | Hne]; [done |].
  rewrite lookup_insert_ne in Hy by done. apply Hv. by eexists.
Qed.

(** Removing [p] and then adding [q] moves [p] to [q]. *)
Lemma moved_compose p q st s0 s :
  heap_removed p st s0 -> heap_added q s0 s -> heap_moved p q st s.
Proof.
  intros (R1 & R2 & R3) (A1 & A2 & A3 & A4). split; [| split; [| split]].
  - intros x. rewrite A1, R1. done.
  - intros x Hl Hne. eapply same_block_trans; [by apply R2 |].
    apply A2. by apply R1.
  - intros Hne Hl. apply A3. by apply R1.
  - lia.
Qed.

Lemma moved_via_slab p a o st s :
  vmalloc_window_high -> live st p ->
  is_vmalloc_addr a = false -> ZERO_OR_NULL_PTR a = false ->
  kmalloc_objs (without_block p st) !! a = None ->
  kmalloc_objs s = kmalloc_objs (with_slab a o (without_block p st)) ->
  vmalloc_areas s = vmalloc_areas (with_slab a o (without_block p st)) ->
  moves p a st s.
Proof.
  intros Hhigh Hlp Hva Hza Hfresh Hk Hv. split; [| split; [done |]].
  - apply (heap_moved_heap p a st (with_slab a o (without_block p st)));
      [done | done |].
    apply (moved_compose p a st (without_block p st));
      [by apply without_block_spec | by apply with_slab_added].
  - intros Hwf.
    apply (heaps_wf_heap (with_slab a o (without_block p st))); [done | done |].
    by apply with_slab_wf, without_block_wf.
Qed.

Lemma moved_via_area p a h st s :
  vmalloc_window_high -> live st p ->
  is_vmalloc_addr (a + sizeof_hdr) = true ->
  vmalloc_areas (without_block p st) !! a = None ->
  kmalloc_objs s = kmalloc_objs (with_area a h (without_block p st)) ->
  vmalloc_areas s = vmalloc_areas (with_area a h (without_block p st)) ->
  moves p (a + sizeof_hdr) st s.
Proof.
  intros Hhigh Hlp Hva Hfresh Hk Hv.
  split; [| split; [by apply (high_not_sentinel _ Hhigh) |]].
  - apply (heap_moved_heap p (a + sizeof_hdr) st
             (with_area a h (without_block p st))); [done | done |].
    apply (moved_compose p (a + sizeof_hdr) st (without_block p st));
      [by apply without_block_spec | by apply with_area_added].
  - intros Hwf.
    apply (heaps_wf_heap (with_area a h (without_block p st))); [done | done |].
    by apply with_area_wf, without_block_wf.
Qed.

Lemma realloc_dispatch_moved p n r st q s :
  vmalloc_window_high ->
  live st p -> realloc_grant p n r st -> n <> 0 ->
  realloc_dispatch p n r st = (q, s) -> q <> NULL ->
  moves p q st s.
Proof.
  intros Hhigh Hlp Hgrant Hn Hrun Hq.
  pose proof Hlp as [Hz Hlive].
  unfold realloc_dispatch in Hrun. unfold realloc_grant in Hgrant.
  apply N.eqb_neq in Hn as Hnb.
  destruct (is_vmalloc_addr p) eqn:Hvp; simpl in Hgrant.
  - destruct Hlive as [h Hh].
    unfold realloc_from_vmalloc in Hrun. rewrite Hnb in Hrun.
    unfold hdr_alloc_size at 1 in Hrun. rewrite Hh in Hrun.
    destruct (n =? alloc_size h) eqn:Hsame.
    + injection Hrun as <- <-. split; [| done].
      split; [| split; [| split]]; try done.
      intros x. split; [| by intros [-> | [_ ?]]].
      intros Hx. destruct (decide (x = p)); [by left | by right].
    + destruct r as [| a u j];
        [rewrite alloc_internal_no_memory in Hrun by done;
         simpl in Hrun; by injection Hrun as <- _ |].
      unfold fresh_grant in Hgrant.
      destruct (n <=? UVM_KMALLOC_THRESHOLD) eqn:Hth.
      * destruct Hgrant as (Hza & Hva & Hfresh & Husable).
        rewrite alloc_internal_small in Hrun by done.
        assert ((a =? NULL) = false) as Hanull
          by (apply N.eqb_neq; intros ->; done).
        rewrite Hanull in Hrun. injection Hrun as <- <-.
        eapply (moved_via_slab p a); try done.
        -- unfold without_block. by rewrite Hvp.
        -- unfold memcpy, set_payload, with_slab, without_block, vfree.
           rewrite Hva, Hvp. simpl. by rewrite alter_insert_eq.
        -- unfold memcpy, set_payload, with_slab, without_block, vfree.
           rewrite Hva, Hvp. done.
      * destruct Hgrant as (Hanull & Hva & Hfresh).
        destruct (alloc_internal n false (Granted a u j) st) as [q0 s0] eqn:Hal.
        destruct (q0 =? NULL) eqn:Hq0; [by injection Hrun as <- _ |].
        apply N.eqb_neq in Hq0.
        destruct (alloc_internal_large _ _ _ _ _ _ _ _ Hth Hal Hq0) as [-> ->].
        injection Hrun as <- <-.
        assert (a <> get_hdr p) as Hne by (intros ->; by rewrite Hh in Hfresh).
        eapply (moved_via_area p a); try done.
        -- unfold without_block. rewrite Hvp. simpl.
           by rewrite lookup_delete_ne.
        -- unfold memcpy, set_payload, with_area, without_block, vfree.
           rewrite Hva, Hvp. done.
        -- unfold memcpy, set_payload, with_area, without_block, vfree.
           rewrite Hva, Hvp, get_hdr_add. simpl.
           rewrite alter_insert_eq. by rewrite delete_insert_ne.
  - destruct Hlive as [o Ho].
    unfold realloc_from_kmalloc in Hrun.
    destruct (n <=? UVM_KMALLOC_THRESHOLD) eqn:Hth; simpl in Hgrant.
    + unfold krealloc in Hrun. rewrite Hnb in Hrun.
      destruct r as [| a u j]; [by injection Hrun as <- _ |].
      destruct Hgrant as (Hza & Hva & Hfresh & Husable).
      injection Hrun as <- <-.
      eapply (moved_via_slab p a); try done.
      * unfold without_block. rewrite Hvp. simpl.
        destruct Hfresh as [-> | Hfresh]; [apply lookup_delete_eq |].
        destruct (decide (p = a)) as [-> | Hpa]; [apply lookup_delete_eq |].
        by rewrite lookup_delete_ne.
      * unfold with_slab, without_block. rewrite Hvp. done.
      * unfold with_slab, without_block. rewrite Hvp. done.
    + destruct r as [| a u j];
        [rewrite alloc_internal_no_memory in Hrun by done;
         simpl in Hrun; by injection Hrun as <- _ |].
      unfold fresh_grant in Hgrant. rewrite Hth in Hgrant.
      destruct Hgrant as (Hanull & Hva & Hfresh).
      destruct (alloc_internal n false (Granted a u j) st) as [q0 s0] eqn:Hal.
      destruct (q0 =? NULL) eqn:Hq0; [by injection Hrun as <- _ |].
      apply N.eqb_neq in Hq0.
      destruct (alloc_internal_large _ _ _ _ _ _ _ _ Hth Hal Hq0) as [-> ->].
      injection Hrun as <- <-.
      eapply (moved_via_area p a); try done.
      * unfold without_block. by rewrite Hvp.
      * unfold memcpy, set_payload, with_area, without_block, kfree.
        rewrite Hva, Hvp, Hz. done.
      * unfold memcpy, set_payload, with_area, without_block, kfree.
        rewrite Hva, Hvp, Hz, get_hdr_add. simpl.
        by rewrite alter_insert_eq.
Qed.

End Heaps.

Section Api.
Context {cfg : Config}.

(** ** Arithmetic of the counter *)

Lemma wrap_long_mod z : (wrap_long z mod 2 ^ 64 = z mod 2 ^ 64)%Z.
Proof.
  unfold wrap_long.
  rewrite Zminus_mod, Z.mod_mod by lia.
  rewrite <- Zminus_mod. f_equal. lia.
Qed.

Lemma wrap_long_congr a b :
  (a mod 2 ^ 64 = b mod 2 ^ 64)%Z -> wrap_long a = wrap_long b.
Proof.
  intros H. unfold wrap_long.
  rewrite (Zplus_mod a), (Zplus_mod b), H. done.
Qed.

Lemma counter_add a k :
  atomic_long_add (long_of_size k) (long_of_size a) = long_of_size (a + k).
Proof.
  unfold atomic_long_add, long_of_size. apply wrap_long_congr.
  rewrite Zplus_mod, !wrap_long_mod, <- Zplus_mod. f_equal. lia.
Qed.

Lemma counter_sub a k :
  atomic_long_sub (long_of_size k) (long_of_size (a + k)) = long_of_size a.
Proof.
  unfold atomic_long_sub, long_of_size. apply wrap_long_congr.
  rewrite Zminus_mod, !wrap_long_mod, <- Zminus_mod. f_equal. lia.
Qed.

Lemma counter_move a b k k' :
  b + k = a + k' ->
  atomic_long_add (long_of_size k')
    (atomic_long_sub (long_of_size k) (long_of_size a)) = long_of_size b.
Proof.
  intros H. unfold atomic_long_add, atomic_long_sub, long_of_size.
  apply wrap_long_congr.
  rewrite Zplus_mod, !wrap_long_mod, <- Zplus_mod.
  rewrite Zplus_mod, Zminus_mod, !wrap_long_mod, <- Zminus_mod, <- Zplus_mod.
  f_equal. lia.
Qed.

Lemma long_of_size_range n : long_range (long_of_size n).
Proof. apply wrap_long_in_range. Qed.

(** ** Sound grants *)

Lemma fresh_grant_wf n r st : fresh_grant n r st -> reply_wf r.
Proof.
  destruct r as [| a u j]; [done |]. simpl.
  destruct (n <=? UVM_KMALLOC_THRESHOLD).
  - intros (Hz & _) ->. done.
  - by intros (Hz & _).
Qed.

Lemma realloc_grant_wf p n r st : realloc_grant p n r st -> reply_wf r.
Proof.
  unfold realloc_grant.
  destruct (negb (is_vmalloc_addr p) && (n <=? UVM_KMALLOC_THRESHOLD));
    [| apply fresh_grant_wf].
  destruct r as [| a u j]; [done |]. simpl. intros (Hz & _) ->. done.
Qed.

Lemma sentinel_not_vmalloc p :
  vmalloc_window_high -> ZERO_OR_NULL_PTR p = true -> is_vmalloc_addr p = false.
Proof.
  intros Hhigh Hz. destruct (is_vmalloc_addr p) eqn:Hv; [| done].
  apply Hhigh in Hv. unfold ZERO_OR_NULL_PTR in Hz. apply N.leb_le in Hz.
  unfold sizeof_hdr in Hv. lia.
Qed.

(** ** Allocation *)

Lemma kvmalloc_with_heaps z n f l fn e st :
  (__uvm_kvmalloc_with z n f l fn e st).1 = (alloc_internal n z (mem e) st).1 /\
  kmalloc_objs (__uvm_kvmalloc_with z n f l fn e st).2 =
    kmalloc_objs (alloc_internal n z (mem e) st).2 /\
  vmalloc_areas (__uvm_kvmalloc_with z n f l fn e st).2 =
    vmalloc_areas (alloc_internal n z (mem e) st).2.
Proof.
  unfold __uvm_kvmalloc_with.
  destruct (alloc_internal n z (mem e) st) as [q s]. simpl.
  destruct (leak_check_enabled && negb (q =? NULL)); simpl; [| done].
  by destruct (alloc_tracking_add_heaps q f fn l (info_ok e) s) as [-> ->].
Qed.

(** The leak checker after an allocation that yields a real pointer. *)
Lemma kvmalloc_with_tracking z n f l fn e st p st' :
  leak_check_enabled = true ->
  __uvm_kvmalloc_with z n f l fn e st = (p, st') ->
  ZERO_OR_NULL_PTR p = false ->
  bytes_allocated st' =
    atomic_long_add (long_of_size (uvm_kvsize st' p)) (bytes_allocated st) /\
  (leak_check_origin = true ->
   allocation_info st' =
     if info_ok e
     then uvm_rb_tree_insert p {| file := f; function := fn; line := l |}
            (allocation_info st)
     else allocation_info st).
Proof.
  intros Hen Hrun Hz.
  destruct (kvmalloc_with_heaps z n f l fn e st) as (Hp & Hk & Hv).
  rewrite Hrun in Hp, Hk, Hv. simpl in Hp, Hk, Hv.
  unfold __uvm_kvmalloc_with in Hrun.
  pose proof (alloc_internal_bytes n z (mem e) st) as Hb0.
  assert (allocation_info (alloc_internal n z (mem e) st).2 = allocation_info st)
    as Hi0.
  { rewrite <- (with_tracking_same st st) at 1 by done.
    rewrite alloc_internal_tracking. done. }
  destruct (alloc_internal n z (mem e) st) as [q s]. simpl in *. subst q.
  assert ((p =? NULL) = false) as Hpn by (apply N.eqb_neq; intros ->; done).
  rewrite Hen, Hpn in Hrun. simpl in Hrun. injection Hrun as <-.
  destruct (alloc_tracking_add_fields p f fn l (info_ok e) s Hz) as (_ & _ & ->).
  rewrite Hb0. split.
  - f_equal. f_equal. by apply uvm_kvsize_heap.
  - intros Hor. unfold alloc_tracking_add. rewrite Hz, Hor.
    destruct (info_ok e); simpl; by rewrite Hi0.
Qed.

Lemma alloc_internal_sentinel n z r st p s :
  fresh_grant n r st ->
  alloc_internal n z r st = (p, s) -> ZERO_OR_NULL_PTR p = true ->
  vmalloc_window_high -> s = st.
Proof.
  intros Hg Hal Hz Hhigh.
  destruct (decide (p = NULL)) as [-> | Hpn].
  { eapply alloc_internal_null; [by eapply fresh_grant_wf | done]. }
  unfold alloc_internal in Hal.
  destruct (n <=? UVM_KMALLOC_THRESHOLD) eqn:Hth.
  - unfold kmalloc in Hal. destruct (n =? 0); [by injection Hal as _ <- |].
    destruct r as [| a u j]; [by injection Hal as _ <- |].
    simpl in Hg. rewrite Hth in Hg. destruct Hg as (Hza & _).
    injection Hal as <- _. congruence.
  - unfold vmalloc in Hal.
    destruct (wrap_size (sizeof_hdr + n) =? 0); [by injection Hal as _ <- |].
    destruct r as [| a u j]; [by injection Hal as _ <- |].
    simpl in Hg. rewrite Hth in Hg. destruct Hg as (Han & Hva & _).
    apply N.eqb_neq in Han. rewrite Han in Hal. injection Hal as <- _.
    by rewrite (sentinel_not_vmalloc _ Hhigh Hz) in Hva.
Qed.

Lemma kvmalloc_with_sentinel z n f l fn e st p st' :
  vmalloc_window_high -> fresh_grant n (mem e) st ->
  __uvm_kvmalloc_with z n f l fn e st = (p, st') ->
  ZERO_OR_NULL_PTR p = true -> st' = st.
Proof.
  intros Hhigh Hg Hrun Hz. unfold __uvm_kvmalloc_with in Hrun.
  destruct (alloc_internal n z (mem e) st) as [q s] eqn:Hal.
  assert (q = p) as ->
    by (by destruct (leak_check_enabled && negb (q =? NULL)); injection Hrun).
  pose proof (alloc_internal_sentinel _ _ _ _ _ _ Hg Hal Hz Hhigh) as ->.
  unfold alloc_tracking_add in Hrun. rewrite Hz in Hrun.
  by destruct (leak_check_enabled && negb (p =? NULL)); injection Hrun.
Qed.

Lemma kvmalloc_with_added z n f l fn e st p st' :
  vmalloc_window_high -> fresh_grant n (mem e) st ->
  __uvm_kvmalloc_with z n f l fn e st = (p, st') ->
  ZERO_OR_NULL_PTR p = false ->
  heap_added p st st' /\ (heaps_wf st -> heaps_wf st').
Proof.
  intros Hhigh Hg Hrun Hz.
  destruct (kvmalloc_with_heaps z n f l fn e st) as (Hp & Hk & Hv).
  rewrite Hrun in Hp, Hk, Hv. simpl in Hp, Hk, Hv.
  destruct (alloc_internal n z (mem e) st) as [q s] eqn:Hal.
  simpl in *. subst q.
  split.
  - apply (heap_added_heap p st s); [done | done |].
    by destruct (alloc_internal_added _ _ _ _ _ _ Hhigh Hg Hal Hz).
  - intros Hwf. apply (heaps_wf_heap s); [done | done |].
    destruct (alloc_internal_shape _ _ _ _ _ _ Hhigh Hg Hal Hz)
      as [(u & j & _ & Hva & _ & _ & ->) | (a & u & j & _ & -> & Hva & _ & ->)].
    + by apply with_slab_wf.
    + by apply with_area_wf.
Qed.

(** ** Release *)

Lemma kvfree_sentinel p st :
  vmalloc_window_high -> ZERO_OR_NULL_PTR p = true -> uvm_kvfree p st = st.
Proof.
  intros Hhigh Hz. unfold uvm_kvfree.
  destruct (p =? NULL); [done |].
  unfold alloc_tracking_remove, kfree.
  rewrite (sentinel_not_vmalloc _ Hhigh Hz), Hz.
  by destruct leak_check_enabled.
Qed.

Lemma kvfree_wf p st :
  ZERO_OR_NULL_PTR p = false -> heaps_wf st -> heaps_wf (uvm_kvfree p st).
Proof.
  intros Hz Hwf. destruct (uvm_kvfree_heaps p st Hz) as [Hk Hv].
  apply (heaps_wf_heap (without_block p st)); [done | done |].
  by apply without_block_wf.
Qed.

Lemma kvfree_table p st :
  ZERO_OR_NULL_PTR p = false -> leak_check_origin = true ->
  allocation_info (uvm_kvfree p st) = delete p (allocation_info st).
Proof.
  intros Hz Hor.
  assert (p <> NULL) as Hp by (intros ->; done).
  destruct (uvm_kvfree_fields p st Hp) as (_ & _ & _ & ->).
  by rewrite (origin_implies_enabled Hor), Hz, Hor.
Qed.

(** ** Reallocation *)

Lemma kvrealloc_zero_state p f l fn e st :
  ZERO_OR_NULL_PTR p = false ->
  __uvm_kvrealloc p 0 f l fn e st = (ZERO_SIZE_PTR, uvm_kvfree p st).
Proof.
  intros Hz.
  assert ((p =? NULL) = false) as Hp by (apply N.eqb_neq; intros ->; done).
  unfold __uvm_kvrealloc, uvm_kvfree. rewrite Hz, Hp.
  unfold realloc_from_vmalloc, realloc_from_kmalloc, krealloc.
  rewrite (proj2 (N.leb_le 0 UVM_KMALLOC_THRESHOLD) (N.le_0_l _)).
  destruct leak_check_enabled, (is_vmalloc_addr p); done.
Qed.

(** A failed reallocation leaves the heaps and the origin table as they
    were. *)
Lemma kvrealloc_failure_heaps p n f l fn e st st' :
  ZERO_OR_NULL_PTR p = false -> reply_wf (mem e) ->
  __uvm_kvrealloc p n f l fn e st = (NULL, st') ->
  n <> 0 /\
  kmalloc_objs st' = kmalloc_objs st /\ vmalloc_areas st' = vmalloc_areas st /\
  allocation_info st' = allocation_info st.
Proof.
  intros Hp Hwf Hrun.
  destruct (kvrealloc_heaps p n f l fn e st Hp) as (Hq & Hk & Hv).
  rewrite Hrun in Hq, Hk, Hv. simpl in Hq, Hk, Hv.
  destruct (realloc_dispatch p n (mem e) st) as [q s] eqn:Hd.
  simpl in *. subst q.
  apply realloc_dispatch_null in Hd as [-> Hn]; [| done..].
  split; [done |]. split; [done |]. split; [done |].
  apply N.eqb_neq in Hn as Hnb.
  revert Hrun. unfold __uvm_kvrealloc. rewrite Hp, Hnb.
  destruct leak_check_enabled; simpl.
  - destruct leak_check_origin eqn:Hor.
    + unfold remove_info. simpl.
      destruct (allocation_info st !! p) as [i|] eqn:Hi.
      * destruct (if is_vmalloc_addr p then _ else _) as [q st2] eqn:Hr.
        intros [= -> <-]. simpl.
        apply realloc_dispatch_null in Hr as [-> _]; [| done..].
        unfold insert_info, uvm_rb_tree_insert. simpl.
        by rewrite lookup_delete_eq, insert_delete_eq, (insert_id _ _ _ Hi).
      * destruct (if is_vmalloc_addr p then _ else _) as [q st2] eqn:Hr.
        intros [= -> <-]. simpl.
        by apply realloc_dispatch_null in Hr as [-> _].
    + destruct (if is_vmalloc_addr p then _ else _) as [q st2] eqn:Hr.
      intros [= -> <-]. simpl.
      by apply realloc_dispatch_null in Hr as [-> _].
  - destruct (if is_vmalloc_addr p then _ else _) as [q st2] eqn:Hr.
    intros [= -> <-].
    by apply realloc_dispatch_null in Hr as [-> _].
Qed.

Lemma kvrealloc_moved p n f l fn e st q st' :
  vmalloc_window_high ->
  live st p -> realloc_grant p n (mem e) st -> n <> 0 ->
  __uvm_kvrealloc p n f l fn e st = (q, st') -> q <> NULL ->
  moves p q st st'.
Proof.
  intros Hhigh Hlp Hg Hn Hrun Hq. pose proof Hlp as [Hz _].
  destruct (kvrealloc_heaps p n f l fn e st Hz) as (Hq1 & Hk & Hv).
  rewrite Hrun in Hq1, Hk, Hv. simpl in Hq1, Hk, Hv.
  destruct (realloc_dispatch p n (mem e) st) as [q0 s] eqn:Hd.
  simpl in *. subst q0.
  destruct (realloc_dispatch_moved _ _ _ _ _ _ Hhigh Hlp Hg Hn Hd Hq)
    as (Hm & Hzq & Hwf).
  split; [| split; [done |]].
  - by apply (heap_moved_heap p q st s).
  - intros H. apply (heaps_wf_heap s); [done | done | by apply Hwf].
Qed.

End Api.

Section Clients.
Context {cfg : Config}.

(** ** What one call of a client does *)

Lemma kvrealloc_sentinel p n f l fn e st :
  ZERO_OR_NULL_PTR p = true ->
  __uvm_kvrealloc p n f l fn e st = __uvm_kvmalloc_with false n f l fn e st.
Proof. intros Hz. unfold __uvm_kvrealloc. by rewrite Hz. Qed.

(** A call within the contract leaves the allocations alone, adds one,
    removes one or moves one, and the leak checker follows. *)
Lemma call_cases c st :
  vmalloc_window_high -> call_ok c st ->
  let s := run_call c st in
  (kmalloc_objs s = kmalloc_objs st /\ vmalloc_areas s = vmalloc_areas st /\
   allocation_info s = allocation_info st /\
   (long_range (bytes_allocated st) -> bytes_allocated s = bytes_allocated st)) \/
  (exists p site ok,
     heap_added p st s /\ ZERO_OR_NULL_PTR p = false /\
     (heaps_wf st -> heaps_wf s) /\ (call_tracked c -> ok = true) /\
     (leak_check_enabled = true ->
      bytes_allocated s =
        atomic_long_add (long_of_size (uvm_kvsize s p)) (bytes_allocated st)) /\
     (leak_check_origin = true ->
      allocation_info s =
        if ok : bool then uvm_rb_tree_insert p site (allocation_info st)
        else allocation_info st)) \/
  (exists p, live st p /\ s = uvm_kvfree p st) \/
  (exists p q site ok,
     live st p /\ moves p q st s /\ (call_tracked c -> ok = true) /\
     (leak_check_enabled = true ->
      bytes_allocated s =
        atomic_long_add (long_of_size (uvm_kvsize s q))
          (atomic_long_sub (long_of_size (uvm_kvsize st p)) (bytes_allocated st))) /\
     (leak_check_origin = true ->
      allocation_info s =
        if ok : bool
        then uvm_rb_tree_insert q site (delete p (allocation_info st))
        else delete p (allocation_info st))).
Proof.
  intros Hhigh Hok. cbv zeta.
  assert (forall z n f l fn e,
    fresh_grant n (mem e) st ->
    let s := (__uvm_kvmalloc_with z n f l fn e st).2 in
    s = st \/
    (exists p site ok,
       heap_added p st s /\ ZERO_OR_NULL_PTR p = false /\
       (heaps_wf st -> heaps_wf s) /\ (info_ok e = true -> ok = true) /\
       (leak_check_enabled = true ->
        bytes_allocated s =
          atomic_long_add (long_of_size (uvm_kvsize s p)) (bytes_allocated st)) /\
       (leak_check_origin = true ->
        allocation_info s =
          if ok : bool then uvm_rb_tree_insert p site (allocation_info st)
          else allocation_info st))) as Halloc.
  { intros z n f l fn e Hg. cbv zeta.
    destruct (__uvm_kvmalloc_with z n f l fn e st) as [p st'] eqn:Hrun. simpl.
    destruct (ZERO_OR_NULL_PTR p) eqn:Hz.
    - left. by eapply kvmalloc_with_sentinel.
    - right. exists p, {| file := f; function := fn; line := l |}, (info_ok e).
      destruct (kvmalloc_with_added _ _ _ _ _ _ _ _ _ Hhigh Hg Hrun Hz)
        as [Hadd Hwf].
      split; [done |]. split; [done |]. split; [done |]. split; [done |].
      split; intros Hen.
      + by destruct (kvmalloc_with_tracking _ _ _ _ _ _ _ _ _ Hen Hrun Hz).
      + pose proof (origin_implies_enabled Hen) as Hen'.
        destruct (kvmalloc_with_tracking _ _ _ _ _ _ _ _ _ Hen' Hrun Hz)
          as [_ Hi]. by apply Hi. }
  destruct c as [z n f l fn e | p | p n f l fn e]; simpl in *.
  - destruct (Halloc z n f l fn e Hok) as [-> | H]; [by left | by right; left].
  - destruct Hok as [Hz | Hl].
    + left. by rewrite kvfree_sentinel.
    + right; right; left. by exists p.
  - destruct Hok as [[Hz Hg] | [Hl Hg]].
    + rewrite kvrealloc_sentinel by done.
      destruct (Halloc false n f l fn e Hg) as [-> | H];
        [by left | by right; left].
    + pose proof Hl as [Hz _].
      destruct (decide (n = 0)) as [-> | Hn].
      { right; right; left. exists p. by rewrite kvrealloc_zero_state. }
      destruct (__uvm_kvrealloc p n f l fn e st) as [q st'] eqn:Hrun. simpl.
      pose proof (realloc_grant_wf _ _ _ _ Hg) as Hwf.
      destruct (decide (q = NULL)) as [-> | Hq].
      * left.
        destruct (kvrealloc_failure_heaps _ _ _ _ _ _ _ _ Hz Hwf Hrun)
          as (_ & Hk & Hv & Hi).
        split; [done |]. split; [done |]. split; [done |].
        intros Hb.
        destruct (kvrealloc_failure_state _ _ _ _ _ _ _ _ Hz Hwf Hb Hrun)
          as [_ ->].
        by destruct (after_failed_realloc_same p st) as (_ & _ & ? & _).
      * right; right; right.
        exists p, q, {| file := f; function := fn; line := l |}, (info_ok e).
        pose proof (kvrealloc_moved _ _ _ _ _ _ _ _ _ Hhigh Hl Hg Hn Hrun Hq)
          as Hm.
        pose proof Hm as (_ & Hzq & _).
        split; [done |]. split; [done |]. split; [done |].
        split; intros Hen.
        -- by destruct (kvrealloc_success_tracking _ _ _ _ _ _ _ _ _
                          Hz Hn Hen Hrun Hzq).
        -- pose proof (origin_implies_enabled Hen) as Hen'.
           destruct (kvrealloc_success_tracking _ _ _ _ _ _ _ _ _
                       Hz Hn Hen' Hrun Hzq) as [_ Hi]. by apply Hi.
Qed.

(** ** The invariants, one call at a time *)

Lemma call_keeps_wf c st :
  vmalloc_window_high -> heaps_wf st -> call_ok c st ->
  heaps_wf (run_call c st).
Proof.
  intros Hhigh Hwf Hok.
  destruct (call_cases c st Hhigh Hok)
    as [(Hk & Hv & _) | [(p & site & ok & _ & _ & H & _)
       | [(p & Hl & ->) | (p & q & site & ok & _ & (_ & _ & H) & _)]]].
  - by apply (heaps_wf_heap st).
  - by apply H.
  - apply kvfree_wf; [by destruct Hl | done].
  - by apply H.
Qed.

Lemma call_keeps_counter c st :
  leak_check_enabled = true ->
  vmalloc_window_high -> counter_exact st -> call_ok c st ->
  counter_exact (run_call c st).
Proof.
  intros Hen Hhigh Hex Hok. unfold counter_exact in *.
  destruct (call_cases c st Hhigh Hok)
    as [(Hk & Hv & _ & Hb) | [(p & site & ok & Hadd & _ & _ & _ & Hb & _)
       | [(p & Hl & ->) | (p & q & site & ok & Hl & (Hm & _) & _ & Hb & _)]]].
  - rewrite Hb by (rewrite Hex; apply long_of_size_range).
    rewrite Hex. f_equal. by apply outstanding_heap.
  - rewrite (Hb Hen), Hex. destruct Hadd as (_ & _ & _ & ->).
    apply counter_add.
  - pose proof Hl as [Hz _].
    rewrite uvm_kvfree_bytes, Hen, Hz. simpl. rewrite Hex.
    destruct (uvm_kvfree_removed p st Hhigh Hl) as (_ & _ & ->).
    apply counter_sub.
  - rewrite (Hb Hen), Hex. destruct Hm as (_ & _ & _ & Ho).
    by apply counter_move.
Qed.

Lemma call_keeps_tracked c st :
  leak_check_origin = true ->
  vmalloc_window_high -> fully_tracked st -> call_ok c st -> call_tracked c ->
  fully_tracked (run_call c st).
Proof.
  intros Hor Hhigh Htr Hok Hct. unfold fully_tracked in *.
  destruct (call_cases c st Hhigh Hok)
    as [(Hk & Hv & Hi & _) | [(p & site & ok & Hadd & _ & _ & Hokk & _ & Hi)
       | [(p & Hl & ->) | (p & q & site & ok & Hl & (Hm & _) & Hokk & _ & Hi)]]].
  - intros x. rewrite Hi, Htr. symmetry. by apply live_heap.
  - intros x. rewrite (Hi Hor), (Hokk Hct).
    destruct Hadd as (Hlive & _ & Hfresh & _). rewrite Hlive.
    assert (allocation_info st !! p = None) as Hnone.
    { apply eq_None_not_Some. by rewrite Htr. }
    unfold uvm_rb_tree_insert. rewrite Hnone.
    destruct (decide (x = p)) as [-> | Hne].
    + rewrite lookup_insert_eq. split; [by left | by eexists].
    + rewrite lookup_insert_ne by done. rewrite Htr. split; [by right |].
      by intros [? | ?].
  - intros x. pose proof Hl as [Hz _].
    rewrite (kvfree_table p st Hz Hor).
    destruct (uvm_kvfree_removed p st Hhigh Hl) as (Hlive & _).
    rewrite Hlive.
    destruct (decide (x = p)) as [-> | Hne].
    + rewrite lookup_delete_eq. split; [by intros [? ?] | by intros [? _]].
    + rewrite lookup_delete_ne by done. rewrite Htr. split; [done | by intros [_ ?]].
  - intros x. rewrite (Hi Hor), (Hokk Hct).
    destruct Hm as (Hlive & _ & Hfresh & _). rewrite Hlive.
    assert (delete p (allocation_info st) !! q = None) as Hnone.
    { destruct (decide (q = p)) as [-> | Hne]; [apply lookup_delete_eq |].
      rewrite lookup_delete_ne by done.
      apply eq_None_not_Some. rewrite Htr. by apply Hfresh. }
    unfold uvm_rb_tree_insert. rewrite Hnone.
    destruct (decide (x = q)) as [-> | Hne].
    + rewrite lookup_insert_eq. split; [by left | by eexists].
    + rewrite lookup_insert_ne by done.
      destruct (decide (x = p)) as [-> | Hnp].
      * rewrite lookup_delete_eq.
        split; [by intros [? ?] | by intros [? | [? _]]].
      * rewrite lookup_delete_ne by done. rewrite Htr.
        split; [by right | by intros [? | [_ ?]]].
Qed.

End Clients.

Section Shutdown.
Context {cfg : Config} {flags : TestFlags}.

(** ** The keys that the shutdown loop visits *)

Lemma uvm_rb_tree_keys_perm t :
  uvm_rb_tree_keys t ≡ₚ map fst (map_to_list t).
Proof. apply merge_sort_Permutation. Qed.

Lemma uvm_rb_tree_keys_elem t k :
  k ∈ uvm_rb_tree_keys t <-> is_Some (t !! k).
Proof.
  rewrite uvm_rb_tree_keys_perm.
  change (map fst (map_to_list t)) with ((map_to_list t).*1).
  rewrite list_elem_of_fmap. split.
  - intros [[k' x] [-> Hin]]. apply elem_of_map_to_list in Hin. by eexists.
  - intros [x Hx]. exists (k, x). split; [done |].
    by apply elem_of_map_to_list.
Qed.

Lemma uvm_rb_tree_keys_nodup t : NoDup (uvm_rb_tree_keys t).
Proof.
  rewrite uvm_rb_tree_keys_perm.
  apply (NoDup_fst_map_to_list t).
Qed.

Lemma uvm_rb_tree_keys_sorted t : Sorted N.le (uvm_rb_tree_keys t).
Proof. apply (Sorted_merge_sort N.le). Qed.

(** ** The loop *)

Lemma exit_loop_spec keys : forall m st0,
  leak_check_origin = true -> vmalloc_window_high ->
  NoDup keys ->
  (forall k, k ∈ keys -> is_Some (allocation_info (kv m) !! k)) ->
  (forall k, is_Some (allocation_info (kv m) !! k) -> live (kv m) k) ->
  (forall k, k ∈ keys -> leak_line (kv m) k = leak_line st0 k) ->
  let m' := exit_loop keys m in
  g_malloc_initialized m' = g_malloc_initialized m /\
  info_cache m' = info_cache m /\
  unload_state m' = unload_state m /\
  log m' = log m ++ flat_map (leak_line st0) keys /\
  (forall x, allocation_info (kv m') !! x =
             if decide (x ∈ keys) then None else allocation_info (kv m) !! x) /\
  (forall x, live (kv m') x <-> (x ∉ keys) /\ live (kv m) x) /\
  (forall x, live (kv m) x -> x ∉ keys -> same_block (kv m) (kv m') x) /\
  untracked_allocations (kv m') = untracked_allocations (kv m) /\
  (heaps_wf (kv m) -> heaps_wf (kv m')) /\
  (counter_exact (kv m) -> counter_exact (kv m')) /\
  (fully_tracked (kv m) -> fully_tracked (kv m')).
Proof.
  induction keys as [| a keys IH]; intros m st0 Hor Hhigh Hnd Hin Hlive Hline.
  - simpl. rewrite app_nil_r.
    do 5 (split; [done |]).
    split; [| do 2 (split; [done |]); done].
    intros x. split; [| by intros [_ ?]].
    intros ?. split; [apply not_elem_of_nil | done].
  - apply NoDup_cons in Hnd as [Hna Hnd].
    destruct (Hin a ltac:(left)) as [info Hinfo].
    pose proof (Hlive a ltac:(by eexists)) as Hla.
    pose proof Hla as [Hza _].
    pose proof (origin_implies_enabled Hor) as Hen.
    assert (report_and_free a m =
            set_kv (uvm_kvfree a)
              (printk [leaked_block (uvm_kvsize (kv m) a) (kbasename (file info))
                         (line info) (function info) a] m)) as Hstep
      by (unfold report_and_free; by rewrite Hinfo).
    set (m1 := report_and_free a m) in *.
    assert (kv m1 = uvm_kvfree a (kv m)) as Hkv by (by rewrite Hstep).
    assert (allocation_info (kv m1) = delete a (allocation_info (kv m))) as Htab
      by (rewrite Hkv; by apply kvfree_table).
    destruct (uvm_kvfree_removed a (kv m) Hhigh Hla) as (Hl1 & Hsame1 & Hout1).
    rewrite <- Hkv in Hl1, Hsame1, Hout1.
    assert (forall k, k ∈ keys -> k <> a) as Hne
      by (intros k Hk ->; done).
    assert (forall k, k ∈ keys -> leak_line (kv m1) k = leak_line (kv m) k)
      as Hline1.
    { intros k Hk. unfold leak_line. rewrite Htab.
      rewrite lookup_delete_ne by (by apply not_eq_sym, Hne).
      destruct (allocation_info (kv m) !! k) eqn:Hk'; [| done].
      destruct (Hsame1 k) as [-> _]; [apply Hlive; by eexists | by apply Hne |].
      done. }
    specialize (IH m1 st0 Hor Hhigh Hnd).
    destruct IH as (I1 & I2 & I3 & I4 & I5 & I6 & I7 & I8 & I9 & I10 & I11).
    { intros k Hk. rewrite Htab, lookup_delete_ne by (by apply not_eq_sym, Hne).
      apply Hin. by right. }
    { intros k. rewrite Htab. intros [x Hx].
      apply lookup_delete_Some in Hx as [Hka Hx].
      apply Hl1. split; [done |]. apply Hlive. by eexists. }
    { intros k Hk. rewrite Hline1 by done. apply Hline. by right. }
    change (exit_loop (a :: keys) m) with (exit_loop keys m1). cbv zeta.
    split; [by rewrite I1, Hstep |]. split; [by rewrite I2, Hstep |].
    split; [by rewrite I3, Hstep |].
    split.
    { rewrite I4. simpl. rewrite <- (Hline a) by (by left).
      unfold leak_line at 2. rewrite Hinfo, Hstep. simpl.
      by rewrite <- app_assoc. }
    split.
    { intros x. rewrite I5, Htab.
      destruct (decide (x = a)) as [-> | Hxa].
      - destruct (decide (a ∈ a :: keys)) as [_ | Hn];
          [| exfalso; apply Hn; by left].
        destruct (decide (a ∈ keys)); [done | apply lookup_delete_eq].
      - rewrite lookup_delete_ne by done.
        destruct (decide (x ∈ keys)) as [Hx | Hx];
          destruct (decide (x ∈ a :: keys)) as [Hx' | Hx']; try done.
        + exfalso. apply Hx'. by right.
        + apply elem_of_cons in Hx' as [? | ?]; done. }
    split.
    { intros x. rewrite I6, Hl1. rewrite not_elem_of_cons. tauto. }
    split.
    { intros x Hx Hnx. apply not_elem_of_cons in Hnx as [Hxa Hnx].
      eapply same_block_trans; [by apply Hsame1 |].
      apply I7; [| done]. apply Hl1. done. }
    split.
    { rewrite I8, Hkv.
      unfold uvm_kvfree, alloc_tracking_remove, remove_info.
      assert ((a =? NULL) = false) as -> by (apply N.eqb_neq; intros ->; done).
      rewrite Hen, Hza, Hor. simpl. rewrite Hinfo. simpl.
      unfold kfree, vfree. rewrite Hza. by destruct (is_vmalloc_addr a). }
    split.
    { intros Hwf. apply I9. rewrite Hkv. by apply kvfree_wf. }
    split.
    { intros Hex. apply I10. rewrite Hkv.
      apply (call_keeps_counter (call_kvfree a) (kv m)); try done. by right. }
    { intros Htr. apply I11. rewrite Hkv.
      apply (call_keeps_tracked (call_kvfree a) (kv m)); try done. by right. }
Qed.

(** No block lives in well-formed heaps without a live allocation. *)
Lemma nothing_live_empty st :
  vmalloc_window_high -> heaps_wf st -> (forall x, ~ live st x) ->
  kmalloc_objs st = ∅ /\ vmalloc_areas st = ∅.
Proof.
  intros Hhigh [Hk Hv] Hno. split; apply map_empty; intros a;
    apply eq_None_not_Some; intros Hsome.
  - destruct (Hk a Hsome) as [Hva Hza]. apply (Hno a).
    split; [done |]. by rewrite Hva.
  - pose proof (Hv a Hsome) as Hva. apply (Hno (a + sizeof_hdr)).
    split; [by apply (high_not_sentinel _ Hhigh) |].
    by rewrite Hva, get_hdr_add.
Qed.

Lemma outstanding_empty st :
  kmalloc_objs st = ∅ -> vmalloc_areas st = ∅ -> outstanding_bytes st = 0.
Proof.
  intros Hk Hv. unfold outstanding_bytes. rewrite Hk, Hv.
  by rewrite !map_fold_empty.
Qed.

(** The module after shutdown, when it was initialised under origin
    tracking. *)
Lemma exit_unfold m :
  leak_check_origin = true -> g_malloc_initialized m = true ->
  let m1 := if (0 <? bytes_allocated (kv m))%Z
            then set_unload_state
                   (fun w => N.lor w UVM_TEST_UNLOAD_STATE_MEMORY_LEAK)
                   (printk (leak_header (kv m)) m)
            else m in
  uvm_kvmalloc_exit m =
    set_g_malloc_initialized false
      (set_info_cache false
         (exit_loop (uvm_rb_tree_keys (allocation_info (kv m))) m1)) /\
  kv m1 = kv m /\ log m1 = log m ++ leak_header (kv m) /\
  g_malloc_initialized m1 = true.
Proof.
  intros Hor Hinit. cbv zeta. unfold uvm_kvmalloc_exit, leak_header.
  rewrite Hinit, Hor. simpl.
  destruct (0 <? bytes_allocated (kv m))%Z; simpl.
  - done.
  - by rewrite app_nil_r.
Qed.

End Shutdown.

Section Sessions.
Context {cfg : Config} {flags : TestFlags}.

(** X1: an allocation that is served by a sound grant and yields a real
    pointer adds exactly one block: what was live keeps its size and bytes,
    and the new block has at least the requested size.  With the zeroing
    variant every byte of the new block is zero; its first [n] bytes are zero
    when [sizeof_hdr + n] fits [size_t] (beyond that the length handed to
    vzalloc wraps and the block is shorter than the request). *)
Theorem kvmalloc_adds_block z n f l fn e st p st' :
  vmalloc_window_high -> fresh_grant n (mem e) st ->
  __uvm_kvmalloc_with z n f l fn e st = (p, st') ->
  ZERO_OR_NULL_PTR p = false ->
  heap_added p st st' /\ n <= uvm_kvsize st' p /\
  (z = true ->
   Forall (fun b => b = Byte.x00) (payload st' p) /\
   (sizeof_hdr + n < SIZE_MAX_plus_1 ->
    take (N.to_nat n) (payload st' p) = zeros n)).
Proof.
  intros Hhigh Hg Hrun Hz.
  destruct (kvmalloc_with_heaps z n f l fn e st) as (Hp & Hk & Hv).
  rewrite Hrun in Hp, Hk, Hv. simpl in Hp, Hk, Hv.
  destruct (alloc_internal n z (mem e) st) as [q s] eqn:Hal.
  simpl in *. subst q.
  destruct (alloc_internal_added _ _ _ _ _ _ Hhigh Hg Hal Hz)
    as (Hadd & Hcap & Hzero).
  split; [by apply (heap_added_heap p st s) |].
  rewrite (uvm_kvsize_heap st' s p Hk Hv), (payload_heap st' s p Hk Hv).
  split; [done |]. intros ->. split; [| by apply Hzero].
  by apply (alloc_internal_zeroed n (mem e) st).
Qed.

(** An allocation that fails changes nothing. *)
Lemma kvmalloc_failure_changes_nothing z n f l fn e st st' :
  reply_wf (mem e) ->
  __uvm_kvmalloc_with z n f l fn e st = (NULL, st') ->
  st' = st /\ n <> 0.
Proof.
  intros Hwf Hrun. unfold __uvm_kvmalloc_with in Hrun.
  destruct (alloc_internal n z (mem e) st) as [q s] eqn:Hal.
  assert (q = NULL) as ->
    by (by destruct (leak_check_enabled && negb (q =? NULL)); injection Hrun).
  rewrite andb_false_r in Hrun. injection Hrun as <-.
  split; [by eapply alloc_internal_null |].
  intros ->. unfold alloc_internal in Hal.
  rewrite (proj2 (N.leb_le 0 UVM_KMALLOC_THRESHOLD) (N.le_0_l _)) in Hal.
  done.
Qed.

(** X2: freeing a live allocation removes exactly that block. *)
Theorem kvfree_removes_block p st :
  vmalloc_window_high -> live st p ->
  heap_removed p st (uvm_kvfree p st) /\
  ~ live (uvm_kvfree p st) p /\
  released p (uvm_kvfree p st).
Proof.
  intros Hhigh Hl. pose proof Hl as [Hz _].
  pose proof (uvm_kvfree_removed p st Hhigh Hl) as Hrem.
  split; [done |]. split; [| by apply uvm_kvfree_released].
  destruct Hrem as (Hlive & _). rewrite Hlive. by intros [? _].
Qed.

(** X3: a successful reallocation moves exactly one block. *)
Theorem kvrealloc_moves_block p n f l fn e st q st' :
  vmalloc_window_high ->
  live st p -> realloc_grant p n (mem e) st -> n <> 0 ->
  __uvm_kvrealloc p n f l fn e st = (q, st') -> q <> NULL ->
  heap_moved p q st st' /\ ZERO_OR_NULL_PTR q = false.
Proof.
  intros Hhigh Hl Hg Hn Hrun Hq.
  by destruct (kvrealloc_moved _ _ _ _ _ _ _ _ _ Hhigh Hl Hg Hn Hrun Hq)
    as (? & ? & _).
Qed.

(** X6: a request for zero bytes yields the zero-size pointer and no block. *)
Theorem kvmalloc_zero_size z f l fn e st :
  vmalloc_window_high ->
  __uvm_kvmalloc_with z 0 f l fn e st = (ZERO_SIZE_PTR, st) /\
  uvm_kvsize st ZERO_SIZE_PTR = 0 /\
  ~ live st ZERO_SIZE_PTR /\
  uvm_kvfree ZERO_SIZE_PTR st = st /\
  (forall n, __uvm_kvrealloc ZERO_SIZE_PTR n f l fn e st =
             __uvm_kvmalloc n f l fn e st).
Proof.
  intros Hhigh.
  assert (ZERO_OR_NULL_PTR ZERO_SIZE_PTR = true) as Hz by done.
  pose proof (sentinel_not_vmalloc _ Hhigh Hz) as Hv.
  split; [| split; [| split; [| split]]].
  - unfold __uvm_kvmalloc_with, alloc_internal.
    rewrite (proj2 (N.leb_le 0 UVM_KMALLOC_THRESHOLD) (N.le_0_l _)).
    simpl. unfold alloc_tracking_add. rewrite Hz.
    by destruct leak_check_enabled.
  - unfold uvm_kvsize, ksize. by rewrite Hv, Hz.
  - intros [H _]. congruence.
  - by apply kvfree_sentinel.
  - intros n. by apply kvrealloc_sentinel.
Qed.

(** X7: reallocating a vmalloc allocation to its own size is the identity on
    the heaps, whatever the kernel would answer. *)
Theorem kvrealloc_same_size_vmalloc p n f l fn e st :
  vmalloc_window_high ->
  is_vmalloc_addr p = true -> n <> 0 -> uvm_kvsize st p = n ->
  let r := __uvm_kvrealloc p n f l fn e st in
  r.1 = p /\
  kmalloc_objs r.2 = kmalloc_objs st /\ vmalloc_areas r.2 = vmalloc_areas st /\
  same_block st r.2 p.
Proof.
  intros Hhigh Hv Hn Hsz. cbv zeta.
  destruct (high_not_sentinel p Hhigh Hv) as [Hz _].
  destruct (kvrealloc_heaps p n f l fn e st Hz) as (Hq & Hk & Hva).
  assert (realloc_dispatch p n (mem e) st = (p, st)) as Hd.
  { unfold realloc_dispatch, realloc_from_vmalloc. rewrite Hv.
    apply N.eqb_neq in Hn as ->.
    unfold uvm_kvsize in Hsz. rewrite Hv in Hsz. rewrite Hsz.
    by rewrite N.eqb_refl. }
  rewrite Hd in Hq, Hk, Hva. simpl in Hq, Hk, Hva.
  split; [done |]. split; [done |]. split; [done |].
  split; [by apply uvm_kvsize_heap | by apply payload_heap].
Qed.

(** ** Clients *)

Lemma calls_keep_wf cs : forall st,
  vmalloc_window_high -> heaps_wf st -> calls_ok cs st ->
  heaps_wf (run_calls cs st).
Proof.
  induction cs as [| c cs IH]; intros st Hhigh Hwf Hok; [done |].
  destruct Hok as [Hc Hcs]. simpl. apply IH; [done | | done].
  by apply call_keeps_wf.
Qed.

Lemma calls_keep_sound cs : forall st,
  leak_check_origin = true -> vmalloc_window_high ->
  tracker_sound st -> calls_ok cs st -> Forall call_tracked cs ->
  tracker_sound (run_calls cs st).
Proof.
  induction cs as [| c cs IH]; intros st Hor Hhigh Hs Hok Htr; [done |].
  destruct Hok as [Hc Hcs]. apply Forall_cons in Htr as [Htc Htcs].
  destruct Hs as (Hwf & Hex & Hft).
  simpl. apply IH; try done.
  split; [by apply call_keeps_wf |].
  split; [apply call_keeps_counter; try done; by apply origin_implies_enabled |].
  by apply call_keeps_tracked.
Qed.

(** X8: with the leak checker on, the byte counter is the sum of the sizes of
    the live blocks after every sequence of calls within the contract. *)
Theorem client_keeps_counter_exact cs : forall st,
  leak_check_enabled = true -> vmalloc_window_high ->
  counter_exact st -> calls_ok cs st ->
  counter_exact (run_calls cs st).
Proof.
  induction cs as [| c cs IH]; intros st Hen Hhigh Hex Hok; [done |].
  destruct Hok as [Hc Hcs]. simpl. apply IH; try done.
  by apply call_keeps_counter.
Qed.

(** X9: under origin tracking, the table has a record for exactly the live
    allocations after every sequence of calls whose info nodes could be
    allocated. *)
Theorem client_keeps_origin_table cs : forall st,
  leak_check_origin = true -> vmalloc_window_high ->
  fully_tracked st -> calls_ok cs st -> Forall call_tracked cs ->
  fully_tracked (run_calls cs st).
Proof.
  induction cs as [| c cs IH]; intros st Hor Hhigh Hft Hok Htr; [done |].
  destruct Hok as [Hc Hcs]. apply Forall_cons in Htr as [Htc Htcs].
  simpl. apply IH; try done.
  by apply call_keeps_tracked.
Qed.

(** ** Shutdown *)

Lemma exit_loop_frame keys : forall m,
  g_malloc_initialized (exit_loop keys m) = g_malloc_initialized m /\
  info_cache (exit_loop keys m) = info_cache m /\
  unload_state (exit_loop keys m) = unload_state m.
Proof.
  induction keys as [| a keys IH]; intros m; [done |].
  change (exit_loop (a :: keys) m) with (exit_loop keys (report_and_free a m)).
  destruct (IH (report_and_free a m)) as (-> & -> & ->).
  unfold report_and_free. by destruct (allocation_info (kv m) !! a).
Qed.

(** The shutdown of a module whose leak checker is sound. *)
Lemma exit_sound m :
  leak_check_origin = true -> vmalloc_window_high ->
  g_malloc_initialized m = true ->
  (forall k, is_Some (allocation_info (kv m) !! k) -> live (kv m) k) ->
  let keys := uvm_rb_tree_keys (allocation_info (kv m)) in
  let m' := uvm_kvmalloc_exit m in
  g_malloc_initialized m' = false /\ info_cache m' = false /\
  log m' = log m ++ leak_header (kv m) ++ flat_map (leak_line (kv m)) keys /\
  allocation_info (kv m') = ∅ /\
  (forall x, live (kv m') x <-> allocation_info (kv m) !! x = None /\ live (kv m) x) /\
  (forall x, live (kv m') x -> same_block (kv m) (kv m') x) /\
  (tracker_sound (kv m) ->
   kmalloc_objs (kv m') = ∅ /\ vmalloc_areas (kv m') = ∅ /\
   bytes_allocated (kv m') = 0%Z).
Proof.
  intros Hor Hhigh Hinit Hlive. cbv zeta.
  destruct (exit_unfold m Hor Hinit) as (-> & Hkv & Hlog & Hinit1).
  cbv zeta in Hkv, Hlog, Hinit1.
  match goal with
  | |- context [exit_loop _ ?X] => set (m1 := X) in *
  end.
  set (keys := uvm_rb_tree_keys (allocation_info (kv m))).
  destruct (exit_loop_spec keys m1 (kv m) Hor Hhigh)
    as (I1 & I2 & I3 & I4 & I5 & I6 & I7 & I8 & I9 & I10 & I11).
  { apply uvm_rb_tree_keys_nodup. }
  { intros k Hk. rewrite Hkv. by apply uvm_rb_tree_keys_elem. }
  { by rewrite Hkv. }
  { by rewrite Hkv. }
  cbv zeta in *. simpl.
  assert (allocation_info (kv (exit_loop keys m1)) = ∅) as Hempty.
  { apply map_empty. intros x. rewrite I5.
    destruct (decide (x ∈ keys)) as [Hx | Hx]; [done |].
    rewrite Hkv. apply eq_None_not_Some. intros Hs. apply Hx.
    by apply uvm_rb_tree_keys_elem. }
  assert (forall x, x ∉ keys <-> allocation_info (kv m) !! x = None) as Hkeys.
  { intros x. unfold keys. rewrite uvm_rb_tree_keys_elem.
    by rewrite eq_None_not_Some. }
  split; [done |]. split; [done |].
  split; [by rewrite I4, Hlog, <- app_assoc |].
  split; [done |].
  split; [intros x; by rewrite I6, Hkv, Hkeys |].
  split.
  { intros x Hx. apply I6 in Hx as [Hnk Hx]. rewrite Hkv in Hx.
    rewrite <- Hkv at 1. apply I7; [by rewrite Hkv | done]. }
  intros (Hwf & Hex & Hft). rewrite Hkv in I9, I10, I11.
  assert (forall x, ~ live (kv (exit_loop keys m1)) x) as Hno.
  { intros x Hx. apply (I11 Hft) in Hx. rewrite Hempty in Hx.
    destruct Hx as [? Hx]. by rewrite lookup_empty in Hx. }
  destruct (nothing_live_empty _ Hhigh (I9 Hwf) Hno) as [Hk Hv].
  split; [done |]. split; [done |].
  rewrite (I10 Hex), (outstanding_empty _ Hk Hv). done.
Qed.

(** X10: shutdown frees every allocation that is still live and brings the
    byte counter to zero. *)
Theorem kvmalloc_exit_frees_every_leak m :
  leak_check_origin = true -> vmalloc_window_high ->
  g_malloc_initialized m = true -> tracker_sound (kv m) ->
  let m' := uvm_kvmalloc_exit m in
  kmalloc_objs (kv m') = ∅ /\ vmalloc_areas (kv m') = ∅ /\
  allocation_info (kv m') = ∅ /\ bytes_allocated (kv m') = 0%Z /\
  (forall p, ~ live (kv m') p) /\
  g_malloc_initialized m' = false /\ info_cache m' = false.
Proof.
  intros Hor Hhigh Hinit Hs. cbv zeta.
  assert (forall k, is_Some (allocation_info (kv m) !! k) -> live (kv m) k)
    as Hlive by (intros k; by apply Hs).
  destruct (exit_sound m Hor Hhigh Hinit Hlive)
    as (H1 & H2 & _ & H4 & H5 & _ & H7).
  destruct (H7 Hs) as (Hk & Hv & Hb).
  repeat split; try done.
  intros p Hp. apply H5 in Hp as [Hnone Hp].
  destruct Hs as (_ & _ & Hft). apply Hft in Hp. rewrite Hnone in Hp.
  by destruct Hp.
Qed.

(** X11: shutdown prints the header when bytes are outstanding, then one line
    per record of the table, in ascending address order, with the size and
    the origin of the allocation. *)
Theorem kvmalloc_exit_reports_every_leak m :
  leak_check_origin = true -> vmalloc_window_high ->
  g_malloc_initialized m = true ->
  (forall k, is_Some (allocation_info (kv m) !! k) -> live (kv m) k) ->
  let keys := uvm_rb_tree_keys (allocation_info (kv m)) in
  log (uvm_kvmalloc_exit m) =
    log m ++ leak_header (kv m) ++ flat_map (leak_line (kv m)) keys /\
  Sorted N.le keys /\ NoDup keys /\
  (forall k, k ∈ keys <-> is_Some (allocation_info (kv m) !! k)).
Proof.
  intros Hor Hhigh Hinit Hlive. cbv zeta.
  destruct (exit_sound m Hor Hhigh Hinit Hlive) as (_ & _ & H3 & _).
  split; [done |].
  split; [apply uvm_rb_tree_keys_sorted |].
  split; [apply uvm_rb_tree_keys_nodup |].
  intros k. apply uvm_rb_tree_keys_elem.
Qed.

(** X12: shutdown sets the leak flag in the unload-state word exactly when
    bytes are outstanding, and leaves the word alone otherwise. *)
Theorem kvmalloc_exit_flags_leak m :
  g_malloc_initialized m = true ->
  unload_state (uvm_kvmalloc_exit m) =
    (if (0 <? bytes_allocated (kv m))%Z
     then (fun w => N.lor w UVM_TEST_UNLOAD_STATE_MEMORY_LEAK) <$> unload_state m
     else unload_state m) /\
  g_malloc_initialized (uvm_kvmalloc_exit m) = false.
Proof.
  intros Hinit. unfold uvm_kvmalloc_exit. rewrite Hinit. simpl.
  split; [| done].
  destruct leak_check_origin; simpl.
  - match goal with
    | |- context [exit_loop ?ks ?X] =>
        destruct (exit_loop_frame ks X) as (_ & _ & Hu)
    end.
    rewrite Hu.
    by destruct (0 <? bytes_allocated (kv m))%Z.
  - by destruct (0 <? bytes_allocated (kv m))%Z.
Qed.

(** Shutdown does nothing to a module that is not initialised: after a
    failed start-up, and when it runs a second time. *)
Lemma kvmalloc_exit_needs_init m :
  uvm_kvmalloc_exit (uvm_kvmalloc_exit m) = uvm_kvmalloc_exit m /\
  (forall cache_ok status m',
     g_malloc_initialized m = false ->
     uvm_kvmalloc_init cache_ok m = (status, m') -> status <> Uvm.NV_OK ->
     leak_check_origin = true /\ cache_ok = false /\
     status = Uvm.NV_ERR_NO_MEMORY /\ uvm_kvmalloc_exit m' = m').
Proof.
  split.
  - destruct (g_malloc_initialized m) eqn:Hinit.
    + assert (g_malloc_initialized (uvm_kvmalloc_exit m) = false) as H.
      { unfold uvm_kvmalloc_exit. by rewrite Hinit. }
      unfold uvm_kvmalloc_exit at 1. by rewrite H.
    + assert (uvm_kvmalloc_exit m = m) as H
        by (unfold uvm_kvmalloc_exit; by rewrite Hinit).
      by rewrite !H.
  - intros cache_ok status m' Hinit Hrun Hst.
    unfold uvm_kvmalloc_init in Hrun.
    destruct leak_check_origin; [| by injection Hrun as <- _].
    destruct cache_ok; simpl in Hrun; [by injection Hrun as <- _ |].
    injection Hrun as <- <-. repeat split.
    unfold uvm_kvmalloc_exit. simpl. by rewrite Hinit.
Qed.

(** X13: a session from start-up to shutdown leaves nothing behind: whatever
    the client has not freed is reported with its size and origin, and
    freed. *)
Theorem kvmalloc_session_leaves_nothing cs m0 status m1 :
  leak_check_origin = true -> vmalloc_window_high ->
  kmalloc_objs (kv m0) = ∅ -> vmalloc_areas (kv m0) = ∅ ->
  bytes_allocated (kv m0) = 0%Z ->
  uvm_kvmalloc_init true m0 = (status, m1) ->
  calls_ok cs (kv m1) -> Forall call_tracked cs ->
  let m2 := set_kv (run_calls cs) m1 in
  let m3 := uvm_kvmalloc_exit m2 in
  status = Uvm.NV_OK /\
  (forall p, live (kv m2) p ->
     exists info,
       allocation_info (kv m2) !! p = Some info /\
       leaked_block (uvm_kvsize (kv m2) p) (kbasename (file info)) (line info)
         (function info) p ∈ log m3) /\
  kmalloc_objs (kv m3) = ∅ /\ vmalloc_areas (kv m3) = ∅ /\
  bytes_allocated (kv m3) = 0%Z /\
  g_malloc_initialized m3 = false.
Proof.
  intros Hor Hhigh Hk0 Hv0 Hb0 Hinit Hok Htr. cbv zeta.
  unfold uvm_kvmalloc_init in Hinit. rewrite Hor in Hinit. simpl in Hinit.
  injection Hinit as <- <-. simpl in Hok.
  set (st1 := set_allocation_info (fun _ => ∅) (kv m0)) in *.
  assert (forall x, ~ live st1 x) as Hno.
  { intros x [_ Hx]. unfold st1 in Hx. simpl in Hx. rewrite Hk0, Hv0 in Hx.
    destruct (is_vmalloc_addr x); destruct Hx as [? Hx];
      by rewrite lookup_empty in Hx. }
  assert (tracker_sound st1) as Hs1.
  { split; [| split].
    - split; intros a [x Hx]; unfold st1 in Hx; simpl in Hx.
      + by rewrite Hk0, lookup_empty in Hx.
      + by rewrite Hv0, lookup_empty in Hx.
    - unfold counter_exact. unfold st1 at 1. simpl. rewrite Hb0.
      rewrite (outstanding_empty st1) by done. done.
    - intros x. split; [| by intros ?%Hno].
      unfold st1. simpl. intros [? Hx]. by rewrite lookup_empty in Hx. }
  pose proof (calls_keep_sound cs st1 Hor Hhigh Hs1 Hok Htr) as Hs2.
  set (m2 := set_kv (run_calls cs) _).
  assert (kv m2 = run_calls cs st1) as Hkv2 by done.
  assert (g_malloc_initialized m2 = true) as Hinit2 by done.
  rewrite <- Hkv2 in Hs2.
  assert (forall k, is_Some (allocation_info (kv m2) !! k) -> live (kv m2) k)
    as Hlive by (intros k; by apply Hs2).
  destruct (exit_sound m2 Hor Hhigh Hinit2 Hlive)
    as (H1 & _ & H3 & _ & _ & _ & H7).
  destruct (H7 Hs2) as (Hk & Hv & Hb).
  split; [done |]. split; [| done].
  intros p Hp. destruct Hs2 as (_ & _ & Hft).
  apply Hft in Hp as [info Hinfo]. exists info. split; [done |].
  rewrite H3. apply elem_of_app. right. apply elem_of_app. right.
  apply list_elem_of_In, in_flat_map. exists p. split.
  - apply list_elem_of_In, uvm_rb_tree_keys_elem. by eexists.
  - unfold leak_line. rewrite Hinfo. by left.
Qed.

End Sessions.

(** ** The sample configuration *)

Lemma sample_window_high : vmalloc_window_high (cfg := sample_config).
Proof.
  intros p H. simpl in H. apply andb_true_iff in H as [H _].
  apply N.leb_le in H. unfold VMALLOC_START in H.
  unfold ZERO_SIZE_PTR, sizeof_hdr. lia.
Qed.

Lemma empty_state_sound : tracker_sound (cfg := sample_config) empty_state.
Proof.
  split; [| split].
  - split; intros a [x Hx]; simpl in Hx; by rewrite lookup_empty in Hx.
  - reflexivity.
  - intros p. split.
    + intros [x Hx]. simpl in Hx. by rewrite lookup_empty in Hx.
    + intros [_ Hx].
      destruct (@is_vmalloc_addr sample_config p); destruct Hx as [x Hx];
        simpl in Hx; by rewrite lookup_empty in Hx.
Qed.

Lemma one_object_live : live (cfg := sample_config) one_object_state slab_addr.
Proof. split; [reflexivity |]. vm_compute. by eexists. Qed.

Lemma one_object_tracked_live k :
  is_Some (allocation_info one_object_state !! k) ->
  live (cfg := sample_config) one_object_state k.
Proof.
  intros [x Hx]. simpl in Hx. apply lookup_singleton_Some in Hx as [<- _].
  apply one_object_live.
Qed.

Lemma kvmalloc_adds_block_witness :
  exists st1,
    __uvm_kvmalloc_zero (cfg := sample_config) 100 "uvm.c" 1 "caller"
        (grant_slab 128) empty_state = (slab_addr, st1) /\
    heap_added (cfg := sample_config) slab_addr empty_state st1 /\
    100 <= uvm_kvsize (cfg := sample_config) st1 slab_addr /\
    Forall (fun b => b = Byte.x00) (payload (cfg := sample_config) st1 slab_addr) /\
    take 100 (payload (cfg := sample_config) st1 slab_addr) = zeros 100.
Proof.
  eexists. split; [vm_compute; reflexivity |].
  assert (fresh_grant (cfg := sample_config) 100 (mem (grant_slab 128))
            empty_state) as Hg.
  { simpl. repeat split; try reflexivity. lia. }
  destruct (kvmalloc_adds_block (cfg := sample_config) true 100 "uvm.c" 1
              "caller" (grant_slab 128) empty_state slab_addr _
              sample_window_high Hg eq_refl eq_refl) as (Ha & Hc & Hzero).
  destruct (Hzero eq_refl) as [Hall Hfirst].
  split; [exact Ha |]. split; [exact Hc |]. split; [exact Hall |].
  apply Hfirst. reflexivity.
Defined.

Lemma kvfree_removes_block_witness :
  heap_removed (cfg := sample_config) slab_addr one_object_state
    (uvm_kvfree (cfg := sample_config) slab_addr one_object_state) /\
  released (cfg := sample_config) slab_addr
    (uvm_kvfree (cfg := sample_config) slab_addr one_object_state).
Proof.
  destruct (kvfree_removes_block (cfg := sample_config) slab_addr
              one_object_state sample_window_high one_object_live)
    as (H1 & _ & H3).
  split; [exact H1 | exact H3].
Defined.

Lemma one_object_grant_area :
  realloc_grant (cfg := sample_config) slab_addr 32768 (mem grant_area)
    one_object_state.
Proof. vm_compute. repeat split; try reflexivity. discriminate. Qed.

Lemma kvrealloc_moves_block_witness :
  exists st1,
    __uvm_kvrealloc (cfg := sample_config) slab_addr 32768 "uvm.c" 2 "caller"
        grant_area one_object_state = (vmalloc_base + sizeof_hdr, st1) /\
    heap_moved (cfg := sample_config) slab_addr (vmalloc_base + sizeof_hdr)
      one_object_state st1.
Proof.
  eexists. split; [vm_compute; reflexivity |].
  assert (32768 <> 0) as Hn by discriminate.
  assert (vmalloc_base + sizeof_hdr <> NULL) as Hq by discriminate.
  exact (proj1 (kvrealloc_moves_block (cfg := sample_config) slab_addr 32768
                  "uvm.c" 2 "caller" grant_area one_object_state _ _
                  sample_window_high one_object_live one_object_grant_area
                  Hn eq_refl Hq)).
Defined.


Lemma kvrealloc_moves_tracking_witness :
  exists st1,
    __uvm_kvrealloc (cfg := sample_config) slab_addr 32768 "uvm.c" 2 "caller"
        grant_area one_object_state = (vmalloc_base + sizeof_hdr, st1) /\
    allocation_info st1 !! slab_addr = None /\
    allocation_info st1 !! (vmalloc_base + sizeof_hdr) =
      Some {| file := "uvm.c"; function := "caller"; line := 2 |}.
Proof.
  eexists. split; [vm_compute; reflexivity |].
  assert (32768 <> 0) as Hn by discriminate.
  assert (vmalloc_base + sizeof_hdr <> slab_addr) as Hne by discriminate.
  destruct (kvrealloc_moves_tracking (cfg := sample_config) slab_addr 32768
              "uvm.c" 2 "caller" grant_area one_object_state _ _
              eq_refl Hn eq_refl eq_refl eq_refl) as (_ & Ht).
  destruct (Ht eq_refl) as (_ & Hold & Hnew).
  split; [exact (Hold Hne) |].
  apply Hnew; [reflexivity |]. right. reflexivity.
Defined.

Lemma kvmalloc_zero_size_witness :
  __uvm_kvmalloc_zero (cfg := sample_config) 0 "uvm.c" 3 "caller" out_of_memory
      one_object_state = (ZERO_SIZE_PTR, one_object_state) /\
  uvm_kvfree (cfg := sample_config) ZERO_SIZE_PTR one_object_state =
    one_object_state.
Proof.
  destruct (kvmalloc_zero_size (cfg := sample_config) true "uvm.c" 3 "caller"
              out_of_memory one_object_state sample_window_high)
    as (H1 & _ & _ & H4 & _).
  split; [exact H1 | exact H4].
Defined.

Lemma kvrealloc_same_size_vmalloc_witness :
  (__uvm_kvrealloc (cfg := sample_config) (vmalloc_base + sizeof_hdr) 32768
     "uvm.c" 4 "caller" out_of_memory one_area_state).1 =
    vmalloc_base + sizeof_hdr /\
  vmalloc_areas
    (__uvm_kvrealloc (cfg := sample_config) (vmalloc_base + sizeof_hdr) 32768
       "uvm.c" 4 "caller" out_of_memory one_area_state).2 =
    vmalloc_areas one_area_state.
Proof.
  assert (32768 <> 0) as Hn by discriminate.
  destruct (kvrealloc_same_size_vmalloc (cfg := sample_config)
              (vmalloc_base + sizeof_hdr) 32768 "uvm.c" 4 "caller"
              out_of_memory one_area_state sample_window_high eq_refl Hn
              eq_refl) as (H1 & _ & H3 & _).
  split; [exact H1 | exact H3].
Defined.

Lemma sample_calls_ok : calls_ok (cfg := sample_config) sample_calls empty_state.
Proof.
  split; [| split; [| split; [| exact I]]].
  - simpl. repeat split; try reflexivity. lia.
  - right. split.
    + split; [reflexivity |]. vm_compute. by eexists.
    + vm_compute. repeat split; try reflexivity. discriminate.
  - right. split; [reflexivity |]. vm_compute. by eexists.
Qed.

Lemma leaking_calls_ok : calls_ok (cfg := sample_config) leaking_calls empty_state.
Proof.
  split; [| exact I]. simpl. repeat split; try reflexivity. lia.
Qed.

Lemma client_keeps_counter_exact_witness :
  calls_ok (cfg := sample_config) sample_calls empty_state /\
  counter_exact
    (run_calls (cfg := sample_config) sample_calls empty_state).
Proof.
  split; [exact sample_calls_ok |].
  assert (leak_check_enabled (cfg := sample_config) = true) as Hen
    by reflexivity.
  assert (counter_exact empty_state) as Hex by reflexivity.
  exact (client_keeps_counter_exact (cfg := sample_config) sample_calls
           empty_state Hen sample_window_high Hex sample_calls_ok).
Defined.

Lemma client_keeps_origin_table_witness :
  calls_ok (cfg := sample_config) leaking_calls empty_state /\
  fully_tracked (cfg := sample_config)
    (run_calls (cfg := sample_config) leaking_calls empty_state).
Proof.
  split; [exact leaking_calls_ok |].
  assert (Forall call_tracked leaking_calls) as Ht
    by (repeat constructor).
  assert (leak_check_origin (cfg := sample_config) = true) as Hor
    by reflexivity.
  exact (client_keeps_origin_table (cfg := sample_config) leaking_calls
           empty_state Hor sample_window_high
           (proj2 (proj2 empty_state_sound)) leaking_calls_ok Ht).
Defined.

Lemma leaking_module_sound : tracker_sound (cfg := sample_config) (kv leaking_module).
Proof.
  assert (Forall call_tracked leaking_calls) as Ht by (repeat constructor).
  exact (calls_keep_sound (cfg := sample_config) leaking_calls empty_state
           eq_refl sample_window_high empty_state_sound leaking_calls_ok Ht).
Qed.

Lemma kvmalloc_exit_frees_every_leak_witness :
  bytes_allocated (kv leaking_module) = 128%Z /\
  kmalloc_objs
    (kv (uvm_kvmalloc_exit (cfg := sample_config) (flags := sample_flags)
           leaking_module)) = ∅ /\
  bytes_allocated
    (kv (uvm_kvmalloc_exit (cfg := sample_config) (flags := sample_flags)
           leaking_module)) = 0%Z.
Proof.
  split; [reflexivity |].
  destruct (kvmalloc_exit_frees_every_leak (cfg := sample_config)
              (flags := sample_flags) leaking_module eq_refl
              sample_window_high eq_refl leaking_module_sound)
    as (H1 & _ & _ & H4 & _).
  split; [exact H1 | exact H4].
Defined.

Lemma kvmalloc_exit_reports_every_leak_witness :
  log (uvm_kvmalloc_exit (cfg := sample_config) (flags := sample_flags)
         one_object_module) =
    [leak_banner; leak_summary 128 false; leak_banner;
     leaked_block 128 "uvm.c" 74 "uvm_service_block_context_init" slab_addr].
Proof.
  destruct (kvmalloc_exit_reports_every_leak (cfg := sample_config)
              (flags := sample_flags) one_object_module eq_refl
              sample_window_high eq_refl one_object_tracked_live)
    as (H1 & _).
  rewrite H1. vm_compute. reflexivity.
Defined.

Lemma kvmalloc_exit_flags_leak_witness :
  unload_state (uvm_kvmalloc_exit (cfg := sample_config) (flags := sample_flags)
                  one_object_module) = Some 5.
Proof.
  destruct (kvmalloc_exit_flags_leak (cfg := sample_config)
              (flags := sample_flags) one_object_module eq_refl) as (H1 & _).
  rewrite H1. reflexivity.
Defined.

Lemma kvmalloc_session_leaves_nothing_witness :
  calls_ok (cfg := sample_config) leaking_calls empty_state /\
  bytes_allocated
    (kv (uvm_kvmalloc_exit (cfg := sample_config) (flags := sample_flags)
           (set_kv (run_calls (cfg := sample_config) leaking_calls)
              (uvm_kvmalloc_init (cfg := sample_config) true module_at_load).2)))
    = 0%Z.
Proof.
  split; [exact leaking_calls_ok |].
  assert (Forall call_tracked leaking_calls) as Ht by (repeat constructor).
  destruct (kvmalloc_session_leaves_nothing (cfg := sample_config)
              (flags := sample_flags) leaking_calls module_at_load _ _
              eq_refl sample_window_high eq_refl eq_refl eq_refl eq_refl
              leaking_calls_ok Ht) as (_ & _ & _ & _ & Hb & _).
  exact Hb.
Defined.

End KvmallocLifeProofs.

(* ===================================================================== *)
(** * Part II-d. Locks, mappings and the life of the module in uvm.c    *)
(* ===================================================================== *)

Module UvmLifeProofs.
Import Uvm UvmProofs UvmLife UvmModule.

(** ** Composition of traces *)

Lemma lock_run_app h t1 t2 :
  lock_run h (t1 ++ t2) = lock_run h t1 ≫= fun h' => lock_run h' t2.
Proof.
  revert h. induction t1 as [| c t1 IH]; intros h; [done |].
  simpl. destruct (lock_step h c) as [h1 |]; simpl; [apply IH | done].
Qed.

Lemma locks_from_refl h w : locks_from h w h w.
Proof. exists []. by rewrite app_nil_r. Qed.

Lemma locks_from_trans h1 w1 h2 w2 h3 w3 :
  locks_from h1 w1 h2 w2 -> locks_from h2 w2 h3 w3 -> locks_from h1 w1 h3 w3.
Proof.
  intros (n1 & E1 & R1) (n2 & E2 & R2). exists (n1 ++ n2). split.
  - by rewrite E2, E1, app_assoc.
  - rewrite lock_run_app, R1. done.
Qed.

Lemma locks_from_emit h h' c w :
  lock_step h c = Some h' -> locks_from h w h' (emit c w).
Proof. intros H. exists [c]. split; [done |]. simpl. by rewrite H. Qed.

Lemma locks_from_same h w w' : trace w' = trace w -> locks_from h w h w'.
Proof. intros H. exists []. by rewrite app_nil_r. Qed.

Lemma locks_from_step h1 w1 h2 c h3 w :
  locks_from h1 w1 h2 w -> lock_step h2 c = Some h3 ->
  locks_from h1 w1 h3 (emit c w).
Proof.
  intros H1 H2. eapply locks_from_trans; [exact H1 |]. by apply locks_from_emit.
Qed.

Lemma locks_from_trace h1 w1 h2 w w' :
  locks_from h1 w1 h2 w -> trace w' = trace w -> locks_from h1 w1 h2 w'.
Proof.
  intros H1 H2. eapply locks_from_trans; [exact H1 |]. by apply locks_from_same.
Qed.

Lemma trace_wrapper_destroy wp w :
  trace (uvm_vma_wrapper_destroy wp w) = trace w.
Proof. unfold uvm_vma_wrapper_destroy. by destruct (wp =? 0). Qed.

(** A finite piece of trace that is checked by evaluation. *)
Ltac check_locks :=
  eexists; split;
  [simpl; rewrite ?trace_wrapper_destroy; simpl; rewrite <- ?app_assoc;
   reflexivity
  | reflexivity].

(** ** The fault handler *)

Lemma after_prologue_locks fault_addr status c a w :
  locks_from (in_loop status) w after_loop (after_prologue fault_addr status c a w).
Proof.
  unfold after_prologue.
  destruct (throttle_cases fault_addr status c a w)
    as [(Hm & _ & ->) | [(Hm & _ & ->) | (Hm & ->)]];
    unfold in_loop; rewrite Hm.
  - eexists. split; [simpl; by rewrite <- !app_assoc |]. done.
  - eexists. split; [simpl; by rewrite <- !app_assoc |]. done.
  - eexists. split; [done |]. done.
Qed.

Lemma fault_loop_locks fault_addr is_write atts : forall status c w s' c' w',
  fault_loop fault_addr is_write atts status c w = Some (s', c', w') ->
  locks_from (in_loop status) w after_loop w'.
Proof.
  induction atts as [| a rest IH]; intros status c w s' c' w' Hrun; [done |].
  rewrite fault_loop_unfold in Hrun. cbv zeta in Hrun.
  pose proof (after_prologue_locks fault_addr status c a w) as H0.
  set (w0 := after_prologue fault_addr status c a w) in *.
  assert (locks_from (in_loop status) w after_loop
            (emit (uvm_va_block_find_create_managed fault_addr
                     (find_create_status a)) w0)) as H1
    by (eapply locks_from_step; [exact H0 | reflexivity]).
  destruct (negb (is_ok (find_create_status a))).
  { by injection Hrun as _ _ <-. }
  match type of Hrun with
  | context [advance ?ns (emit ?e ?x)] =>
      assert (locks_from (in_loop status) w after_loop (advance ns (emit e x)))
        as H2
        by (apply (locks_from_trace _ _ _ (emit e x));
            [eapply locks_from_step; [exact H1 | reflexivity] | done])
  end.
  destruct (is_more_processing (cpu_fault a c).1) eqn:Hm.
  - eapply locks_from_trans; [exact H2 |].
    apply IH in Hrun. unfold in_loop in Hrun. by rewrite Hm in Hrun.
  - by injection Hrun as _ _ <-.
Qed.

Lemma uvm_vm_fault_service_locks fault_addr is_write e status c w ret w' :
  is_more_processing status = false ->
  uvm_vm_fault_service fault_addr is_write e status c w = Some (ret, w') ->
  locks_from (set_pm_lock true no_locks) w no_locks w'.
Proof.
  intros Hm Hrun. unfold uvm_vm_fault_service in Hrun.
  destruct (fault_loop _ _ _ _ _ _) as [[[s1 c1] w1] |] eqn:Hloop; [| done].
  apply fault_loop_locks in Hloop. unfold in_loop in Hloop. rewrite Hm in Hloop.
  assert (locks_from (set_pm_lock true no_locks) w after_loop w1) as H1.
  { eapply locks_from_trans; [| exact Hloop]. by apply locks_from_emit. }
  clear Hloop.
  destruct (is_ok s1) eqn:Hok; simpl in Hrun.
  - destruct (tools_enabled e); injection Hrun as _ <-;
      (eapply locks_from_trans; [exact H1 |]);
      (eexists; split; [simpl; rewrite <- ?app_assoc; reflexivity | done]).
  - destruct (tools_enabled e); injection Hrun as _ <-;
      (eapply locks_from_trans; [exact H1 |]);
      (eexists; split; [simpl; rewrite <- ?app_assoc; reflexivity | done]).
Qed.

(** X14: the fault handler respects the lock discipline on every path and
    holds nothing when it returns. *)
Theorem fault_lock_discipline fault_addr is_write e w ret w' :
  uvm_vm_fault fault_addr is_write e w = Some (ret, w') ->
  lock_balanced w w'.
Proof.
  unfold uvm_vm_fault, lock_balanced. intros Hrun.
  destruct (is_ok (global_status e)) eqn:Hok; simpl in Hrun;
    [| injection Hrun as _ <-; apply locks_from_refl].
  assert (is_more_processing (global_status e) = false) as Hm
    by (by destruct (global_status e)).
  destruct (pm_trylock e); simpl in Hrun.
  - unfold uvm_service_block_context_cpu_alloc in Hrun. simpl in Hrun.
    destruct (g_cpu_service_block_context_list w) as [| c rest].
    + destruct (fresh_context e) as [c |].
      * eapply locks_from_trans;
          [| eapply uvm_vm_fault_service_locks; [exact Hm | exact Hrun]].
        by apply locks_from_emit.
      * injection Hrun as _ <-. check_locks.
    + apply uvm_vm_fault_service_locks in Hrun; [| exact Hm].
      eapply locks_from_trans; [| exact Hrun].
      apply (locks_from_trace _ _ _ (emit (uvm_down_read_trylock_no_tracking true) w));
        [by apply locks_from_emit | done].
  - injection Hrun as _ <-. check_locks.
Qed.

(** ** The pool of service contexts *)

Lemma after_prologue_pool fault_addr status c a w :
  g_cpu_service_block_context_list (after_prologue fault_addr status c a w) =
    g_cpu_service_block_context_list w.
Proof.
  unfold after_prologue.
  by destruct (throttle_cases fault_addr status c a w)
    as [(_ & _ & ->) | [(_ & _ & ->) | (_ & ->)]].
Qed.

Lemma fault_loop_pool fault_addr is_write atts : forall status c w s' c' w',
  fault_loop fault_addr is_write atts status c w = Some (s', c', w') ->
  g_cpu_service_block_context_list w' = g_cpu_service_block_context_list w.
Proof.
  induction atts as [| a rest IH]; intros status c w s' c' w' Hrun; [done |].
  rewrite fault_loop_unfold in Hrun. cbv zeta in Hrun.
  pose proof (after_prologue_pool fault_addr status c a w) as H0.
  destruct (negb (is_ok (find_create_status a))).
  { by injection Hrun as _ _ <-. }
  destruct (is_more_processing (cpu_fault a c).1).
  - apply IH in Hrun. by rewrite Hrun.
  - by injection Hrun as _ _ <-.
Qed.

Lemma uvm_vm_fault_service_pool fault_addr is_write e status c w ret w' :
  uvm_vm_fault_service fault_addr is_write e status c w = Some (ret, w') ->
  exists c', g_cpu_service_block_context_list w' =
             c' :: g_cpu_service_block_context_list w.
Proof.
  unfold uvm_vm_fault_service. intros Hrun.
  destruct (fault_loop _ _ _ _ _ _) as [[[s1 c1] w1] |] eqn:Hloop; [| done].
  apply fault_loop_pool in Hloop. simpl in Hloop.
  exists c1. rewrite <- Hloop.
  by destruct (is_ok s1), (tools_enabled e); injection Hrun as _ <-.
Qed.

(** X15: a fault takes one context out of the pool, or a fresh one when the
    pool is empty, and puts it into the pool before it returns. *)
Theorem fault_returns_context fault_addr is_write e w ret w' :
  global_status e = NV_OK -> pm_trylock e = true ->
  uvm_vm_fault fault_addr is_write e w = Some (ret, w') ->
  let pool := g_cpu_service_block_context_list w in
  let pool' := g_cpu_service_block_context_list w' in
  (length pool <= length pool')%nat /\
  match pool, fresh_context e with
  | _ :: rest, _ => exists c', pool' = c' :: rest
  | [], Some _ => exists c', pool' = [c']
  | [], None =>
      pool' = [] /\ ret = VM_FAULT_OOM /\
      trace w' = trace w ++ [uvm_down_read_trylock_no_tracking true;
                             uvm_up_read_no_tracking]
  end.
Proof.
  intros Hg Hpm Hrun. cbv zeta. unfold uvm_vm_fault in Hrun.
  rewrite Hg, Hpm in Hrun. simpl in Hrun.
  unfold uvm_service_block_context_cpu_alloc in Hrun. simpl in Hrun.
  destruct (g_cpu_service_block_context_list w) as [| c rest] eqn:Hpool.
  - destruct (fresh_context e) as [c |].
    + apply uvm_vm_fault_service_pool in Hrun as [c' Hc']. simpl in Hc'.
      rewrite Hpool in Hc'. rewrite Hc'. split; [simpl; lia | by exists c'].
    + injection Hrun as <- <-. simpl. rewrite Hpool.
      split; [done |]. split; [done |]. split; [done |].
      by rewrite <- app_assoc.
  - apply uvm_vm_fault_service_pool in Hrun as [c' Hc']. simpl in Hc'.
    rewrite Hc'. split; [simpl; lia | by exists c'].
Qed.

(** ** The retry loop *)

(** X16: the retry loop returns as soon as an attempt is final, and attempts
    that the environment holds beyond that one play no part. *)
Theorem fault_loop_stops_at_final_attempt fault_addr is_write atts :
  forall status c w,
  Exists final_attempt atts ->
  exists r,
    fault_loop fault_addr is_write atts status c w = Some r /\
    forall more,
      fault_loop fault_addr is_write (atts ++ more) status c w = Some r.
Proof.
  induction atts as [| a rest IH]; intros status c w Hex.
  { by apply Exists_nil in Hex. }
  setoid_rewrite <- app_comm_cons. setoid_rewrite fault_loop_unfold. cbv zeta.
  destruct (negb (is_ok (find_create_status a))) eqn:Hfc.
  { eexists. split; [done | done]. }
  destruct (is_more_processing (cpu_fault a c).1) eqn:Hm.
  - apply IH. apply Exists_cons in Hex as [[Hf | Hf] | Hex]; [| | done].
    + apply negb_false_iff in Hfc. congruence.
    + by rewrite Hf in Hm.
  - eexists. split; [done | done].
Qed.

(** The tail of the handler after the retry loop. *)
Lemma uvm_vm_fault_service_outcome fault_addr is_write e status c w ret w' :
  uvm_vm_fault_service fault_addr is_write e status c w = Some (ret, w') ->
  exists s1 c1 w1 tail,
    fault_loop fault_addr is_write (attempts e) status c
      (emit (uvm_record_lock_mmap_lock false) w) = Some (s1, c1, w1) /\
    ret = convert_error (if is_ok s1 then ecc_status e else s1) (did_migrate c1) /\
    trace w' = trace w1 ++ tail /\
    if is_ok s1
    then In (uvm_global_mask_check_ecc_error (ecc_status e)) tail
    else In (uvm_tools_record_cpu_fatal_fault fault_addr is_write s1) tail.
Proof.
  unfold uvm_vm_fault_service. intros Hrun.
  destruct (fault_loop _ _ _ _ _ _) as [[[s1 c1] w1] |] eqn:Hloop; [| done].
  exists s1, c1, w1.
  destruct (is_ok s1) eqn:Hok, (tools_enabled e); simpl in Hrun;
    injection Hrun as <- <-;
    (eexists; split; [done |]; split; [done |]; split;
     [simpl; rewrite <- ?app_assoc; reflexivity | simpl; tauto]).
Qed.

(** X17: the handler reports a fault as resolved only after a clean ECC check
    of the GPUs involved, or when the servicing itself asks for a retry. *)
Theorem fault_resolved_only_with_clean_ecc fault_addr is_write e w ret w' :
  global_status e = NV_OK -> pm_trylock e = true ->
  uvm_vm_fault fault_addr is_write e w = Some (ret, w') ->
  N.land ret VM_FAULT_NOPAGE <> 0 ->
  exists new,
    trace w' = trace w ++ new /\
    ((In (uvm_global_mask_check_ecc_error (ecc_status e)) new /\
      (ecc_status e = NV_OK \/ ecc_status e = NV_ERR_BUSY_RETRY)) \/
     In (uvm_tools_record_cpu_fatal_fault fault_addr is_write NV_ERR_BUSY_RETRY)
        new).
Proof.
  intros Hg Hpm Hrun Hret. unfold uvm_vm_fault in Hrun.
  rewrite Hg, Hpm in Hrun. simpl in Hrun.
  destruct (uvm_service_block_context_cpu_alloc (fresh_context e) _)
    as [[c |] w0] eqn:Halloc.
  2: { injection Hrun as <- _. done. }
  assert (trace w0 = trace w ++ [uvm_down_read_trylock_no_tracking true]) as Hw0.
  { unfold uvm_service_block_context_cpu_alloc in Halloc. simpl in Halloc.
    by destruct (g_cpu_service_block_context_list w); injection Halloc as _ <-. }
  destruct (uvm_vm_fault_service_outcome _ _ _ _ _ _ _ _ Hrun)
    as (s1 & c1 & w1 & tail & Hloop & -> & Htr & Htail).
  apply fault_loop_continues in Hloop as (mid & Hmid & _).
  simpl in Hmid. rewrite Hw0 in Hmid.
  exists ([uvm_down_read_trylock_no_tracking true] ++
          [uvm_record_lock_mmap_lock false] ++ mid ++ tail).
  split; [rewrite Htr, Hmid; by rewrite <- !app_assoc |].
  destruct (is_ok s1) eqn:Hok.
  - left. split; [rewrite !in_app_iff; tauto |].
    destruct (ecc_status e); try (by left); try (by right);
      by destruct (did_migrate c1).
  - right. destruct s1; try done;
      try (by destruct (did_migrate c1)).
    rewrite !in_app_iff. tauto.
Qed.

(** X18: a release destroys the address space exactly once, under the
    power-management lock: at once when the lock is free, otherwise when the
    worker runs the item it has queued. *)
Theorem release_destroys_once filp trylock w :
  let va_space := uvm_va_space_get filp in
  let w1 := (uvm_release filp trylock w).2 in
  let pending := drop (length (deferred_release_q w)) (deferred_release_q w1) in
  let w2 := run_q_items pending w1 in
  (uvm_release filp trylock w).1 = (0%Z, {| private_data := 0; f_mapping := 0 |}) /\
  pending = (if trylock then [] else [q_uvm_release_deferred va_space]) /\
  exists new,
    trace w2 = trace w ++ new /\
    count_calls (is_destroy_of va_space) new = 1%nat /\
    lock_run no_locks new = Some no_locks.
Proof.
  cbv zeta. unfold uvm_release. destruct trylock; simpl.
  - rewrite drop_all. split; [done |]. split; [done |].
    eexists. split; [simpl; rewrite <- ?app_assoc; reflexivity |].
    split; [| reflexivity].
    unfold count_calls. simpl. by rewrite N.eqb_refl.
  - rewrite drop_app_length. split; [done |]. split; [done |].
    eexists. split; [simpl; rewrite <- ?app_assoc; reflexivity |].
    split; [| reflexivity].
    unfold count_calls. simpl. by rewrite N.eqb_refl.
Qed.

Section Mmap.
Context {plat : Platform}.

Lemma mmap_request_run vma v e w :
  vmas w !! vma = Some v -> mmap_request_ok v e ->
  uvm_mmap vma e w =
    let w := emit (uvm_down_read_trylock (m_pm_trylock e)) w in
    if negb (m_pm_trylock e) then
      w ← uvm_disable_vma vma w;
      Some (0%Z, w)
    else
      let w := emit (uvm_record_lock_mmap_lock true) w in
      let w := update_vma vma
                 (set_vm_flags (N.lor (vm_flags v) (N.lor VM_MIXEDMAP VM_DONTEXPAND))) w in
      let w := update_vma vma (set_vm_ops uvm_vm_ops_managed) w in
      let '(vma_wrapper, w) := uvm_vma_wrapper_alloc vma (m_new_wrapper e) w in
      let w := update_vma vma (set_vm_private_data vma_wrapper) w in
      let '(ret, allocated, w) :=
        if vma_wrapper =? 0 then ((- ENOMEM)%Z, false, w)
        else uvm_mmap_locked vma v vma_wrapper e w in
      let w :=
        if negb (ret =? 0)%Z && allocated
        then uvm_vma_wrapper_destroy vma_wrapper w else w in
      let w := emit (uvm_record_unlock_mmap_lock true) w in
      let w := emit uvm_up_read w in
      Some (ret, w).
Proof.
  intros Hv (Hg & Hi & Hmm & Hoff & Hfl). unfold uvm_mmap.
  rewrite Hv. simpl. rewrite Hg, Hi. simpl.
  assert (m_va_space_mm_enabled e && negb (m_va_space_mm e =? m_current_mm e)
          = false) as ->.
  { destruct (m_va_space_mm_enabled e); [| done]. simpl.
    rewrite Hmm by done. by rewrite N.eqb_refl. }
  rewrite <- Hoff, N.eqb_refl, Hfl, N.eqb_refl. done.
Qed.

(** What the part under the address-space lock does to the tables and to
    the trace. *)
Lemma uvm_mmap_locked_spec vma v wp e w ret allocated w' :
  uvm_mmap_locked vma v wp e w = (ret, allocated, w') ->
  locks_from (set_mmap_lock_recorded true (set_pm_lock true no_locks)) w
    (set_mmap_lock_recorded true (set_pm_lock true no_locks)) w' /\
  (ret <> 0%Z -> va_ranges w' = va_ranges w) /\
  wrappers w' = (if allocated then wrappers w
                 else if wp =? 0 then wrappers w else delete wp (wrappers w)).
Proof.
  unfold uvm_mmap_locked.
  unfold uvm_va_range_create_mmap.
  destruct (negb (m_range_alloc_ok e)); simpl.
  { intros [= <- <- <-]. split; [check_locks |]. split; [| done].
    intros _. done. }
  destruct (existsb _ (va_ranges w)) eqn:Hex; simpl.
  - destruct (uvm_va_range_find (vm_start v) (va_ranges w)) as [r |].
    + destruct ((node_start r =? vm_start v) && _ && _).
      * intros [= <- <- <-]. split; [check_locks |]. split.
        -- intros _. simpl. unfold uvm_vma_wrapper_destroy.
           by destruct (wp =? 0).
        -- simpl. unfold uvm_vma_wrapper_destroy. by destruct (wp =? 0).
      * intros [= <- <- <-]. split; [check_locks |]. by split.
    + intros [= <- <- <-]. split; [check_locks |]. by split.
  - intros [= <- <- <-]. split; [check_locks |]. split; [| done].
    intros H. by destruct H.
Qed.

(** X19: [uvm_mmap] respects the lock discipline on every path. *)
Theorem mmap_lock_discipline vma e w ret w' :
  uvm_mmap vma e w = Some (ret, w') -> lock_balanced w w'.
Proof.
  unfold uvm_mmap, lock_balanced. intros Hrun.
  destruct (vmas w !! vma) as [v |] eqn:Hv; [| done]. simpl in Hrun.
  repeat match type of Hrun with
  | (if ?b then Some (_, w) else _) = _ =>
      destruct b; [injection Hrun as _ <-; apply locks_from_refl |]
  end.
  destruct (m_pm_trylock e); simpl in Hrun.
  - unfold uvm_vma_wrapper_alloc in Hrun.
    destruct (m_new_wrapper e =? 0) eqn:Hnw.
    + rewrite N.eqb_refl in Hrun. simpl in Hrun.
      injection Hrun as _ <-. check_locks.
    + rewrite Hnw in Hrun.
      match type of Hrun with
      | context [uvm_mmap_locked vma v ?wp e ?x] =>
          destruct (uvm_mmap_locked vma v wp e x) as [[r a] w1] eqn:Hl;
          destruct (uvm_mmap_locked_spec _ _ _ _ _ _ _ _ Hl) as (Hlk & _)
      end.
      injection Hrun as _ <-.
      apply (locks_from_trans _ _
               (set_mmap_lock_recorded true (set_pm_lock true no_locks)) w1).
      { apply (locks_from_trans _ _
                 (set_mmap_lock_recorded true (set_pm_lock true no_locks))
                 (emit (uvm_record_lock_mmap_lock true)
                    (emit (uvm_down_read_trylock true) w)));
          [check_locks |].
        eapply locks_from_trans; [| exact Hlk]. by apply locks_from_same. }
      eexists. split.
      { simpl.
        assert (trace (if negb (r =? 0)%Z && a
                       then uvm_vma_wrapper_destroy (m_new_wrapper e) w1
                       else w1) = trace w1) as ->
          by (destruct (negb (r =? 0)%Z && a);
              [apply trace_wrapper_destroy | done]).
        by rewrite <- app_assoc. }
      reflexivity.
  - destruct (uvm_disable_vma vma _) as [w1 |] eqn:Hd; [| done].
    injection Hrun as _ <-.
    unfold uvm_disable_vma in Hd. simpl in Hd. rewrite Hv in Hd. simpl in Hd.
    injection Hd as <-.
    destruct (negb (vm_private_data v =? 0)); [| check_locks].
    unfold uvm_vma_wrapper_destroy. simpl.
    destruct (vm_private_data v =? 0); check_locks.
Qed.

(** X20: when [uvm_mmap] fails, the wrapper it has allocated is gone again and
    the range table is as before. *)
Theorem mmap_failure_leaves_tables vma e w ret w' :
  uvm_mmap vma e w = Some (ret, w') -> ret <> 0%Z ->
  wrappers w !! m_new_wrapper e = None ->
  wrappers w' = wrappers w /\ va_ranges w' = va_ranges w /\
  deferred_release_q w' = deferred_release_q w.
Proof.
  unfold uvm_mmap. intros Hrun Hret Hfresh.
  destruct (vmas w !! vma) as [v |] eqn:Hv; [| done]. simpl in Hrun.
  repeat match type of Hrun with
  | (if ?b then Some (_, w) else _) = _ =>
      destruct b; [by injection Hrun as _ <- |]
  end.
  destruct (m_pm_trylock e); simpl in Hrun.
  - unfold uvm_vma_wrapper_alloc in Hrun.
    destruct (m_new_wrapper e =? 0) eqn:Hnw.
    + rewrite N.eqb_refl in Hrun. simpl in Hrun. by injection Hrun as _ <-.
    + rewrite Hnw in Hrun.
      match type of Hrun with
      | context [uvm_mmap_locked vma v ?wp e ?x] =>
          destruct (uvm_mmap_locked vma v wp e x) as [[r a] w1] eqn:Hl;
          destruct (uvm_mmap_locked_spec _ _ _ _ _ _ _ _ Hl) as (_ & Hva & Hwr);
          assert (deferred_release_q w1 = deferred_release_q w) as Hq
      end.
      { revert Hl. unfold uvm_mmap_locked, uvm_va_range_create_mmap.
        destruct (negb (m_range_alloc_ok e)); simpl; [by intros [= _ _ <-] |].
        destruct (existsb _ _); simpl; [| by intros [= _ _ <-]].
        destruct (uvm_va_range_find _ _) as [r0 |]; [| by intros [= _ _ <-]].
        destruct (_ && _ && _); [| by intros [= _ _ <-]].
        intros [= _ _ <-]. simpl. unfold uvm_vma_wrapper_destroy.
        by destruct (m_new_wrapper e =? 0). }
      injection Hrun as -> <-. simpl in *. rewrite Hnw in Hwr.
      assert ((ret =? 0)%Z = false) as Hrz by (by apply Z.eqb_neq).
      rewrite Hrz. simpl.
      split; [| split].
      * destruct a; simpl.
        -- unfold uvm_vma_wrapper_destroy. rewrite Hnw. simpl.
           rewrite Hwr. by apply delete_insert_id.
        -- rewrite Hwr. by apply delete_insert_id.
      * destruct a; simpl; [| by apply Hva].
        unfold uvm_vma_wrapper_destroy. rewrite Hnw. simpl. by apply Hva.
      * destruct a; simpl; [| done].
        unfold uvm_vma_wrapper_destroy. by rewrite Hnw.
  - destruct (uvm_disable_vma vma _) as [w1 |]; [| done].
    by injection Hrun as <- _.
Qed.

(** X21: while the power-management lock is busy, [uvm_mmap] succeeds with a
    mapping that is disabled. *)
Theorem mmap_during_suspend_disables vma v e w :
  vmas w !! vma = Some v -> mmap_request_ok v e -> m_pm_trylock e = false ->
  exists w',
    uvm_mmap vma e w = Some (0%Z, w') /\
    vma_disabled vma w' /\
    va_ranges w' = va_ranges w /\
    (vm_private_data v = 0 -> wrappers w' = wrappers w) /\
    trace w' = trace w ++
      [uvm_down_read_trylock false;
       unmap_mapping_range (vm_file v) (shl64 (vm_pgoff v) PAGE_SHIFT)
         (sub64 (vm_end v) (vm_start v))].
Proof.
  intros Hv Hreq Hpm. rewrite (mmap_request_run vma v e w Hv Hreq).
  cbv zeta. rewrite Hpm. simpl.
  destruct (uvm_disable_vma_spec vma v (emit (uvm_down_read_trylock false) w) Hv)
    as (w' & -> & Hvma & _ & Hwr & Hva & Htr).
  exists w'. simpl. split; [done |]. split.
  - eapply vma_disabled_intro; [exact Hvma |]. rewrite Htr.
    apply in_app_iff. right. by left.
  - split; [done |]. split.
    + intros H0. rewrite Hwr. apply N.eqb_eq in H0. by rewrite H0.
    + rewrite Htr. simpl. by rewrite <- app_assoc.
Qed.

(** ** A new record in the table *)

Lemma find_insert_by_start p r tbl :
  p r = true -> (forall x, In x tbl -> p x = false) ->
  List.find p (insert_by_start r tbl) = Some r.
Proof.
  intros Hr. induction tbl as [| x tbl IH]; intros Hno; simpl.
  - by rewrite Hr.
  - destruct (node_start r <=? node_start x); simpl.
    + by rewrite Hr.
    + rewrite (Hno x) by (by left). apply IH. intros y Hy. apply Hno. by right.
Qed.

Lemma insert_by_start_perm r tbl : insert_by_start r tbl ≡ₚ r :: tbl.
Proof.
  induction tbl as [| x tbl IH]; simpl; [done |].
  destruct (node_start r <=? node_start x); [done |].
  rewrite IH. apply Permutation_swap.
Qed.

(** X22: a successful [uvm_mmap] ties the vma, its wrapper and one new record
    of the table together: the record spans the vma, and a lookup of the
    start address finds it. *)
Theorem mmap_creates_managed_range vma v e w :
  vmas w !! vma = Some v -> mmap_request_ok v e -> m_pm_trylock e = true ->
  m_new_wrapper e <> 0 -> m_range_alloc_ok e = true ->
  vm_start v < vm_end v -> vm_end v < 2 ^ 64 ->
  existsb (range_overlaps (vm_start v) (sub64 (vm_end v) 1)) (va_ranges w)
    = false ->
  let wp := m_new_wrapper e in
  exists w' v',
    uvm_mmap vma e w = Some (0%Z, w') /\
    vmas w' !! vma = Some v' /\
    vm_ops v' = uvm_vm_ops_managed /\ vm_private_data v' = wp /\
    vm_flags v' = N.lor (vm_flags v) (N.lor VM_MIXEDMAP VM_DONTEXPAND) /\
    wrappers w' !! wp = Some {| wrapper_vma := vma |} /\
    uvm_va_range_find (vm_start v) (va_ranges w') = Some (managed_range v wp) /\
    va_ranges w' ≡ₚ managed_range v wp :: va_ranges w /\
    node_end (managed_range v wp) + 1 = vm_end v.
Proof.
  intros Hv Hreq Hpm Hnw Hok Hlt Hend Hfree. cbv zeta.
  rewrite (mmap_request_run vma v e w Hv Hreq). cbv zeta.
  rewrite Hpm. simpl. unfold uvm_vma_wrapper_alloc.
  apply N.eqb_neq in Hnw as Hnwb. rewrite Hnwb.
  unfold uvm_mmap_locked, uvm_va_range_create_mmap. rewrite Hok. simpl.
  rewrite Hfree. simpl.
  assert (sub64 (vm_end v) 1 = vm_end v - 1) as Hsub.
  { unfold sub64, wrap64. rewrite (N.mod_small 1) by lia.
    replace (vm_end v + 2 ^ 64 - 1) with (vm_end v - 1 + 1 * 2 ^ 64) by lia.
    rewrite N.Div0.mod_add. apply N.mod_small. lia. }
  rewrite ?Hnwb. simpl.
  eexists _, _. split; [reflexivity |]. simpl.
  split.
  { rewrite !lookup_alter_eq, Hv. simpl. reflexivity. }
  split; [done |]. split; [done |]. split; [done |].
  split; [apply lookup_insert_eq |].
  split.
  { unfold uvm_va_range_find. apply find_insert_by_start.
    - unfold range_contains. simpl. rewrite Hsub.
      apply andb_true_iff. split; apply N.leb_le; lia.
    - intros x Hx.
      assert (range_overlaps (vm_start v) (sub64 (vm_end v) 1) x = false) as Hno.
      { destruct (range_overlaps _ _ x) eqn:Ho; [| done].
        assert (existsb (range_overlaps (vm_start v) (sub64 (vm_end v) 1))
                  (va_ranges w) = true) as Hc
          by (apply existsb_exists; by exists x).
        congruence. }
      unfold range_overlaps, range_contains in *. rewrite Hsub in Hno.
      apply andb_false_iff in Hno as [Hno | Hno]; apply N.leb_gt in Hno.
      + apply andb_false_iff. left. apply N.leb_gt. lia.
      + apply andb_false_iff. right. by apply N.leb_gt. }
  split; [apply insert_by_start_perm |].
  simpl. rewrite Hsub. lia.
Qed.

End Mmap.

Section Open.
Context {plat : Platform}.

Lemma uvm_disable_vma_locks h vma w w' :
  uvm_disable_vma vma w = Some w' -> locks_from h w h w'.
Proof.
  unfold uvm_disable_vma. destruct (vmas w !! vma) as [v |]; [| done].
  simpl. intros [= <-].
  destruct (negb (vm_private_data v =? 0)); check_locks.
Qed.

Lemma uvm_destroy_vma_managed_trace vma z w w' :
  uvm_destroy_vma_managed vma z w = Some w' -> trace w' = trace w.
Proof.
  unfold uvm_destroy_vma_managed. destruct (vmas w !! vma) as [v |]; [| done].
  simpl. intros [= <-].
  assert (forall rs w0,
    trace (fold_left
             (fun w va_range =>
                if z then set_va_ranges (uvm_va_range_zombify va_range) w
                else set_va_ranges (uvm_va_range_destroy va_range) w) rs w0) =
    trace w0) as Hfold.
  { induction rs as [| r rs IH]; intros w0; [done |].
    simpl. rewrite IH. by destruct z. }
  destruct (negb (vm_private_data v =? 0)); simpl;
    rewrite ?trace_wrapper_destroy; apply Hfold.
Qed.

Lemma uvm_vm_open_failure_locks h original new w w' :
  uvm_vm_open_failure original new w = Some w' -> locks_from h w h w'.
Proof.
  unfold uvm_vm_open_failure. intros Hrun.
  destruct (uvm_destroy_vma_managed original false w) as [w1 |] eqn:H1; [| done].
  simpl in Hrun.
  destruct (uvm_disable_vma original w1) as [w2 |] eqn:H2; [| done].
  simpl in Hrun.
  apply uvm_destroy_vma_managed_trace in H1.
  eapply locks_from_trans; [by apply (locks_from_same h w w1) |].
  eapply locks_from_trans; [by eapply uvm_disable_vma_locks |].
  by eapply uvm_disable_vma_locks.
Qed.

Lemma repoint_va_ranges_trace v wp w :
  trace (repoint_va_ranges v wp w) = trace w.
Proof.
  unfold repoint_va_ranges.
  generalize (va_ranges_in_vma v (va_ranges w)). intros rs. revert w.
  induction rs as [| r rs IH]; intros w; [done |]. simpl. by rewrite IH.
Qed.

Lemma uvm_vm_open_managed_locked_locks h vma original v new_end e w w' :
  uvm_vm_open_managed_locked vma original v new_end e w = Some w' ->
  locks_from h w h w'.
Proof.
  unfold uvm_vm_open_managed_locked, uvm_vma_wrapper_alloc.
  destruct (o_new_wrapper e =? 0) eqn:Hnw.
  - rewrite N.eqb_refl. intros Hrun.
    apply (uvm_vm_open_failure_locks h) in Hrun.
    eapply locks_from_trans; [| exact Hrun]. by apply locks_from_same.
  - rewrite Hnw.
    destruct (uvm_va_range_find new_end _) as [r |]; [| done]. simpl.
    destruct (negb (node_end r =? new_end)).
    + destruct (negb (is_ok (o_split_status e))).
      * intros Hrun. apply (uvm_vm_open_failure_locks h) in Hrun.
        eapply locks_from_trans; [| exact Hrun]. by apply locks_from_same.
      * intros [= <-]. apply locks_from_same.
        by rewrite repoint_va_ranges_trace.
    + intros [= <-]. apply locks_from_same.
      by rewrite repoint_va_ranges_trace.
Qed.

(** X23: [uvm_vm_open_managed] respects the lock discipline on every path. *)
Theorem open_managed_lock_discipline vma e w w' :
  uvm_vm_open_managed vma e w = Some w' -> lock_balanced w w'.
Proof.
  unfold uvm_vm_open_managed, lock_balanced. intros Hrun.
  destruct (vmas w !! vma) as [v |]; [| done]. simpl in Hrun.
  destruct (wrappers w !! vm_private_data v) as [wr |]; [| done].
  simpl in Hrun.
  match type of Hrun with
  | context [?m !! wrapper_vma wr] =>
      destruct (m !! wrapper_vma wr) as [o |]; [| done]
  end.
  simpl in Hrun.
  destruct (negb (vm_mm v =? vm_mm o) || _).
  - apply (uvm_disable_vma_locks no_locks) in Hrun.
    eapply locks_from_trans; [| exact Hrun]. by apply locks_from_same.
  - destruct (uvm_vm_open_managed_locked _ _ _ _ _ _) as [w1 |] eqn:Hl; [| done].
    simpl in Hrun. injection Hrun as <-.
    apply (uvm_vm_open_managed_locked_locks
             (set_va_space_lock rwsem_write
                (set_mmap_lock_recorded true no_locks))) in Hl.
    eapply locks_from_trans; [| eapply locks_from_trans; [exact Hl |]].
    + check_locks.
    + check_locks.
Qed.

(** X24: the copy of a managed vma that a fork or a move has made is disabled
    when it is opened; the original, its wrapper and the range table are
    left alone. *)
Theorem open_of_copy_disables_it vma v wr o e w :
  vmas w !! vma = Some v ->
  wrappers w !! vm_private_data v = Some wr ->
  wrapper_vma wr <> vma ->
  vmas w !! wrapper_vma wr = Some o ->
  vm_mm v <> vm_mm o \/ (vm_start v <> vm_start o /\ vm_end v <> vm_end o) ->
  exists w',
    uvm_vm_open_managed vma e w = Some w' /\
    vma_disabled vma w' /\
    vmas w' !! wrapper_vma wr = Some o /\
    wrappers w' = wrappers w /\
    va_ranges w' = va_ranges w /\
    trace w' = trace w ++
      [unmap_mapping_range (vm_file v) (shl64 (vm_pgoff v) PAGE_SHIFT)
         (sub64 (vm_end v) (vm_start v))].
Proof.
  intros Hv Hwr Hne Ho Hcopy. unfold uvm_vm_open_managed.
  rewrite Hv. simpl. rewrite Hwr. simpl.
  rewrite lookup_alter_ne by done. rewrite Ho. simpl.
  assert (negb (vm_mm v =? vm_mm o) ||
          negb (vm_start v =? vm_start o) && negb (vm_end v =? vm_end o) = true)
    as ->.
  { destruct Hcopy as [H | [H1 H2]].
    - apply N.eqb_neq in H. by rewrite H.
    - apply N.eqb_neq in H1, H2. rewrite H1, H2. apply orb_true_r. }
  assert (vmas (update_vma vma (set_vm_private_data 0) w) !! vma =
          Some (set_vm_private_data 0 v)) as Hv'
    by (simpl; by rewrite lookup_alter_eq, Hv).
  destruct (uvm_disable_vma_spec vma _ _ Hv')
    as (w' & -> & Hvma & Hothers & Hwrs & Hva & Htr).
  exists w'. split; [done |]. simpl in *. split.
  - eapply vma_disabled_intro; [exact Hvma |]. simpl. rewrite Htr.
    apply in_app_iff. right. by left.
  - split; [| split; [done | split; [done | done]]].
    rewrite Hothers by done. by rewrite lookup_alter_ne.
Qed.

End Open.

(** ** The pool of service contexts *)

Lemma preallocate_contexts_spec n : forall fresh w,
  let r := preallocate_contexts n fresh w in
  exists added,
    g_cpu_service_block_context_list r.2 =
      rev added ++ g_cpu_service_block_context_list w /\
    trace r.2 = trace w /\
    Forall2 (fun c o => o = Some c) added (take (length added) fresh) /\
    ((r.1 = NV_OK /\ length added = n) \/
     (r.1 = NV_ERR_NO_MEMORY /\ (length added < n)%nat /\
      forall c, fresh !! length added <> Some (Some c))).
Proof.
  induction n as [| n IH]; intros fresh w; cbv zeta.
  - exists []. simpl. repeat split; try done. by left.
  - simpl. destruct fresh as [| [c |] fresh].
    + exists []. simpl. repeat split; try done. right. repeat split; try done. lia.
    + destruct (IH fresh (set_context_list
                            (c :: g_cpu_service_block_context_list w) w))
        as (added & Hpool & Htr & Hall & Hst).
      exists (c :: added). simpl. rewrite Hpool. simpl.
      split; [by rewrite <- app_assoc |]. split; [done |].
      split; [by constructor |].
      destruct Hst as [[-> Hlen] | (-> & Hlen & Hno)].
      * left. by rewrite Hlen.
      * right. split; [done |]. split; [lia | done].
    + exists []. simpl. repeat split; try done. right.
      repeat split; try done. lia.
Qed.

(** X28: the contexts that start-up puts into an empty pool are the ones that
    shutdown frees, whether start-up succeeds or runs out of memory on the
    way; it succeeds exactly when it has added four. *)
Theorem context_pool_round_trip fresh w :
  g_cpu_service_block_context_list w = [] ->
  let r := uvm_service_block_context_init fresh w in
  let x := uvm_service_block_context_exit r.2 in
  g_cpu_service_block_context_list x.2 = [] /\
  Forall2 (fun c o => o = Some c) (rev x.1) (take (length x.1) fresh) /\
  (r.1 = NV_OK /\ length x.1 = 4%nat \/
   r.1 = NV_ERR_NO_MEMORY /\ (length x.1 < 4)%nat /\
   forall c, fresh !! length x.1 <> Some (Some c)).
Proof.
  intros Hempty. cbv zeta. unfold uvm_service_block_context_init.
  destruct (preallocate_contexts_spec 4 fresh w)
    as (added & Hpool & _ & Hall & Hst).
  cbv zeta in *. unfold uvm_service_block_context_exit.
  cbn -[preallocate_contexts].
  rewrite Hpool, Hempty, app_nil_r, rev_involutive, length_rev.
  done.
Qed.

Section Close.
Context {plat : Platform}.

(** ** Semaphore-pool mappings *)

(** X26: closing a semaphore-pool mapping unmaps the pool once, under the
    address-space lock, and changes nothing else. *)
Theorem close_semaphore_pool_unmaps vma current_mm w w' :
  uvm_vm_close_semaphore_pool vma current_mm w = Some w' ->
  lock_balanced w w' /\
  vmas w' = vmas w /\ va_ranges w' = va_ranges w /\ wrappers w' = wrappers w /\
  count_calls is_mem_unmap (new_calls w w') = 1%nat.
Proof.
  unfold uvm_vm_close_semaphore_pool, uvm_destroy_vma_semaphore_pool.
  intros Hrun.
  destruct (current_mm =? 0); simpl in Hrun.
  - destruct (vmas w !! vma) as [v |]; [| done]. simpl in Hrun.
    destruct (uvm_va_range_find _ _) as [r |]; [| done]. simpl in Hrun.
    injection Hrun as <-. simpl.
    split; [check_locks |]. repeat (split; [done |]).
    unfold new_calls. simpl. by rewrite <- !app_assoc, drop_app_length.
  - destruct (vmas w !! vma) as [v |]; [| done]. simpl in Hrun.
    destruct (uvm_va_range_find _ _) as [r |]; [| done]. simpl in Hrun.
    injection Hrun as <-. simpl.
    split; [check_locks |]. repeat (split; [done |]).
    unfold new_calls. simpl. by rewrite <- !app_assoc, drop_app_length.
Qed.

(** X25: a copy of a semaphore-pool mapping is disabled when it is opened.
    After a fork the pool is mapped again for the parent, which is disabled
    too if that fails; after a split or a move the original is disabled. *)
Theorem open_semaphore_pool_disables_copy vma v o map_status w w' :
  vmas w !! vma = Some v ->
  vm_private_data v <> vma ->
  vmas w !! vm_private_data v = Some o ->
  uvm_vm_open_semaphore_pool vma map_status w = Some w' ->
  let is_fork := negb (vm_mm v =? vm_mm o) in
  lock_balanced w w' /\
  vmas w' !! vma =
    Some (set_vm_private_data 0 (set_vm_ops uvm_vm_ops_disabled v)) /\
  vmas w' !! vm_private_data v =
    Some (if is_fork
          then if is_ok map_status then o else set_vm_ops uvm_vm_ops_disabled o
          else set_vm_ops uvm_vm_ops_disabled (set_vm_private_data 0 o)) /\
  va_ranges w' = va_ranges w /\ wrappers w' = wrappers w /\
  count_calls is_mem_unmap (new_calls w w') = 1%nat /\
  count_calls is_mem_map (new_calls w w') = (if is_fork then 1%nat else 0%nat) /\
  (is_fork = true -> In (uvm_mem_map_cpu_user map_status) (new_calls w w')).
Proof.
  intros Hv Hne Ho Hrun. cbv zeta.
  unfold uvm_vm_open_semaphore_pool in Hrun.
  rewrite Hv in Hrun. simpl in Hrun. rewrite Ho in Hrun. simpl in Hrun.
  destruct (uvm_va_range_find (vm_start o) (va_ranges w)) as [r |]; [| done].
  simpl in Hrun.
  destruct (negb (vm_mm v =? vm_mm o)) eqn:Hfork; simpl in Hrun.
  - unfold uvm_disable_vma in Hrun. simpl in Hrun.
    rewrite lookup_alter_eq, Hv in Hrun. simpl in Hrun.
    injection Hrun as <-.
    split.
    { destruct (is_ok map_status); check_locks. }
    split.
    { destruct (is_ok map_status); simpl;
        rewrite ?lookup_alter_ne by done;
        by rewrite !lookup_alter_eq, Hv. }
    split.
    { destruct (is_ok map_status); simpl.
      - by rewrite !lookup_alter_ne.
      - rewrite lookup_alter_eq, !lookup_alter_ne by done. by rewrite Ho. }
    split; [by destruct (is_ok map_status) |].
    split; [by destruct (is_ok map_status) |].
    assert (forall x : world,
              trace (if negb (is_ok map_status)
                     then update_vma (vm_private_data v)
                            (set_vm_ops uvm_vm_ops_disabled) x
                     else x) = trace x) as Htr
      by (intros x; by destruct (negb (is_ok map_status))).
    unfold new_calls. simpl. rewrite Htr. simpl.
    rewrite <- !app_assoc, drop_app_length. simpl.
    split; [done |]. split; [done |]. intros _. tauto.
  - injection Hrun as <-. simpl.
    split; [check_locks |].
    split.
    { rewrite lookup_alter_eq, !lookup_alter_ne, lookup_alter_eq, Hv by done.
      done. }
    split.
    { rewrite lookup_alter_ne, !lookup_alter_eq, lookup_alter_ne, Ho by done.
      done. }
    split; [done |]. split; [done |].
    unfold new_calls. simpl.
    rewrite <- !app_assoc, drop_app_length. simpl.
    split; [done |]. split; [done |]. done.
Qed.

(** ** Closing a managed mapping *)

Lemma zombify_fold rs : forall t,
  fold_left (fun t r => uvm_va_range_zombify r t) rs t =
    map (fun x => if existsb (fun r => same_node r x) rs then set_zombie x else x) t.
Proof.
  induction rs as [| r rs IH]; intros t; simpl.
  - by rewrite map_id.
  - rewrite IH. unfold uvm_va_range_zombify. rewrite map_map.
    apply map_ext. intros x.
    destruct (same_node r x) eqn:Hr; simpl.
    + assert (forall r', same_node r' (set_zombie x) = same_node r' x) as Hsame
        by done.
      rewrite (existsb_ext _ _ _ Hsame) || idtac.
      by destruct (existsb _ rs).
    + done.
Qed.

Lemma uvm_destroy_vma_managed_ranges vma v z w w' :
  vmas w !! vma = Some v ->
  uvm_destroy_vma_managed vma z w = Some w' ->
  vmas w' !! vma = Some (set_vm_private_data 0 v) /\
  (forall x, x <> vma -> vmas w' !! x = vmas w !! x) /\
  wrappers w' = (if vm_private_data v =? 0 then wrappers w
                 else delete (vm_private_data v) (wrappers w)) /\
  va_ranges w' =
    fold_left (fun t r => if z then uvm_va_range_zombify r t
                          else uvm_va_range_destroy r t)
      (va_ranges_in_vma v (va_ranges w)) (va_ranges w).
Proof.
  intros Hv. unfold uvm_destroy_vma_managed. rewrite Hv. simpl.
  intros [= <-].
  assert (forall rs w0,
    fold_left
      (fun w va_range =>
         if z then set_va_ranges (uvm_va_range_zombify va_range) w
         else set_va_ranges (uvm_va_range_destroy va_range) w) rs w0 =
    set_va_ranges
      (fun t => fold_left (fun t r => if z then uvm_va_range_zombify r t
                                      else uvm_va_range_destroy r t) rs t) w0)
    as Hfold.
  { induction rs as [| r rs IH]; intros w0; simpl; [by destruct w0 |].
    rewrite IH. by destruct z. }
  rewrite Hfold.
  destruct (vm_private_data v =? 0) eqn:H0; simpl.
  - split; [| done]. rewrite Hv. f_equal.
    apply N.eqb_eq in H0. destruct v; simpl in *. by subst.
  - unfold uvm_vma_wrapper_destroy. rewrite H0. simpl.
    split; [by rewrite lookup_alter_eq, Hv |].
    split; [| done]. intros x Hx. by rewrite lookup_alter_ne.
Qed.

(** X27: closing a managed mapping takes its records out of the table, or
    marks them as zombies when the last task of a shared address space
    exits; it destroys the wrapper, marks every registered GPU address space
    for a fault-buffer flush, and stops the user channels only for an
    exiting task whose channels still run. *)
Theorem close_managed_clears_vma vma v e w r :
  vmas w !! vma = Some v ->
  uvm_vm_close_managed vma e w = Some r ->
  let w' := closed_world r in
  let exiting := c_current_mm e =? 0 in
  let make_zombie := exiting && c_multi_process_sharing e in
  let under x := range_overlaps (vm_start v) (sub64 (vm_end v) 1) x in
  lock_balanced w w' /\
  vmas w' !! vma = Some (set_vm_private_data 0 v) /\
  (vm_private_data v <> 0 -> wrappers w' !! vm_private_data v = None) /\
  (make_zombie = false ->
   forall x, In x (va_ranges w') -> In x (va_ranges w) /\ under x = false) /\
  (make_zombie = true ->
   Forall2 (fun x x' => x' = x \/ x' = set_zombie x)
     (va_ranges w) (va_ranges w') /\
   forall x, In x (va_ranges w') -> under x = true -> zombie x = true) /\
  flush_marked r = c_registered_gpu_va_spaces e /\
  (In uvm_va_space_stop_all_user_channels (rm_calls r) <->
   exiting = true /\ c_multi_process_sharing e = false /\
   c_user_channels_stopped e = false /\
   (c_va_space_mm_enabled e && (c_va_space_mm e =? 0)) = false).
Proof.
  intros Hv Hrun. cbv zeta. unfold uvm_vm_close_managed in Hrun.
  set (exiting := c_current_mm e =? 0) in *.
  set (z := exiting && c_multi_process_sharing e) in *.
  destruct (uvm_destroy_vma_managed vma z _) as [w1 |] eqn:Hd; [| done].
  simpl in Hrun. injection Hrun as <-. simpl.
  pose proof (uvm_destroy_vma_managed_trace _ _ _ _ Hd) as Htr.
  assert (vmas (emit uvm_va_space_down_write
                  (if negb exiting then emit (uvm_record_lock_mmap_lock true) w
                   else w)) !! vma = Some v) as Hv1
    by (by destruct (negb exiting)).
  destruct (uvm_destroy_vma_managed_ranges _ _ _ _ _ Hv1 Hd)
    as (Hvma & _ & Hwr & Hva).
  assert (forall (b : bool) (f : world -> world) x,
            (forall y, wrappers (f y) = wrappers y /\ vmas (f y) = vmas y /\
                       va_ranges (f y) = va_ranges y) ->
            wrappers (if b then f x else x) = wrappers x /\
            vmas (if b then f x else x) = vmas x /\
            va_ranges (if b then f x else x) = va_ranges x) as Hif
    by (intros b f x Hf; destruct b; [apply Hf | done]).
  split.
  { destruct (negb exiting).
    - eexists. split; [simpl; rewrite Htr; simpl; rewrite <- ?app_assoc;
                       reflexivity | reflexivity].
    - eexists. split; [simpl; rewrite Htr; simpl; rewrite <- ?app_assoc;
                       reflexivity | reflexivity]. }
  split; [by destruct (negb exiting) |].
  split.
  { intros Hnz. apply N.eqb_neq in Hnz.
    destruct (negb exiting); simpl; rewrite Hwr, Hnz;
      apply lookup_delete_eq. }
  assert (va_ranges (if negb exiting
                     then emit (uvm_record_unlock_mmap_lock true)
                            (emit uvm_va_space_up_write w1)
                     else emit uvm_va_space_up_write w1) = va_ranges w1) as ->
    by (by destruct (negb exiting)).
  assert (va_ranges (emit uvm_va_space_down_write
                       (if negb exiting
                        then emit (uvm_record_lock_mmap_lock true) w
                        else w)) = va_ranges w) as Hva0
    by (by destruct (negb exiting)).
  rewrite Hva0 in Hva. rewrite Hva.
  split.
  { intros ->. intros x Hx. by apply destroyed_under_vma in Hx. }
  split.
  { intros ->. rewrite zombify_fold. split.
    - induction (va_ranges w) as [| y t IH] at 1 3; simpl; [constructor |].
      constructor; [| apply IH].
      destruct (existsb _ _); [by right | by left].
    - intros x Hx Hunder. apply in_map_iff in Hx as (y & <- & Hy).
      destruct (existsb _ _) eqn:Hex; [done |].
      assert (range_overlaps (vm_start v) (sub64 (vm_end v) 1) y = true)
        as Hy' by done.
      assert (existsb (fun r => same_node r y)
                (va_ranges_in_vma v (va_ranges w)) = true) as Hc.
      { apply existsb_exists. exists y. split.
        - apply filter_In. done.
        - unfold same_node. apply N.eqb_refl. }
      congruence. }
  split; [done |].
  subst z exiting. clear.
  assert (forall b1 b2 b3 b4 : bool,
    In uvm_va_space_stop_all_user_channels
      (if b1 && negb (b1 && b2)
       then if b3 then []
            else [uvm_va_space_down_read_rm] ++
                 (if negb b4 then [uvm_va_space_stop_all_user_channels] else []) ++
                 [uvm_va_space_up_read_rm]
       else []) <->
    b1 = true /\ b2 = false /\ b4 = false /\ b3 = false) as Hiff.
  { intros [] [] [] []; simpl; intuition congruence. }
  destruct (c_current_mm e =? 0) eqn:Hex.
  - apply N.eqb_eq in Hex. rewrite Hex. rewrite (N.eqb_sym 0).
    apply Hiff.
  - rewrite <- (Hiff false (c_multi_process_sharing e)
                  (c_va_space_mm_enabled e && (c_va_space_mm e =? 0))
                  (c_user_channels_stopped e)). done.
Qed.

End Close.

Lemma resource_run_app r t1 t2 :
  resource_run r (t1 ++ t2) = resource_run r t1 ≫= fun r' => resource_run r' t2.
Proof.
  revert r. induction t1 as [| c t1 IH]; intros r; [done |].
  simpl. destruct (resource_step r c) as [r1 |]; simpl; [apply IH | done].
Qed.

(** X29: loading the module is all or nothing: [uvm_init] returns 0 with the
    globals, the device region, the character device and the tools device
    set up, or an error with everything it had set up torn down again, in
    the reverse order; [uvm_exit] undoes a successful load. *)
Theorem init_all_or_nothing e t :
  let r := uvm_init e t in
  exists new,
    r.2 = t ++ new /\
    (r.1 = 0%Z <->
     i_global_init e = NV_OK /\ i_alloc_chrdev_region e = 0%Z /\
     i_cdev_add e = 0%Z /\ i_tools_init e = 0%Z) /\
    resource_run nothing_held new =
      Some (if (r.1 =? 0)%Z then module_loaded else nothing_held) /\
    forall g t', unload_ptr g = 0 ->
      exists undo, uvm_exit g t' = t' ++ undo /\
                   resource_run module_loaded undo = Some nothing_held.
Proof.
  cbv zeta. unfold uvm_init, uvm_chardev_create, uvm_init_error, uvm_chardev_exit.
  assert (forall g t', unload_ptr g = 0 ->
            exists undo, uvm_exit g t' = t' ++ undo /\
                         resource_run module_loaded undo = Some nothing_held)
    as Hexit.
  { intros g t' Hg. unfold uvm_exit, uvm_test_unload_state_exit, uvm_chardev_exit.
    rewrite Hg. simpl. eexists. split; [by rewrite <- !app_assoc | done]. }
  assert ((- ENODEV)%Z <> 0%Z) as Hnodev by done.
  destruct (i_global_init e) eqn:Hg; simpl;
    try (eexists; split; [rewrite <- ?app_assoc; reflexivity |];
         split; [split; [done | by intros (? & _)] |];
         split; [done | exact Hexit]).
  destruct (i_alloc_chrdev_region e =? 0)%Z eqn:Ha; simpl; rewrite ?Ha; simpl.
  2: { apply Z.eqb_neq in Ha as Ha'.
       eexists. split; [rewrite <- ?app_assoc; reflexivity |].
       split; [split; [done | by intros (_ & ? & _)] |].
       split; [| exact Hexit]. simpl. by rewrite Ha. }
  destruct (i_cdev_add e =? 0)%Z eqn:Hc; simpl; rewrite ?Hc; simpl.
  2: { apply Z.eqb_neq in Hc as Hc'.
       eexists. split; [rewrite <- ?app_assoc; reflexivity |].
       split; [split; [done | by intros (_ & _ & ? & _)] |].
       split; [| exact Hexit]. simpl. by rewrite Ha, Hc. }
  destruct (i_tools_init e =? 0)%Z eqn:Ht; simpl; rewrite ?Ht; simpl.
  2: { apply Z.eqb_neq in Ht as Ht'.
       eexists. split; [rewrite <- ?app_assoc; reflexivity |].
       split; [split; [done | by intros (_ & _ & _ & ?)] |].
       split; [| exact Hexit]. simpl. by rewrite Ha, Hc, Ht. }
  apply Z.eqb_eq in Ha as Ha', Hc as Hc', Ht as Ht'.
  eexists. split; [rewrite <- ?app_assoc; reflexivity |].
  split; [done |]. split; [| exact Hexit].
  simpl. by rewrite Ha, Hc, Ht.
Qed.

Lemma remove_fresh page l :
  page ∉ l -> List.remove N.eq_dec page (page :: l) = l.
Proof.
  intros H. simpl. destruct (N.eq_dec page page) as [_ | Hn]; [| done].
  apply notin_remove. by rewrite <- list_elem_of_In.
Qed.

Lemma unmap_and_unpin page r :
  page ∉ pinned r -> page ∉ mapped r ->
  resource_run (with_page page r) [kunmap page; put_page page] = Some r.
Proof.
  intros Hp Hm. destruct r as [g rg cd tl pn mp].
  cbn -[List.remove] in *.
  rewrite bool_decide_true by (by left). cbn -[List.remove].
  rewrite (remove_fresh page mp Hm).
  rewrite bool_decide_true by (by left).
  rewrite bool_decide_false by done. cbn -[List.remove].
  by rewrite (remove_fresh page pn Hp).
Qed.

Lemma pin_and_unpin page ret r :
  (0 <? ret)%Z = true -> page ∉ pinned r -> page ∉ mapped r ->
  resource_run r [nv_mmap_read_lock; NV_GET_USER_PAGES ret page;
                  nv_mmap_read_unlock; uvm_mutex_lock_global;
                  put_page page; uvm_mutex_unlock_global] = Some r.
Proof.
  intros Hret Hp Hm. destruct r as [g rg cd tl pn mp].
  cbn -[List.remove] in *.
  rewrite Hret.
  rewrite bool_decide_true by (by left).
  rewrite bool_decide_false by done. cbn -[List.remove].
  by rewrite (remove_fresh page pn Hp).
Qed.

Lemma pin_and_map page ret r :
  (0 <? ret)%Z = true ->
  resource_run r [nv_mmap_read_lock; NV_GET_USER_PAGES ret page;
                  nv_mmap_read_unlock; uvm_mutex_lock_global;
                  kmap page; uvm_mutex_unlock_global] =
    Some (with_page page r).
Proof.
  intros Hret. destruct r as [g rg cd tl pn mp]. simpl in *.
  rewrite Hret.
  by rewrite bool_decide_true by (by left).
Qed.

Lemma pin_refused page ret r :
  (0 <? ret)%Z = false ->
  resource_run r [nv_mmap_read_lock; NV_GET_USER_PAGES ret page;
                  nv_mmap_read_unlock] = Some r.
Proof.
  intros Hret. destruct r as [g rg cd tl pn mp]. simpl in *. by rewrite Hret.
Qed.

Section Unload.
Context {plat : Platform} {codes : StatusCodes}.

Lemma aligned_offset_fits x :
  3 <= PAGE_SHIFT -> IS_ALIGNED x 8 = true ->
  page_offset x + 8 <= PAGE_SIZE /\ IS_ALIGNED (page_offset x) 8 = true.
Proof.
  intros Hs Hal. unfold IS_ALIGNED, page_offset, PAGE_SIZE in *.
  apply N.eqb_eq in Hal.
  change (8 - 1) with (N.ones 3) in *.
  replace (2 ^ PAGE_SHIFT - 1) with (N.ones PAGE_SHIFT)
    by (rewrite N.ones_equiv; lia).
  rewrite !N.land_ones in *.
  set (s := PAGE_SHIFT) in *.
  assert (2 ^ s = 2 ^ 3 * 2 ^ (s - 3)) as Hpow
    by (rewrite <- N.pow_add_r; f_equal; lia).
  assert (0 < 2 ^ (s - 3)) as Hpos by (apply N.neq_0_lt_0, N.pow_nonzero; lia).
  assert ((x mod 2 ^ s) mod 2 ^ 3 = 0) as Hmod.
  { rewrite Hpow, N.Div0.mod_mul_r, Hal, N.add_0_l, N.mul_comm.
    apply N.Div0.mod_mul. }
  split; [| apply N.eqb_eq; exact Hmod].
  pose proof (N.mod_upper_bound x (2 ^ s) ltac:(apply N.pow_nonzero; lia)) as Hlt.
  pose proof (N.Div0.div_mod (x mod 2 ^ s) (2 ^ 3)) as Hdm.
  rewrite Hmod, N.add_0_r in Hdm.
  set (q := (x mod 2 ^ s) / 2 ^ 3) in *. set (k := 2 ^ (s - 3)) in *.
  set (y := x mod 2 ^ s) in *. clearbody q k y.
  rewrite Hpow in *. change (2 ^ 3) with 8 in *. nia.
Qed.

(** X30: registering the unload-state buffer leaves no page reference behind
    when it fails, and when it succeeds the status word is zeroed and lies
    within the page that is pinned and mapped; unloading releases it. *)
Theorem unload_state_buffer_registration buf e g t r :
  3 <= PAGE_SHIFT -> u_get_user_pages e <> 0%Z -> u_kmap e <> 0 ->
  u_page e ∉ pinned r -> u_page e ∉ mapped r ->
  let out := uvm_test_register_unload_state_buffer buf e g t in
  let registered :=
    IS_ALIGNED buf 8 && (0 <? u_get_user_pages e)%Z && (unload_ptr g =? 0) in
  exists new,
    out.2 = t ++ new /\
    resource_run r new = Some (if registered then with_page (u_page e) r else r) /\
    if registered then
      out.1.1 = NV_OK /\
      unload_word out.1.2 = 0 /\ unload_page out.1.2 = u_page e /\
      u_kmap e <= unload_ptr out.1.2 /\
      unload_ptr out.1.2 + 8 <= u_kmap e + PAGE_SIZE /\
      (forall t', exists undo,
          uvm_test_unload_state_exit out.1.2 t' = t' ++ undo /\
          resource_run (with_page (u_page e) r) undo = Some r)
    else
      out.1.2 = g /\
      out.1.1 = (if negb (IS_ALIGNED buf 8) then NV_ERR_INVALID_ADDRESS
                 else if (u_get_user_pages e <? 0)%Z
                      then errno_to_nv_status (u_get_user_pages e)
                      else NV_ERR_IN_USE).
Proof.
  intros Hs Hret Hkmap Hpin Hmap. cbv zeta.
  unfold uvm_test_register_unload_state_buffer.
  destruct (IS_ALIGNED buf 8) eqn:Hal; simpl.
  2: { exists []. by rewrite app_nil_r. }
  destruct (u_get_user_pages e <? 0)%Z eqn:Hneg; simpl.
  { assert ((0 <? u_get_user_pages e)%Z = false) as Hpos by lia.
    rewrite Hpos. simpl.
    eexists. split; [reflexivity |]. split; [by apply pin_refused | done]. }
  assert ((0 <? u_get_user_pages e)%Z = true) as Hpos by lia.
  rewrite Hpos. simpl.
  destruct (unload_ptr g =? 0) eqn:Hptr; simpl.
  - destruct (aligned_offset_fits buf Hs Hal) as [Hfit _].
    eexists. split; [rewrite <- !app_assoc; reflexivity |].
    split; [by apply pin_and_map |].
    split; [done |]. split; [done |]. split; [done |].
    split; [lia |]. split; [lia |].
    intros t'. unfold uvm_test_unload_state_exit. simpl.
    assert ((u_kmap e + page_offset buf =? 0) = false) as ->
      by (apply N.eqb_neq; lia).
    simpl. eexists. split; [reflexivity |]. by apply unmap_and_unpin.
  - eexists. split; [rewrite <- !app_assoc; reflexivity |].
    split; [by apply pin_and_unpin | done].
Qed.

End Unload.

Lemma fault_lock_discipline_witness :
  exists w',
    uvm_vm_fault 0x7f0000001000 true throttled_fault_env
      (world_with_pool [blank_context]) = Some (VM_FAULT_NOPAGE, w') /\
    lock_balanced (world_with_pool [blank_context]) w'.
Proof.
  assert (exists w', uvm_vm_fault 0x7f0000001000 true throttled_fault_env
            (world_with_pool [blank_context]) = Some (VM_FAULT_NOPAGE, w'))
    as [w' Hrun] by (eexists; vm_compute; reflexivity).
  exists w'. split; [exact Hrun |].
  exact (fault_lock_discipline _ _ _ _ _ _ Hrun).
Defined.

Lemma fault_returns_context_witness :
  exists w' c',
    uvm_vm_fault 0x7f0000001000 true throttled_fault_env
      (world_with_pool [blank_context]) = Some (VM_FAULT_NOPAGE, w') /\
    g_cpu_service_block_context_list w' = [c'].
Proof.
  assert (exists w', uvm_vm_fault 0x7f0000001000 true throttled_fault_env
            (world_with_pool [blank_context]) = Some (VM_FAULT_NOPAGE, w'))
    as [w' Hrun] by (eexists; vm_compute; reflexivity).
  destruct (fault_returns_context 0x7f0000001000 true throttled_fault_env
              (world_with_pool [blank_context]) _ w' eq_refl eq_refl Hrun)
    as [_ [c' Hc']].
  by exists w', c'.
Defined.

Lemma fault_loop_stops_at_final_attempt_witness :
  exists r,
    fault_loop 0x7f0000001000 true [thrashing_attempt 0; successful_attempt]
      NV_OK blank_context empty_world = Some r /\
    fault_loop 0x7f0000001000 true
      ([thrashing_attempt 0; successful_attempt] ++ [thrashing_attempt 0])
      NV_OK blank_context empty_world = Some r.
Proof.
  assert (Exists final_attempt [thrashing_attempt 0; successful_attempt]) as Hex.
  { apply Exists_cons. right. apply Exists_cons. left. right. done. }
  destruct (fault_loop_stops_at_final_attempt 0x7f0000001000 true _ NV_OK
              blank_context empty_world Hex) as (r & Hr & Hmore).
  exists r. split; [exact Hr | apply Hmore].
Defined.

Lemma fault_resolved_only_with_clean_ecc_witness :
  exists w' new,
    uvm_vm_fault 0x7f0000001000 true throttled_fault_env
      (world_with_pool [blank_context]) = Some (VM_FAULT_NOPAGE, w') /\
    trace w' = trace (world_with_pool [blank_context]) ++ new /\
    (In (uvm_global_mask_check_ecc_error NV_OK) new \/
     In (uvm_tools_record_cpu_fatal_fault 0x7f0000001000 true NV_ERR_BUSY_RETRY)
        new).
Proof.
  assert (exists w', uvm_vm_fault 0x7f0000001000 true throttled_fault_env
            (world_with_pool [blank_context]) = Some (VM_FAULT_NOPAGE, w'))
    as [w' Hrun] by (eexists; vm_compute; reflexivity).
  assert (N.land VM_FAULT_NOPAGE VM_FAULT_NOPAGE <> 0) as Hret by discriminate.
  destruct (fault_resolved_only_with_clean_ecc 0x7f0000001000 true
              throttled_fault_env (world_with_pool [blank_context]) _ w'
              eq_refl eq_refl Hrun Hret) as (new & Htr & [[Hin _] | Hin]).
  - exists w', new. split; [exact Hrun |]. split; [exact Htr | by left].
  - exists w', new. split; [exact Hrun |]. split; [exact Htr | by right].
Defined.

Lemma requested_vma_ok : mmap_request_ok (plat := sample_platform) requested_vma ready_mmap_env.
Proof. repeat split; try reflexivity. intros H. discriminate H. Qed.

Lemma mmap_lock_discipline_witness :
  exists w',
    uvm_mmap (plat := sample_platform) 0x1000 ready_mmap_env (world_with_vma 0x1000 requested_vma)
      = Some (0%Z, w') /\
    lock_balanced (world_with_vma 0x1000 requested_vma) w'.
Proof.
  assert (exists w', uvm_mmap (plat := sample_platform) 0x1000 ready_mmap_env
            (world_with_vma 0x1000 requested_vma) = Some (0%Z, w'))
    as [w' Hrun] by (eexists; vm_compute; reflexivity).
  exists w'. split; [exact Hrun |].
  exact (mmap_lock_discipline (plat := sample_platform) _ _ _ _ _ Hrun).
Defined.

Lemma mmap_failure_leaves_tables_witness :
  exists w',
    uvm_mmap (plat := sample_platform) 0x1000 range_failing_mmap_env (world_with_vma 0x1000 requested_vma)
      = Some ((- ENOMEM)%Z, w') /\
    wrappers w' = ∅ /\ va_ranges w' = [].
Proof.
  assert (exists w', uvm_mmap (plat := sample_platform) 0x1000 range_failing_mmap_env
            (world_with_vma 0x1000 requested_vma) = Some ((- ENOMEM)%Z, w'))
    as [w' Hrun] by (eexists; vm_compute; reflexivity).
  assert ((- ENOMEM)%Z <> 0%Z) as Hret by discriminate.
  destruct (mmap_failure_leaves_tables (plat := sample_platform) _ _ _ _ _ Hrun Hret eq_refl)
    as (Hw & Hv & _).
  exists w'. split; [exact Hrun |]. split; [exact Hw | exact Hv].
Defined.

Lemma mmap_during_suspend_disables_witness :
  exists w',
    uvm_mmap (plat := sample_platform) 0x1000 suspended_mmap_env (world_with_vma 0x1000 requested_vma)
      = Some (0%Z, w') /\
    vma_disabled (plat := sample_platform) 0x1000 w'.
Proof.
  assert (mmap_request_ok (plat := sample_platform) requested_vma suspended_mmap_env) as Hreq.
  { repeat split; try reflexivity. intros H. discriminate H. }
  destruct (mmap_during_suspend_disables (plat := sample_platform) 0x1000 requested_vma
              suspended_mmap_env (world_with_vma 0x1000 requested_vma)
              eq_refl Hreq eq_refl) as (w' & Hrun & Hdis & _).
  exists w'. split; [exact Hrun | exact Hdis].
Defined.

Lemma mmap_creates_managed_range_witness :
  exists w',
    uvm_mmap (plat := sample_platform) 0x1000 ready_mmap_env (world_with_vma 0x1000 requested_vma)
      = Some (0%Z, w') /\
    wrappers w' !! 0x5000 = Some {| wrapper_vma := 0x1000 |} /\
    uvm_va_range_find 0x7f0000000000 (va_ranges w') =
      Some (managed_range requested_vma 0x5000).
Proof.
  assert (m_new_wrapper ready_mmap_env <> 0) as Hnw by discriminate.
  assert (vm_start requested_vma < vm_end requested_vma) as Hlt by reflexivity.
  assert (vm_end requested_vma < 2 ^ 64) as Hend by reflexivity.
  destruct (mmap_creates_managed_range (plat := sample_platform) 0x1000 requested_vma ready_mmap_env
              (world_with_vma 0x1000 requested_vma) eq_refl
              requested_vma_ok eq_refl Hnw eq_refl Hlt Hend eq_refl)
    as (w' & v' & Hrun & _ & _ & _ & _ & Hw & Hf & _).
  exists w'. split; [exact Hrun |]. split; [exact Hw | exact Hf].
Defined.

Lemma open_managed_lock_discipline_witness :
  exists w',
    uvm_vm_open_managed (plat := sample_platform) 0x2000 failing_split_env split_world = Some w' /\
    lock_balanced split_world w'.
Proof.
  assert (exists w', uvm_vm_open_managed (plat := sample_platform) 0x2000 failing_split_env split_world
                     = Some w')
    as [w' Hrun] by (eexists; vm_compute; reflexivity).
  exists w'. split; [exact Hrun |].
  exact (open_managed_lock_discipline (plat := sample_platform) _ _ _ _ Hrun).
Defined.

Lemma open_of_copy_disables_it_witness :
  exists w',
    uvm_vm_open_managed (plat := sample_platform) 0x3000 failing_split_env forked_world = Some w' /\
    vma_disabled (plat := sample_platform) 0x3000 w' /\
    vmas w' !! 0x1000 = Some managed_vma /\
    va_ranges w' = va_ranges forked_world.
Proof.
  assert (wrapper_vma {| wrapper_vma := 0x1000 |} <> 0x3000) as Hne
    by discriminate.
  assert (vm_mm forked_vma <> vm_mm managed_vma \/
          (vm_start forked_vma <> vm_start managed_vma /\
           vm_end forked_vma <> vm_end managed_vma)) as Hcopy
    by (left; discriminate).
  destruct (open_of_copy_disables_it (plat := sample_platform) 0x3000 forked_vma
              {| wrapper_vma := 0x1000 |} managed_vma failing_split_env
              forked_world eq_refl eq_refl Hne eq_refl Hcopy)
    as (w' & Hrun & Hdis & Ho & _ & Hva & _).
  exists w'. split; [exact Hrun |]. split; [exact Hdis |].
  split; [exact Ho | exact Hva].
Defined.

Lemma open_semaphore_pool_disables_copy_witness :
  exists w',
    uvm_vm_open_semaphore_pool (plat := sample_platform) 0x3000 NV_OK pool_world = Some w' /\
    lock_balanced pool_world w' /\
    vmas w' !! 0x1000 = Some pool_vma /\
    count_calls is_mem_map (new_calls pool_world w') = 1%nat.
Proof.
  assert (exists w', uvm_vm_open_semaphore_pool (plat := sample_platform) 0x3000 NV_OK pool_world
                     = Some w')
    as [w' Hrun] by (eexists; vm_compute; reflexivity).
  assert (vm_private_data forked_pool_vma <> 0x3000) as Hne by discriminate.
  destruct (open_semaphore_pool_disables_copy (plat := sample_platform) 0x3000 forked_pool_vma pool_vma
              NV_OK pool_world w' eq_refl Hne eq_refl Hrun)
    as (Hl & _ & Ho & _ & _ & _ & Hm & _).
  exists w'. split; [exact Hrun |]. split; [exact Hl |].
  split; [exact Ho | exact Hm].
Defined.

Lemma close_semaphore_pool_unmaps_witness :
  exists w',
    uvm_vm_close_semaphore_pool 0x1000 1 pool_world = Some w' /\
    lock_balanced pool_world w' /\
    count_calls is_mem_unmap (new_calls pool_world w') = 1%nat.
Proof.
  assert (exists w', uvm_vm_close_semaphore_pool 0x1000 1 pool_world = Some w')
    as [w' Hrun] by (eexists; vm_compute; reflexivity).
  destruct (close_semaphore_pool_unmaps 0x1000 1 pool_world w' Hrun)
    as (Hl & _ & _ & _ & Hc).
  exists w'. split; [exact Hrun |]. split; [exact Hl | exact Hc].
Defined.

Lemma close_managed_clears_vma_witness :
  exists r,
    uvm_vm_close_managed (plat := sample_platform) 0x1000 munmap_env forked_world = Some r /\
    lock_balanced forked_world (closed_world r) /\
    wrappers (closed_world r) !! 0x5000 = None /\
    flush_marked r = [0; 1].
Proof.
  assert (exists r, uvm_vm_close_managed (plat := sample_platform) 0x1000 munmap_env forked_world
                    = Some r)
    as [r Hrun] by (eexists; vm_compute; reflexivity).
  assert (vm_private_data managed_vma <> 0) as Hnz by discriminate.
  destruct (close_managed_clears_vma (plat := sample_platform) 0x1000 managed_vma munmap_env
              forked_world r eq_refl Hrun)
    as (Hl & _ & Hw & _ & _ & Hf & _).
  exists r. split; [exact Hrun |]. split; [exact Hl |].
  split; [exact (Hw Hnz) | exact Hf].
Defined.

Lemma unload_state_buffer_registration_witness :
  exists g' t',
    uvm_test_register_unload_state_buffer (plat := sample_platform)
      (codes := sample_codes)
      0x7f0000001018 sample_unload_env no_unload_state [] = (NV_OK, g', t') /\
    unload_word g' = 0 /\
    unload_ptr g' + 8 <= u_kmap sample_unload_env + PAGE_SIZE (plat := sample_platform) /\
    resource_run module_loaded t' = Some (with_page 7 module_loaded).
Proof.
  assert (3 <= PAGE_SHIFT (Platform := sample_platform)) as Hs by (vm_compute; discriminate).
  assert (u_get_user_pages sample_unload_env <> 0%Z) as Hret by discriminate.
  assert (u_kmap sample_unload_env <> 0) as Hk by discriminate.
  assert (u_page sample_unload_env ∉ pinned module_loaded) as Hp
    by apply not_elem_of_nil.
  assert (u_page sample_unload_env ∉ mapped module_loaded) as Hm
    by apply not_elem_of_nil.
  destruct (unload_state_buffer_registration (plat := sample_platform)
              (codes := sample_codes)
              0x7f0000001018 sample_unload_env no_unload_state []
              module_loaded Hs Hret Hk Hp Hm)
    as (new & Hnew & Hrun & Hst & Hw & _ & _ & Hfit & _).
  eexists _, _. split; [reflexivity |].
  split; [exact Hw |]. split; [exact Hfit |].
  simpl in Hnew. rewrite <- Hnew in Hrun. exact Hrun.
Defined.

Lemma context_pool_round_trip_witness :
  g_cpu_service_block_context_list empty_world = [] /\
  g_cpu_service_block_context_list
    (uvm_service_block_context_exit
       (uvm_service_block_context_init
          [Some blank_context; Some stale_context; None] empty_world).2).2 = [].
Proof.
  split; [reflexivity |].
  exact (proj1 (context_pool_round_trip
                  [Some blank_context; Some stale_context; None] empty_world
                  eq_refl)).
Defined.

End UvmLifeProofs.
